(** * Supply-chain automation: demand forecasting and automatic reordering

    A shallow embedding of the two Flask blueprints that carry the
    algorithmic core of the service,

      - [src/routes/reorder.py]     (reorder rules, trigger evaluation,
                                     order creation and approval), and
      - [src/routes/forecasting.py] (historical series, forecast engine,
                                     accuracy tracking),

    followed by the properties established about them.

    Modelling conventions.

    - JSON numbers are exact rationals ([Q]).  Python integers are exact
      already; binary floating point coincides with the rational model
      wherever the operations are exact (for instance [q * 1.5] for an
      integer [q], or sums of small integers).
    - The module-level dictionaries of the two files are fields of one
      [world] record that every handler threads through.  Dictionaries
      whose iteration order is observed by the code are insertion-ordered
      association lists ([dict]); dictionaries that are only looked up
      are [gmap]s.
    - [datetime.utcnow()] is a read of an external clock.  The clock is an
      arbitrary sequence of readings held in the world; every call
      consumes the next reading.
    - An exception leaves the mutations made so far in place, as in
      Python: handlers are functions [world -> result A * world].
    - Request bodies are taken after the handlers' required-field checks,
      as typed arguments. *)

From Stdlib Require Import ZArith QArith Qround Qabs String Ascii List Bool Lia Lqa.
From Stdlib Require Import Sorting.Sorted Sorting.Permutation.
From stdpp Require Import base option list gmap strings pretty.
Import ListNotations.

Local Open Scope Z_scope.

(* ===================================================================== *)
(** * Python primitives used by the two source files                      *)
(* ===================================================================== *)

Module Py.

(** Exceptions that the modelled code can raise. *)
Inductive exn : Type :=
| ValueError
| TypeError
| ZeroDivisionError.

Inductive result (A : Type) : Type :=
| Ok (a : A)
| Raise (e : exn).
Arguments Ok {A} a.
Arguments Raise {A} e.

Global Instance result_ret : MRet result := @Ok.
Global Instance result_bind : MBind result :=
  fun A B k r => match r with Ok a => k a | Raise e => Raise e end.

(** ** Numbers *)

(** [x < y] and [x == y] on numbers, as booleans. *)
Definition ltb (x y : Q) : bool := negb (Qle_bool y x).
Definition eqb (x y : Q) : bool := Qeq_bool x y.

(** [max(a, b)] returns [a] unless [b > a]. *)
Definition max (a b : Q) : Q := if ltb a b then b else a.

(** [a / b]: true division, raising on a zero divisor. *)
Definition truediv (a b : Q) : result Q :=
  if eqb b 0 then Raise ZeroDivisionError else Ok (a / b)%Q.

(** [int(x)]: truncation toward zero. *)
Definition int (x : Q) : Z := Z.quot (Qnum x) (Zpos (Qden x)).

(** [round(x)]: to the nearest integer, ties to the even neighbour. *)
Definition round (x : Q) : Z :=
  let f := Qfloor x in
  let r := (x - inject_Z f)%Q in
  if ltb r (1 # 2) then f
  else if ltb (1 # 2) r then f + 1
  else if Z.even f then f else f + 1.

(** [round(x, 2)]. *)
Definition round2 (x : Q) : Q := (round (x * 100)%Q # 100)%Q.

(** [sum(l)]: left to right, starting from [0]. *)
Definition sum (l : list Q) : Q := fold_left Qplus l 0%Q.

(** ** Slices *)

(** The clamping of a slice bound against a sequence of length [n]:
    negative bounds count from the end, everything is cut to [0..n]. *)
Definition clamp (n : Z) (i : Z) : nat :=
  Z.to_nat (if i <? 0 then Z.max 0 (n + i) else Z.min n i).

(** [l[start:stop]] with step 1; a missing bound is [None]. *)
Definition slice {A} (start stop : option Z) (l : list A) : list A :=
  let n := Z.of_nat (length l) in
  let lo := from_option (clamp n) 0%nat start in
  let hi := from_option (clamp n) (length l) stop in
  firstn (hi - lo) (skipn lo l).

(** [range(n)] as a list of integers (empty when [n <= 0]). *)
Definition range (n : Z) : list Z := map Z.of_nat (seq 0 (Z.to_nat n)).

(** ** Strings *)

(** [s.lower()] on ASCII letters. *)
Definition lower_ascii (c : ascii) : ascii :=
  let n := nat_of_ascii c in
  if ((65 <=? n) && (n <=? 90))%nat then ascii_of_nat (n + 32) else c.

Fixpoint lower (s : string) : string :=
  match s with
  | EmptyString => EmptyString
  | String c s' => String (lower_ascii c) (lower s')
  end.

(** [sub in s]. *)
Definition contains (sub s : string) : bool :=
  match String.index 0 sub s with
  | Some _ => true
  | None => false
  end.

(** ** Naive UTC datetimes

    A [datetime] is the number of microseconds since
    0001-01-01T00:00:00, the origin of Python's proleptic Gregorian
    ordinals. *)
Definition datetime : Type := Z.

Definition us_per_day : Z := 86400000000.

(** [t.toordinal()], [t.weekday()] (Monday is 0). *)
Definition toordinal (t : datetime) : Z := t / us_per_day + 1.
Definition weekday (t : datetime) : Z := (toordinal t + 6) mod 7.

(** [t + timedelta(days=n)] and [(a - b).days]. *)
Definition add_days (t : datetime) (n : Z) : datetime := t + n * us_per_day.
Definition days_between (a b : datetime) : Z := (a - b) / us_per_day.

(** The calendar month of an ordinal, after CPython's [_ord2ymd]. *)
Definition days_before_month (m : Z) : Z :=
  nth (Z.to_nat m) [0; 0; 31; 59; 90; 120; 151; 181; 212; 243; 273; 304; 334] 0.
Definition days_in_month (m : Z) : Z :=
  nth (Z.to_nat m) [0; 31; 28; 31; 30; 31; 30; 31; 31; 30; 31; 30; 31] 0.

Definition ord2ymd (ordinal : Z) : Z * Z * Z :=
  let n := ordinal - 1 in
  let n400 := n / 146097 in
  let n := n mod 146097 in
  let year := n400 * 400 + 1 in
  let n100 := n / 36524 in
  let n := n mod 36524 in
  let n4 := n / 1461 in
  let n := n mod 1461 in
  let n1 := n / 365 in
  let n := n mod 365 in
  let year := year + n100 * 100 + n4 * 4 + n1 in
  if (n1 =? 4) || (n100 =? 4) then (year - 1, 12, 31)
  else
    let leapyear := (n1 =? 3) && (negb (n4 =? 24) || (n100 =? 3)) in
    let month := Z.shiftr (n + 50) 5 in
    let preceding :=
      days_before_month month + (if (2 <? month) && leapyear then 1 else 0) in
    if n <? preceding then
      let month' := month - 1 in
      let preceding' :=
        preceding
        - (days_in_month month' + (if (month' =? 2) && leapyear then 1 else 0)) in
      (year, month', n - preceding' + 1)
    else (year, month, n - preceding + 1).

Definition month (t : datetime) : Z := snd (fst (ord2ymd (toordinal t))).

(** The reverse direction, [date(y, m, d).toordinal()], used to write
    concrete instants. *)
Definition is_leap (y : Z) : bool :=
  (y mod 4 =? 0) && (negb (y mod 100 =? 0) || (y mod 400 =? 0)).
Definition ymd2ord (y m d : Z) : Z :=
  let y1 := y - 1 in
  y1 * 365 + y1 / 4 - y1 / 100 + y1 / 400
  + days_before_month m + (if (2 <? m) && is_leap y then 1 else 0) + d.
Definition at_midnight (y m d : Z) : datetime := (ymd2ord y m d - 1) * us_per_day.

(** What [datetime.fromisoformat] yields for a string it accepts: a
    naive datetime, or an aware one (the string carries a UTC offset),
    of which the wall-clock fields are kept. *)
Inductive parsed : Type :=
| Naive (t : datetime)
| Aware (t : datetime).

Definition wall (p : parsed) : datetime :=
  match p with Naive t | Aware t => t end.

(** ** Built-ins of the reporting code *)

(** [round(x, 1)]. *)
Definition round1 (x : Q) : Q := (round (x * 10)%Q # 10)%Q.

(** [max(l, key=key)]: the scan keeps the first item and replaces it by
    a later one only when the later key is greater, so that of several
    maximal items the earliest is returned.  [less a b] is
    [key(a) < key(b)]; [None] stands for the [ValueError] on an empty
    sequence. *)
Definition max_key {A} (less : A -> A -> bool) (l : list A) : option A :=
  match l with
  | [] => None
  | x :: l' =>
      Some (fold_left (fun maxval item => if less maxval item then item else maxval)
                      l' x)
  end.

End Py.

(* ===================================================================== *)
(** * Insertion-ordered dictionaries                                      *)
(* ===================================================================== *)

(** A Python [dict] whose iteration order the code observes: the entries
    in insertion order.  Assigning to a key that is present replaces the
    value in place; a new key goes to the end. *)
Abbreviation dict K V := (list (K * V)) (only parsing).

Section dict.
Context {K V : Type} `{EqDecision K}.

Fixpoint dict_get (k : K) (d : dict K V) : option V :=
  match d with
  | [] => None
  | (k', v) :: d' => if decide (k = k') then Some v else dict_get k d'
  end.

Fixpoint dict_set (k : K) (v : V) (d : dict K V) : dict K V :=
  match d with
  | [] => [(k, v)]
  | (k', v') :: d' =>
      if decide (k = k') then (k, v) :: d' else (k', v') :: dict_set k v d'
  end.

Definition dict_values (d : dict K V) : list V := map snd d.
End dict.

(* ===================================================================== *)
(** * Data model                                                          *)
(* ===================================================================== *)

(** A reorder rule, as stored by [create_reorder_rule].  Keys that the
    code reads with [rule.get(key, default)] are optional; the others are
    read with [rule[key]]. *)
Module Rule.
Record t : Type := mk {
  rule_id : string;
  product_id : string;
  product_name : option string;
  trigger_type : string;
  trigger_value : Q;
  reorder_quantity : Q;
  supplier_id : option string;
  max_cost : Q;
  unit_cost : option Q;
  approval_required : option bool;
  approval_threshold : option Q;
  lead_time_days : option Z;
  safety_stock : Q;
  seasonal_adjustment : option bool;
  status : string;
  created_date : Py.datetime;
  last_triggered : option Py.datetime;
  total_triggers : Z
}.

(** [rule['last_triggered'] = now; rule['total_triggers'] += 1]. *)
Definition stamp (now : Py.datetime) (r : t) : t :=
  mk (rule_id r) (product_id r) (product_name r) (trigger_type r)
     (trigger_value r) (reorder_quantity r) (supplier_id r) (max_cost r)
     (unit_cost r) (approval_required r) (approval_threshold r)
     (lead_time_days r) (safety_stock r) (seasonal_adjustment r)
     (status r) (created_date r) (Some now) (total_triggers r + 1).
End Rule.

Module Order.
Inductive status_t : Type :=
| pending_approval
| approved
| sent_to_supplier
| rejected.

Inductive priority_t : Type := high | medium.

(** An order is identified by the clock reading its id is printed
    from ([f"order_{datetime.utcnow().timestamp()}"]). *)
Record t : Type := mk {
  order_id : Py.datetime;
  rule_id : string;
  product_id : string;
  product_name : string;
  supplier_id : string;
  quantity : Q;
  estimated_cost : Q;
  trigger_reason : string;
  status : status_t;
  created_date : Py.datetime;
  expected_delivery : Py.datetime;
  priority : priority_t;
  sent_date : option Py.datetime;
  approved_by : option string;
  approved_date : option Py.datetime;
  approval_notes : option string;
  rejected_by : option string;
  rejected_date : option Py.datetime;
  rejection_reason : option string
}.

Definition set_status (s : status_t) (o : t) : t :=
  mk (order_id o) (rule_id o) (product_id o) (product_name o) (supplier_id o)
     (quantity o) (estimated_cost o) (trigger_reason o) s (created_date o)
     (expected_delivery o) (priority o) (sent_date o) (approved_by o)
     (approved_date o) (approval_notes o) (rejected_by o) (rejected_date o)
     (rejection_reason o).

Definition set_sent_date (d : Py.datetime) (o : t) : t :=
  mk (order_id o) (rule_id o) (product_id o) (product_name o) (supplier_id o)
     (quantity o) (estimated_cost o) (trigger_reason o) (status o)
     (created_date o) (expected_delivery o) (priority o) (Some d)
     (approved_by o) (approved_date o) (approval_notes o) (rejected_by o)
     (rejected_date o) (rejection_reason o).

Definition set_approval (by_ : string) (d : Py.datetime) (notes : string)
    (o : t) : t :=
  mk (order_id o) (rule_id o) (product_id o) (product_name o) (supplier_id o)
     (quantity o) (estimated_cost o) (trigger_reason o) (status o)
     (created_date o) (expected_delivery o) (priority o) (sent_date o)
     (Some by_) (Some d) (Some notes) (rejected_by o) (rejected_date o)
     (rejection_reason o).

Definition set_rejection (by_ : string) (d : Py.datetime) (reason : string)
    (o : t) : t :=
  mk (order_id o) (rule_id o) (product_id o) (product_name o) (supplier_id o)
     (quantity o) (estimated_cost o) (trigger_reason o) (status o)
     (created_date o) (expected_delivery o) (priority o) (sent_date o)
     (approved_by o) (approved_date o) (approval_notes o)
     (Some by_) (Some d) (Some reason).

Global Instance status_eq_dec : EqDecision status_t.
Proof. solve_decision. Defined.
End Order.

(** The payload of the [reorder_generated] webhook. *)
Module ReorderWebhook.
Record t : Type := mk {
  trigger : string;
  order_id : Py.datetime;
  product_id : string;
  supplier_id : string;
  quantity : Q;
  estimated_cost : Q;
  status : Order.status_t;
  timestamp : Py.datetime
}.
End ReorderWebhook.

(** One entry of the inventory snapshot posted to [/check-triggers]:
    [{'current_stock': ..., 'demand_forecast': {'predicted_demand': ...}}],
    every key optional. *)
Module Inventory.
Record forecast_t : Type := mk_forecast {
  predicted_demand : option Q
}.
Record t : Type := mk {
  current_stock : option Q;
  demand_forecast : option forecast_t
}.
End Inventory.

(** A historical demand observation. *)
Module Historical.
Record t : Type := mk {
  date : string;
  demand : Q;
  sales : Q;
  price : Q;
  promotions : bool;
  external_factors : list (string * string);
  added_date : Py.datetime
}.

(** The body of [POST /historical] after the required-field check. *)
Record request : Type := mk_request {
  req_product_id : string;
  req_date : string;
  req_demand : Q;
  req_sales : option Q;
  req_price : option Q;
  req_promotions : option bool;
  req_external_factors : option (list (string * string))
}.
End Historical.

(** One day of a forecast: the calendar day (as an ordinal, for the
    [YYYY-MM-DD] prefix of the ISO timestamp) and the predicted demand. *)
Module Daily.
Record t : Type := mk {
  date : Z;
  predicted_demand : Q
}.
End Daily.

(** What [generate_demand_forecast] returns. *)
Module ForecastResult.
Record t : Type := mk {
  predicted_demand : Q;
  confidence_level : Z;
  trend_direction : string;
  seasonal_factor : Q;
  daily_forecast : list Daily.t;
  model_used : string;
  accuracy_score : Q
}.
End ForecastResult.

(** A stored forecast; the last four fields appear once the forecast has
    been reconciled with the actual demand. *)
Module Forecast.
Record t : Type := mk {
  product_id : string;
  product_name : string;
  forecast_period_days : Z;
  predicted_demand : Q;
  confidence_level : Z;
  trend_direction : string;
  seasonal_factor : Q;
  forecast_breakdown : list Daily.t;
  model_used : string;
  created_date : Py.datetime;
  valid_until : Py.datetime;
  accuracy_score : Q;
  actual_demand : option Q;
  forecast_error : option Q;
  percentage_error : option Q;
  accuracy_updated : option Py.datetime
}.

Definition set_accuracy (actual error pct acc : Q) (now : Py.datetime)
    (f : t) : t :=
  mk (product_id f) (product_name f) (forecast_period_days f)
     (predicted_demand f) (confidence_level f) (trend_direction f)
     (seasonal_factor f) (forecast_breakdown f) (model_used f)
     (created_date f) (valid_until f) acc (Some actual) (Some error)
     (Some pct) (Some now).
End Forecast.

(** The [accuracy_metrics] object returned by [POST /accuracy/<id>]. *)
Module Metrics.
Record t : Type := mk {
  predicted_demand : Q;
  actual_demand : Q;
  forecast_error : Q;
  percentage_error : Q;
  accuracy_score : Q
}.
End Metrics.

(** The payload of the [forecast_updated] webhook. *)
Module ForecastWebhook.
Record t : Type := mk {
  trigger : string;
  product_id : string;
  predicted_demand : Q;
  confidence_level : Z;
  trend_direction : string;
  forecast_period_days : Z;
  timestamp : Py.datetime
}.
End ForecastWebhook.

(** The body of [POST /rules] after the required-field check: the three
    required fields and the optional ones. *)
Module RuleData.
Record t : Type := mk {
  product_id : string;
  product_name : option string;
  trigger_type : string;
  trigger_value : option Q;
  reorder_quantity : Q;
  supplier_id : option string;
  max_cost : option Q;
  approval_required : option bool;
  approval_threshold : option Q;
  lead_time_days : option Z;
  safety_stock : option Q;
  seasonal_adjustment : option bool
}.
End RuleData.

(** The body of [PUT /rules/<rule_id>]: the fields of [updatable_fields]
    that it carries. *)
Module RuleUpdate.
Record t : Type := mk {
  trigger_type : option string;
  trigger_value : option Q;
  reorder_quantity : option Q;
  supplier_id : option string;
  max_cost : option Q;
  approval_required : option bool;
  approval_threshold : option Q;
  lead_time_days : option Z;
  safety_stock : option Q;
  seasonal_adjustment : option bool;
  status : option string
}.

(** [rule[field] = data[field]] on a key that the rule may lack. *)
Definition overwrite {A} (new old : option A) : option A :=
  match new with
  | Some v => Some v
  | None => old
  end.

(** The loop [for field in updatable_fields: if field in data:
    rule[field] = data[field]]. *)
Definition assign (data : t) (rule : Rule.t) : Rule.t :=
  Rule.mk (Rule.rule_id rule) (Rule.product_id rule) (Rule.product_name rule)
    (default (Rule.trigger_type rule) (trigger_type data))
    (default (Rule.trigger_value rule) (trigger_value data))
    (default (Rule.reorder_quantity rule) (reorder_quantity data))
    (overwrite (supplier_id data) (Rule.supplier_id rule))
    (default (Rule.max_cost rule) (max_cost data))
    (Rule.unit_cost rule)
    (overwrite (approval_required data) (Rule.approval_required rule))
    (overwrite (approval_threshold data) (Rule.approval_threshold rule))
    (overwrite (lead_time_days data) (Rule.lead_time_days rule))
    (default (Rule.safety_stock rule) (safety_stock data))
    (overwrite (seasonal_adjustment data) (Rule.seasonal_adjustment rule))
    (default (Rule.status rule) (status data))
    (Rule.created_date rule) (Rule.last_triggered rule) (Rule.total_triggers rule).
End RuleUpdate.

(** An entry of [reorder_history].  The file never writes one; the
    analytics read two keys of it, both with a default. *)
Module History.
Record t : Type := mk {
  cost_saved : option Q;
  actual_lead_time : option Q
}.
End History.

(** An entry of the dictionary built by [get_most_triggered_product]. *)
Module ProductCount.
Record t : Type := mk {
  product_id : string;
  product_name : string;
  total_triggers : Z
}.

Definition add_triggers (triggers : Z) (c : t) : t :=
  mk (product_id c) (product_name c) (total_triggers c + triggers).
End ProductCount.

(** What [GET /analytics] of the reorder blueprint returns. *)
Module ReorderAnalytics.
Record t : Type := mk {
  total_rules : nat;
  active_rules : nat;
  total_orders : nat;
  pending_approval : nat;
  total_cost_saved : Q;
  average_lead_time_days : Q;
  automation_rate : Q;
  orders_this_month : nat;
  most_triggered_product : option ProductCount.t
}.
End ReorderAnalytics.

(** A market trend, as stored by [add_market_trend], and the body of
    [POST /trends] after the required-field check. *)
Module Trend.
Record t : Type := mk {
  trend_id : string;
  category : string;
  trend_value : Q;
  trend_direction : string;
  impact_factor : Q;
  source : string;
  date_recorded : Py.datetime;
  valid_until : string
}.

Record request : Type := mk_request {
  req_trend_id : string;
  req_category : string;
  req_trend_value : Q;
  req_trend_direction : option string;
  req_impact_factor : option Q;
  req_source : option string;
  req_valid_until : option string
}.
End Trend.

(** An entry of [trend_summary]. *)
Module CategorySummary.
Record t : Type := mk {
  count : Z;
  avg_impact : Q
}.
End CategorySummary.

(** What [GET /analytics] of the forecasting blueprint returns. *)
Module ForecastingAnalytics.
Record t : Type := mk {
  total_forecasts : nat;
  active_forecasts : nat;
  average_accuracy : Q;
  total_products_tracked : nat;
  forecast_accuracy_trend : string;
  most_accurate_model : string;
  seasonal_patterns_detected : nat;
  market_trends : dict string CategorySummary.t
}.
End ForecastingAnalytics.

(* ===================================================================== *)
(** * The world and the handler monad                                     *)
(* ===================================================================== *)

(** The module-level state of the two files and the clock. *)
Record world : Type := mk_world {
  clock : nat -> Py.datetime;
  ticks : nat;
  reorder_rules : dict string Rule.t;
  pending_orders : gmap Z Order.t;
  forecast_data : dict string Forecast.t;
  historical_data : gmap string (list Historical.t)
}.

Definition set_ticks (n : nat) (w : world) : world :=
  mk_world (clock w) n (reorder_rules w) (pending_orders w)
           (forecast_data w) (historical_data w).
Definition set_reorder_rules (r : dict string Rule.t) (w : world) : world :=
  mk_world (clock w) (ticks w) r (pending_orders w)
           (forecast_data w) (historical_data w).
Definition set_pending_orders (p : gmap Z Order.t) (w : world) : world :=
  mk_world (clock w) (ticks w) (reorder_rules w) p
           (forecast_data w) (historical_data w).
Definition set_forecast_data (f : dict string Forecast.t) (w : world) : world :=
  mk_world (clock w) (ticks w) (reorder_rules w) (pending_orders w)
           f (historical_data w).
Definition set_historical_data (h : gmap string (list Historical.t))
    (w : world) : world :=
  mk_world (clock w) (ticks w) (reorder_rules w) (pending_orders w)
           (forecast_data w) h.

(** The reading that the [k]-th next call of [datetime.utcnow()] returns. *)
Definition reading (w : world) (k : nat) : Py.datetime := clock w (k + ticks w)%nat.

(** Computations over the world that may raise. *)
Definition M (A : Type) : Type := world -> Py.result A * world.

Definition ret {A} (a : A) : M A := fun w => (Py.Ok a, w).
Definition bind {A B} (m : M A) (k : A -> M B) : M B :=
  fun w =>
    match m w with
    | (Py.Ok a, w') => k a w'
    | (Py.Raise e, w') => (Py.Raise e, w')
    end.
Definition raise {A} (e : Py.exn) : M A := fun w => (Py.Raise e, w).
Definition lift {A} (r : Py.result A) : M A := fun w => (r, w).
Definition get_world : M world := fun w => (Py.Ok w, w).
Definition modify (f : world -> world) : M unit := fun w => (Py.Ok tt, f w).

Global Instance M_ret : MRet M := @ret.
Global Instance M_bind : MBind M := fun A B k m => bind m k.

(** [datetime.utcnow()]. *)
Definition utcnow : M Py.datetime :=
  fun w => (Py.Ok (reading w 0), set_ticks (S (ticks w)) w).

(** A route handler: the body runs under [try: ... except Exception],
    which turns an exception into the handler's 500 response. *)
Definition try_except {R} (body : M R) (on_error : Py.exn -> R)
    : world -> R * world :=
  fun w =>
    match body w with
    | (Py.Ok r, w') => (r, w')
    | (Py.Raise e, w') => (on_error e, w')
    end.

(* ===================================================================== *)
(** * The remaining module-level state                                    *)
(* ===================================================================== *)

(** The world holds the dictionaries that order creation, trigger
    evaluation and the forecast engine work on.  Rule management and the
    reporting routes touch three more pieces of state:

    - [reorder_history], which the analytics read and no route writes;
    - [market_trends], written by [POST /trends];
    - the key ['last_updated'] that [PUT /rules/<rule_id>] adds to a
      rule object.  No code reads that key; it is kept beside the rules,
      under the rule's key. *)
Record store : Type := mk_store {
  core : world;
  reorder_history : dict string History.t;
  market_trends : dict string Trend.t;
  last_updated : gmap string Py.datetime
}.

Definition set_core (w : world) (s : store) : store :=
  mk_store w (reorder_history s) (market_trends s) (last_updated s).
Definition set_market_trends (t : dict string Trend.t) (s : store) : store :=
  mk_store (core s) (reorder_history s) t (last_updated s).
Definition set_last_updated (u : gmap string Py.datetime) (s : store) : store :=
  mk_store (core s) (reorder_history s) (market_trends s) u.

(** Computations over the store that may raise. *)
Definition SM (A : Type) : Type := store -> Py.result A * store.

Global Instance SM_ret : MRet SM := fun A a s => (Py.Ok a, s).
Global Instance SM_bind : MBind SM :=
  fun A B k m s =>
    match m s with
    | (Py.Ok a, s') => k a s'
    | (Py.Raise e, s') => (Py.Raise e, s')
    end.

Definition get_store : SM store := fun s => (Py.Ok s, s).
Definition modify_store (f : store -> store) : SM unit := fun s => (Py.Ok tt, f s).
Definition lift_store {A} (r : Py.result A) : SM A := fun s => (r, s).

(** A computation over the world, run on the world of the store. *)
Definition in_world {A} (m : M A) : SM A :=
  fun s => match m (core s) with (r, w') => (r, set_core w' s) end.

Definition try_except_store {R} (body : SM R) (on_error : Py.exn -> R)
    : store -> R * store :=
  fun s =>
    match body s with
    | (Py.Ok r, s') => (r, s')
    | (Py.Raise e, s') => (on_error e, s')
    end.

(** A route of the first part, served on the store. *)
Definition on_core {R} (handler : world -> R * world) : store -> R * store :=
  fun s => match handler (core s) with (r, w') => (r, set_core w' s) end.

(** A list comprehension whose test reads the clock. *)
Fixpoint comprehension_now {A} (keep : A -> Py.datetime -> bool) (l : list A)
    : M (list A) :=
  match l with
  | [] => mret []
  | x :: l' =>
      now ← utcnow;
      rest ← comprehension_now keep l';
      mret (if keep x now then x :: rest else rest)
  end.

(** The answer of a route that looks one object up: 200 with the
    object, or 404. *)
Inductive lookup_response (A : Type) : Type :=
| Found (a : A)
| NotFound.
Arguments Found {A} a.
Arguments NotFound {A}.

(* ===================================================================== *)
(** * src/routes/reorder.py                                               *)
(* ===================================================================== *)

(** Responses of [/orders/<id>/approve] and [/orders/<id>/reject]:
    200 with the order, 404 "Order not found", 400 "Order is not pending
    approval", 500. *)
Inductive order_response : Type :=
| OrderSuccess (order : Order.t)
| OrderNotFound
| NotPendingApproval
| OrderError (e : Py.exn).

(** Response of [/check-triggers]: 200 with the triggered orders, or 500. *)
Inductive triggers_response : Type :=
| TriggersChecked (triggered_orders : list Order.t)
| TriggersError (e : Py.exn).

(** Bodies of the approval and rejection requests. *)
Record approve_request : Type := mk_approve_request {
  req_approved_by : option string;
  req_notes : option string
}.
Record reject_request : Type := mk_reject_request {
  req_rejected_by : option string;
  req_reason : option string
}.

Section reorder.

(** [f"{x}"] for a number [x]. *)
Variable format_num : Q -> string.

(** An order object is referred to by the key under which
    [pending_orders] holds it; a mutation of the object is a write to
    that entry. *)
Definition write_order (key : Z) (order : Order.t) : M unit :=
  modify (fun w => set_pending_orders (<[key := order]> (pending_orders w)) w).

Definition send_order_to_supplier (key : Z) (order : Order.t) : M Order.t :=
  let order := Order.set_status Order.sent_to_supplier order in
  now ← utcnow;
  let order := Order.set_sent_date now order in
  write_order key order;;
  mret order.

Definition trigger_reorder_webhook (order : Order.t) : ReorderWebhook.t :=
  ReorderWebhook.mk "reorder_generated" (Order.order_id order)
    (Order.product_id order) (Order.supplier_id order) (Order.quantity order)
    (Order.estimated_cost order) (Order.status order) (Order.created_date order).

(** The two locals of [create_reorder] that decide the approval route. *)
Definition estimated_cost (rule : Rule.t) (quantity : Q) : Q :=
  (quantity * default 0 (Rule.unit_cost rule))%Q.

Definition requires_approval (rule : Rule.t) (quantity : Q) : bool :=
  default false (Rule.approval_required rule)
  || Py.ltb (default 1000%Q (Rule.approval_threshold rule))
            (estimated_cost rule quantity).

(** The order object as first built, before any send. *)
Definition new_order (rule : Rule.t) (quantity : Q) (trigger_reason : string)
    (order_id created_date delivery_base : Py.datetime) : Order.t :=
  Order.mk order_id (Rule.rule_id rule) (Rule.product_id rule)
    (default ""%string (Rule.product_name rule))
    (default ""%string (Rule.supplier_id rule))
    quantity (estimated_cost rule quantity) trigger_reason
    (if requires_approval rule quantity
     then Order.pending_approval else Order.approved)
    created_date
    (Py.add_days delivery_base (default 7 (Rule.lead_time_days rule)))
    (if Py.contains "stockout" (Py.lower trigger_reason)
     then Order.high else Order.medium)
    None None None None None None None.

Definition create_reorder (rule : Rule.t) (quantity : Q)
    (trigger_reason : string) : M Order.t :=
  order_id ← utcnow;
  created_date ← utcnow;
  delivery_base ← utcnow;
  let order :=
    new_order rule quantity trigger_reason order_id created_date delivery_base in
  write_order order_id order;;
  if negb (requires_approval rule quantity) then
    order ← send_order_to_supplier order_id order;
    let _ := trigger_reorder_webhook order in
    mret order
  else mret order.

(** ** Trigger evaluation *)

(** [inventory_data.get(product_id, {}).get('current_stock', 0)]. *)
Definition stock_of (inventory_data : gmap string Inventory.t)
    (product_id : string) : Q :=
  match inventory_data !! product_id with
  | Some entry => default 0%Q (Inventory.current_stock entry)
  | None => 0%Q
  end.

(** [inventory_data.get(product_id, {}).get('demand_forecast', {})
       .get('predicted_demand', 0)]. *)
Definition predicted_of (inventory_data : gmap string Inventory.t)
    (product_id : string) : Q :=
  match inventory_data !! product_id with
  | Some entry =>
      match Inventory.demand_forecast entry with
      | Some forecast_data => default 0%Q (Inventory.predicted_demand forecast_data)
      | None => 0%Q
      end
  | None => 0%Q
  end.

(** The [if / elif / elif] over the trigger type: [Some reason] when
    [should_trigger] ends up true. *)
Definition trigger_condition (inventory_data : gmap string Inventory.t)
    (rule : Rule.t) : M (option string) :=
  let product_id := Rule.product_id rule in
  if String.eqb (Rule.trigger_type rule) "threshold" then
    let current_stock := stock_of inventory_data product_id in
    if Qle_bool current_stock (Rule.trigger_value rule) then
      mret (Some ("Stock level (" +:+ format_num current_stock
                  +:+ ") below threshold ("
                  +:+ format_num (Rule.trigger_value rule) +:+ ")"))
    else mret None
  else if String.eqb (Rule.trigger_type rule) "time_based" then
    match Rule.last_triggered rule with
    | Some last_date =>
        now ← utcnow;
        let days_since := Py.days_between now last_date in
        if Qle_bool (Rule.trigger_value rule) (inject_Z days_since) then
          mret (Some ("Time-based trigger: " +:+ format_num (inject_Z days_since)
                      +:+ " days since last order"))
        else mret None
    | None => mret (Some "First time trigger"%string)
    end
  else if String.eqb (Rule.trigger_type rule) "demand_forecast" then
    let predicted_demand := predicted_of inventory_data product_id in
    let current_stock := stock_of inventory_data product_id in
    if Py.ltb current_stock predicted_demand then
      mret (Some ("Current stock (" +:+ format_num current_stock
                  +:+ ") below predicted demand ("
                  +:+ format_num predicted_demand +:+ ")"))
    else mret None
  else mret None.

(** The reorder quantity of a rule that fires. *)
Definition holiday_season (current_month : Z) : bool :=
  bool_decide (current_month ∈ [11; 12; 1]).

Definition seasonal_quantity (rule : Rule.t) : M Q :=
  let reorder_qty := Rule.reorder_quantity rule in
  if default false (Rule.seasonal_adjustment rule) then
    now ← utcnow;
    let current_month := Py.month now in
    if holiday_season current_month then
      mret (inject_Z (Py.int (reorder_qty * (3 # 2))%Q))
    else mret reorder_qty
  else mret reorder_qty.

(** The rule object at position [i] of [reorder_rules.values()] is
    updated in place. *)
Definition stamp_rule (i : nat) (now : Py.datetime) : M unit :=
  modify (fun w =>
    set_reorder_rules
      (alter (fun kv => (kv.1, Rule.stamp now kv.2)) i (reorder_rules w)) w).

(** One iteration of the loop of [check_reorder_triggers]: the order
    created for the rule, if it fires. *)
Definition check_rule (inventory_data : gmap string Inventory.t)
    (i : nat) (rule : Rule.t) : M (option Order.t) :=
  if negb (String.eqb (Rule.status rule) "active") then mret None
  else
    fired ← trigger_condition inventory_data rule;
    match fired with
    | None => mret None
    | Some trigger_reason =>
        reorder_qty ← seasonal_quantity rule;
        order_result ← create_reorder rule reorder_qty trigger_reason;
        now ← utcnow;
        stamp_rule i now;;
        mret (Some order_result)
    end.

Fixpoint check_rules (inventory_data : gmap string Inventory.t)
    (i : nat) (rules : list Rule.t) (triggered_orders : list Order.t)
    : M (list Order.t) :=
  match rules with
  | [] => mret triggered_orders
  | rule :: rules' =>
      fired ← check_rule inventory_data i rule;
      check_rules inventory_data (S i) rules'
        (triggered_orders ++ option_list fired)
  end.

Definition check_reorder_triggers (inventory_data : gmap string Inventory.t)
    : world -> triggers_response * world :=
  try_except
    (w ← get_world;
     triggered_orders ←
       check_rules inventory_data 0 (dict_values (reorder_rules w)) [];
     mret (TriggersChecked triggered_orders))
    TriggersError.

(** ** Approval workflow *)

Definition approve_order (order_id : Z) (data : approve_request)
    : world -> order_response * world :=
  try_except
    (w ← get_world;
     match pending_orders w !! order_id with
     | None => mret OrderNotFound
     | Some order =>
         if bool_decide (Order.status order ≠ Order.pending_approval) then
           mret NotPendingApproval
         else
           let order := Order.set_status Order.approved order in
           now ← utcnow;
           let order :=
             Order.set_approval (default "system"%string (req_approved_by data))
               now (default ""%string (req_notes data)) order in
           write_order order_id order;;
           order ← send_order_to_supplier order_id order;
           let _ := trigger_reorder_webhook order in
           mret (OrderSuccess order)
     end)
    OrderError.

Definition reject_order (order_id : Z) (data : reject_request)
    : world -> order_response * world :=
  try_except
    (w ← get_world;
     match pending_orders w !! order_id with
     | None => mret OrderNotFound
     | Some order =>
         if bool_decide (Order.status order ≠ Order.pending_approval) then
           mret NotPendingApproval
         else
           let order := Order.set_status Order.rejected order in
           now ← utcnow;
           let order :=
             Order.set_rejection (default "system"%string (req_rejected_by data))
               now (default ""%string (req_reason data)) order in
           write_order order_id order;;
           mret (OrderSuccess order)
     end)
    OrderError.

End reorder.

(** ** Rule management, manual triggers and reporting *)

(** Responses of the rule routes: 201 with the new rule, 200 with the
    updated rule (which carries its ['last_updated'] stamp), 404 "Reorder
    rule not found", 500. *)
Inductive rule_response : Type :=
| RuleCreated (rule : Rule.t)
| RuleUpdated (rule : Rule.t) (last_updated : Py.datetime)
| RuleNotFound
| RuleError (e : Py.exn).

(** Responses of [POST /trigger]: 200 with the order, 404 "No active
    reorder rule found for this product", 500. *)
Inductive trigger_response : Type :=
| Triggered (order : Order.t)
| NoActiveRule
| TriggerError (e : Py.exn).

(** Responses of [GET /analytics]: 200 with the analytics, or 500. *)
Inductive reorder_analytics_response : Type :=
| ReorderAnalyticsOk (analytics : ReorderAnalytics.t)
| ReorderAnalyticsError (e : Py.exn).

Section rule_management.

(** [f"{t.timestamp()}"] for a clock reading [t]. *)
Variable format_timestamp : Py.datetime -> string.

(** The counts ['active_rules'] and ['pending_orders'] of [GET /status]. *)
Definition reorder_status (w : world) : nat * nat :=
  (length (reorder_rules w), size (pending_orders w)).

(** [GET /rules/<rule_id>]: the rule object, that is the rule and its
    ['last_updated'] key if it has one. *)
Definition get_rule (rule_id : string) (s : store)
    : lookup_response (Rule.t * option Py.datetime) :=
  match dict_get rule_id (reorder_rules (core s)) with
  | None => NotFound
  | Some rule => Found (rule, last_updated s !! rule_id)
  end.

(** [POST /rules].  The new rule object replaces whatever object was
    stored under its id, ['last_updated'] key included. *)
Definition create_reorder_rule (data : RuleData.t)
    : store -> rule_response * store :=
  try_except_store
    (now ← in_world utcnow;
     let rule_id := "rule_" +:+ format_timestamp now in
     created_date ← in_world utcnow;
     let rule :=
       Rule.mk rule_id (RuleData.product_id data)
         (Some (default ""%string (RuleData.product_name data)))
         (RuleData.trigger_type data)
         (default 0%Q (RuleData.trigger_value data))
         (RuleData.reorder_quantity data)
         (Some (default ""%string (RuleData.supplier_id data)))
         (default 0%Q (RuleData.max_cost data))
         None
         (Some (default false (RuleData.approval_required data)))
         (Some (default 1000%Q (RuleData.approval_threshold data)))
         (Some (default 7 (RuleData.lead_time_days data)))
         (default 0%Q (RuleData.safety_stock data))
         (Some (default false (RuleData.seasonal_adjustment data)))
         "active" created_date None 0 in
     in_world
       (modify (fun w =>
          set_reorder_rules (dict_set rule_id rule (reorder_rules w)) w));;
     modify_store (fun s => set_last_updated (delete rule_id (last_updated s)) s);;
     mret (RuleCreated rule))
    RuleError.

Definition update_reorder_rule (rule_id : string) (data : RuleUpdate.t)
    : store -> rule_response * store :=
  try_except_store
    (s ← get_store;
     match dict_get rule_id (reorder_rules (core s)) with
     | None => mret RuleNotFound
     | Some rule =>
         let rule := RuleUpdate.assign data rule in
         in_world
           (modify (fun w =>
              set_reorder_rules (dict_set rule_id rule (reorder_rules w)) w));;
         now ← in_world utcnow;
         modify_store (fun s =>
           set_last_updated (<[rule_id := now]> (last_updated s)) s);;
         mret (RuleUpdated rule now)
     end)
    RuleError.

(** The search loop of [trigger_reorder]: the first rule, in the order
    of [reorder_rules], that is for the product and active. *)
Definition applicable_rule (product_id : string) (rules : list Rule.t)
    : option Rule.t :=
  List.find (fun rule => String.eqb (Rule.product_id rule) product_id
                         && String.eqb (Rule.status rule) "active") rules.

Definition trigger_reorder (product_id : string) (quantity : Q)
    : world -> trigger_response * world :=
  try_except
    (w ← get_world;
     match applicable_rule product_id (dict_values (reorder_rules w)) with
     | None => mret NoActiveRule
     | Some applicable_rule =>
         order_result ← create_reorder applicable_rule quantity "manual_trigger";
         mret (Triggered order_result)
     end)
    TriggerError.


(** [GET /history]: the entries and their count. *)
Definition get_reorder_history (s : store) : list History.t * nat :=
  (dict_values (reorder_history s), length (reorder_history s)).

(** ** Analytics *)

(** The loop of [get_most_triggered_product] over the rules. *)
Fixpoint count_triggers (rules : list Rule.t)
    (product_counts : dict string ProductCount.t) : dict string ProductCount.t :=
  match rules with
  | [] => product_counts
  | rule :: rules' =>
      let product_id := Rule.product_id rule in
      let triggers := Rule.total_triggers rule in
      count_triggers rules'
        (match dict_get product_id product_counts with
         | None =>
             dict_set product_id
               (ProductCount.mk product_id
                  (default ""%string (Rule.product_name rule)) triggers)
               product_counts
         | Some entry =>
             dict_set product_id (ProductCount.add_triggers triggers entry)
               product_counts
         end)
  end.

Definition get_most_triggered_product (w : world) : option ProductCount.t :=
  let product_counts := count_triggers (dict_values (reorder_rules w)) [] in
  match product_counts with
  | [] => None
  | _ =>
      Py.max_key (fun a b => ProductCount.total_triggers a
                             <? ProductCount.total_triggers b)
                 (dict_values product_counts)
  end.

(** [GET /analytics].  The world keeps [pending_orders] for lookup only;
    [orders] is [pending_orders.values()], in the order in which the
    handler iterates over it. *)
Definition get_reorder_analytics (orders : list Order.t)
    : store -> reorder_analytics_response * store :=
  try_except_store
    (s ← get_store;
     let w := core s in
     let total_rules := length (reorder_rules w) in
     let active_rules :=
       length (List.filter (fun r => String.eqb (Rule.status r) "active")
                           (dict_values (reorder_rules w))) in
     let total_orders := (size (pending_orders w) + length (reorder_history s))%nat in
     let pending_approval :=
       length (List.filter
                 (fun o => bool_decide (Order.status o = Order.pending_approval))
                 orders) in
     let history := dict_values (reorder_history s) in
     let total_cost_saved :=
       match history with
       | [] => 0%Q
       | _ => Py.sum (map (fun h => default 0%Q (History.cost_saved h)) history)
       end in
     avg_lead_time ←
       lift_store
         (match history with
          | [] => Py.Ok 0%Q
          | _ =>
              Py.truediv
                (Py.sum (map (fun h => default 0%Q (History.actual_lead_time h))
                             history))
                (inject_Z (Z.of_nat (length history)))
          end);
     ratio ←
       lift_store
         (Py.truediv (inject_Z (Z.of_nat total_orders))
                     (inject_Z (Z.max (Z.of_nat total_rules) 1)));
     this_month ←
       in_world
         (comprehension_now
            (fun o now => Py.month (Order.created_date o) =? Py.month now) orders);
     s ← get_store;
     mret (ReorderAnalyticsOk
             (ReorderAnalytics.mk total_rules active_rules total_orders
                pending_approval total_cost_saved (Py.round1 avg_lead_time)
                (Py.round1 (ratio * 100)%Q) (length this_month)
                (get_most_triggered_product (core s)))))
    ReorderAnalyticsError.

End rule_management.

(* ===================================================================== *)
(** * src/routes/forecasting.py                                           *)
(* ===================================================================== *)

(** Response of [POST /historical]: 200 with the series length, or 500. *)
Inductive historical_response : Type :=
| HistoricalAdded (total_records : nat)
| HistoricalError (e : Py.exn).

(** Responses of [POST /forecasts]: 201 with the forecast, 400
    "Insufficient historical data for forecasting", 500. *)
Inductive forecast_response : Type :=
| ForecastCreated (forecast : Forecast.t)
| InsufficientData
| ForecastError (e : Py.exn).

(** Responses of [POST /accuracy/<product_id>]: 200 with the metrics, 404
    "Forecast not found for this product", 500. *)
Inductive accuracy_response : Type :=
| AccuracyUpdated (accuracy_metrics : Metrics.t)
| ForecastNotFound
| AccuracyError (e : Py.exn).

Section forecasting.

(** [datetime.fromisoformat]: [None] stands for its [ValueError]. *)
Variable fromisoformat : string -> option Py.parsed.

(** ** Historical series *)

(** [datetime.fromisoformat(record['date']) > cutoff_date], with a
    naive [cutoff_date]: an aware datetime does not compare with it. *)
Definition after_cutoff (cutoff_date : Py.datetime) (record : Historical.t)
    : Py.result bool :=
  match fromisoformat (Historical.date record) with
  | None => Py.Raise Py.ValueError
  | Some (Py.Aware _) => Py.Raise Py.TypeError
  | Some (Py.Naive t) => Py.Ok (cutoff_date <? t)
  end.

(** The list comprehension [[r for r in l if keep(r)]] with a test that
    may raise. *)
Fixpoint comprehension {A} (keep : A -> Py.result bool) (l : list A)
    : Py.result (list A) :=
  match l with
  | [] => Py.Ok []
  | x :: l' =>
      b ← keep x;
      rest ← comprehension keep l';
      mret (if b : bool then x :: rest else rest)
  end.

(** [list.sort(key=lambda x: x['date'])]: a stable sort on the date
    strings.  A stable sort has one possible result; insertion sort
    computes it. *)
Fixpoint insert_by_date (x : Historical.t) (l : list Historical.t)
    : list Historical.t :=
  match l with
  | [] => [x]
  | y :: l' =>
      if String.leb (Historical.date x) (Historical.date y)
      then x :: y :: l'
      else y :: insert_by_date x l'
  end.

Definition sort_by_date (l : list Historical.t) : list Historical.t :=
  foldr insert_by_date [] l.

Definition series_of (w : world) (product_id : string) : list Historical.t :=
  default [] (historical_data w !! product_id).

Definition set_series (product_id : string) (series : list Historical.t)
    : M unit :=
  modify (fun w =>
    set_historical_data (<[product_id := series]> (historical_data w)) w).

Definition add_historical_data (data : Historical.request)
    : world -> historical_response * world :=
  try_except
    (let product_id := Historical.req_product_id data in
     w ← get_world;
     (if bool_decide (historical_data w !! product_id = None)
      then set_series product_id [] else mret tt);;
     added_date ← utcnow;
     let historical_record :=
       Historical.mk (Historical.req_date data) (Historical.req_demand data)
         (default 0%Q (Historical.req_sales data))
         (default 0%Q (Historical.req_price data))
         (default false (Historical.req_promotions data))
         (default [] (Historical.req_external_factors data))
         added_date in
     w ← get_world;
     set_series product_id (series_of w product_id ++ [historical_record]);;
     now ← utcnow;
     let cutoff_date := Py.add_days now (-365) in
     w ← get_world;
     kept ← lift (comprehension (after_cutoff cutoff_date) (series_of w product_id));
     set_series product_id kept;;
     set_series product_id (sort_by_date kept);;
     mret (HistoricalAdded (length (sort_by_date kept))))
    HistoricalError.

(** ** Forecast engine *)

(** [sum(demands[-7:]) / 7]. *)
Definition moving_average (demands : list Q) : Q :=
  (Py.sum (Py.slice (Some (-7)%Z) None demands) / 7)%Q.

(** The daily trend: last week against the week before, when two weeks
    are available. *)
Definition daily_trend (demands : list Q) : Q :=
  if (14 <=? length demands)%nat then
    let recent_avg := (Py.sum (Py.slice (Some (-7)%Z) None demands) / 7)%Q in
    let older_avg := (Py.sum (Py.slice (Some (-14)%Z) (Some (-7)%Z) demands) / 7)%Q in
    ((recent_avg - older_avg) / 7)%Q
  else 0%Q.

(** The loop filling [weekly_pattern]: weekday -> demands seen on it. *)
Fixpoint group_by_weekday (records : list Historical.t)
    (weekly_pattern : gmap Z (list Q)) : Py.result (gmap Z (list Q)) :=
  match records with
  | [] => Py.Ok weekly_pattern
  | record :: records' =>
      match fromisoformat (Historical.date record) with
      | None => Py.Raise Py.ValueError
      | Some p =>
          let day := Py.weekday (Py.wall p) in
          group_by_weekday records'
            (<[day := default [] (weekly_pattern !! day)
                      ++ [Historical.demand record]]> weekly_pattern)
      end
  end.

Definition seasonal_factor_of (historical : list Historical.t)
    (demands : list Q) (current_day : Z) : Py.result Q :=
  if (14 <=? length demands)%nat then
    weekly_pattern ← group_by_weekday (Py.slice (Some (-14)%Z) None historical) ∅;
    match weekly_pattern !! current_day with
    | Some day_demands =>
        day_avg ← Py.truediv (Py.sum day_demands)
                             (inject_Z (Z.of_nat (length day_demands)));
        let overall_avg := (Py.sum (Py.slice (Some (-14)%Z) None demands) / 14)%Q in
        Py.truediv day_avg (Py.max overall_avg 1)
    | None => Py.Ok 1%Q
    end
  else Py.Ok 1%Q.

Definition is_weekend (day_of_week : Z) : bool :=
  bool_decide (day_of_week ∈ [5; 6]).

(** The demand of offset [day], before rounding. *)
Definition daily_demand (base_demand trend seasonal_factor : Q)
    (current_day day : Z) : Q :=
  let daily_demand := (base_demand + trend * inject_Z day)%Q in
  let day_of_week := (current_day + day) mod 7 in
  let daily_demand :=
    if is_weekend day_of_week then (daily_demand * (8 # 10))%Q else daily_demand in
  let daily_demand := (daily_demand * seasonal_factor)%Q in
  Py.max 0 daily_demand.

Fixpoint daily_loop (base_demand trend seasonal_factor : Q)
    (current_day : Z) (days : list Z) (daily_forecast : list Daily.t)
    : M (list Daily.t) :=
  match days with
  | [] => mret daily_forecast
  | day :: days' =>
      let d := daily_demand base_demand trend seasonal_factor current_day day in
      now ← utcnow;
      daily_loop base_demand trend seasonal_factor current_day days'
        (daily_forecast
         ++ [Daily.mk (Py.toordinal (Py.add_days now day)) (Py.round2 d)])
  end.

Definition trend_direction_of (trend : Q) : string :=
  if Py.ltb (1 # 10) trend then "increasing"
  else if Py.ltb trend (- (1 # 10)) then "decreasing"
  else "stable".

Definition generate_demand_forecast (product_id : string)
    (historical : list Historical.t) (forecast_period : Z)
    : M ForecastResult.t :=
  let demands := map Historical.demand (Py.slice (Some (-30)%Z) None historical) in
  if (length demands <? 7)%nat then raise Py.ValueError
  else
    let ma_forecast := moving_average demands in
    let trend := daily_trend demands in
    now ← utcnow;
    let current_day := Py.weekday now in
    seasonal_factor ← lift (seasonal_factor_of historical demands current_day);
    let base_demand := ma_forecast in
    daily_forecast ←
      daily_loop base_demand trend seasonal_factor current_day
        (Py.range forecast_period) [];
    let total_predicted := Py.sum (map Daily.predicted_demand daily_forecast) in
    let confidence := Z.min 95 (60 + Z.of_nat (length demands) * 2) in
    mret (ForecastResult.mk (Py.round2 total_predicted) confidence
            (trend_direction_of trend) (Py.round2 seasonal_factor)
            daily_forecast "moving_average_with_trend" 0%Q).

Definition trigger_forecast_webhook (forecast : Forecast.t) : ForecastWebhook.t :=
  ForecastWebhook.mk "forecast_updated" (Forecast.product_id forecast)
    (Forecast.predicted_demand forecast) (Forecast.confidence_level forecast)
    (Forecast.trend_direction forecast) (Forecast.forecast_period_days forecast)
    (Forecast.created_date forecast).

Definition create_forecast (product_id : string) (forecast_period : Z)
    (product_name : option string) : world -> forecast_response * world :=
  try_except
    (w ← get_world;
     let historical := default [] (historical_data w !! product_id) in
     if (length historical <? 7)%nat then mret InsufficientData
     else
       forecast_result ←
         generate_demand_forecast product_id historical forecast_period;
       created_date ← utcnow;
       valid_base ← utcnow;
       let forecast :=
         Forecast.mk product_id (default ""%string product_name) forecast_period
           (ForecastResult.predicted_demand forecast_result)
           (ForecastResult.confidence_level forecast_result)
           (ForecastResult.trend_direction forecast_result)
           (ForecastResult.seasonal_factor forecast_result)
           (ForecastResult.daily_forecast forecast_result)
           (ForecastResult.model_used forecast_result)
           created_date (Py.add_days valid_base forecast_period)
           (ForecastResult.accuracy_score forecast_result)
           None None None None in
       modify (fun w => set_forecast_data
                          (dict_set product_id forecast (forecast_data w)) w);;
       let _ := trigger_forecast_webhook forecast in
       mret (ForecastCreated forecast))
    ForecastError.

(** ** Accuracy tracking *)

Definition update_forecast_accuracy (product_id : string) (actual_demand : Q)
    : world -> accuracy_response * world :=
  try_except
    (w ← get_world;
     match dict_get product_id (forecast_data w) with
     | None => mret ForecastNotFound
     | Some forecast =>
         let predicted_demand := Forecast.predicted_demand forecast in
         let error := Qabs (predicted_demand - actual_demand) in
         ratio ← lift (Py.truediv error (Py.max actual_demand 1));
         let percentage_error := (ratio * 100)%Q in
         let accuracy := Py.max 0 (100 - percentage_error) in
         now ← utcnow;
         let forecast :=
           Forecast.set_accuracy actual_demand error
             (Py.round2 percentage_error) (Py.round2 accuracy) now forecast in
         modify (fun w => set_forecast_data
                            (dict_set product_id forecast (forecast_data w)) w);;
         mret (AccuracyUpdated
                 (Metrics.mk predicted_demand actual_demand error
                    (Py.round2 percentage_error) (Py.round2 accuracy)))
     end)
    AccuracyError.

Definition classify_trend (recent_accuracy older_accuracy : Q) : string :=
  if Py.ltb (older_accuracy + 5) recent_accuracy then "improving"
  else if Py.ltb recent_accuracy (older_accuracy - 5) then "declining"
  else "stable".

Definition calculate_accuracy_trend (forecast_data : dict string Forecast.t)
    : Py.result string :=
  let recent_forecasts :=
    List.filter (fun f => Py.ltb 0 (Forecast.accuracy_score f))
                (dict_values forecast_data) in
  let n := Z.of_nat (length recent_forecasts) in
  if n <? 2 then Py.Ok "insufficient_data"%string
  else
    recent_accuracy ←
      Py.truediv
        (Py.sum (map Forecast.accuracy_score
                     (Py.slice (Some (-5)%Z) None recent_forecasts)))
        (inject_Z (Z.min 5 n));
    older_accuracy ←
      Py.truediv
        (Py.sum (map Forecast.accuracy_score
                     (Py.slice (Some (-10)%Z) (Some (-5)%Z) recent_forecasts)))
        (inject_Z (Z.min 5 (n - 5)));
    Py.Ok (classify_trend recent_accuracy older_accuracy).

End forecasting.

(** ** Lookups, market trends and reporting *)

(** Responses of [POST /trends]: 200 with the stored trend, or 500. *)
Inductive trend_response : Type :=
| TrendAdded (trend : Trend.t)
| TrendError (e : Py.exn).

(** Responses of [GET /analytics]: 200 with the analytics, or 500. *)
Inductive forecasting_analytics_response : Type :=
| ForecastingAnalyticsOk (analytics : ForecastingAnalytics.t)
| ForecastingAnalyticsError (e : Py.exn).

Section forecast_reporting.

(** [abs(x - 1.0) > 0.1] on a stored seasonal factor [x].  The test is
    evaluated in binary floating point, where it differs from the exact
    comparison next to the bounds (for [x = 1.1] the difference computed
    is slightly above [0.1]); the properties constrain it where they
    rely on it. *)
Variable is_seasonal : Q -> bool.

(** The counts ['active_forecasts'] and ['historical_records'] of
    [GET /status]. *)
Definition forecasting_status (w : world) : nat * nat :=
  (length (forecast_data w), size (historical_data w)).

(** [GET /forecasts]: the forecasts and their count. *)
Definition get_all_forecasts (w : world) : list Forecast.t * nat :=
  (dict_values (forecast_data w), length (forecast_data w)).

(** [GET /forecasts/<product_id>]. *)
Definition get_product_forecast (product_id : string) (w : world)
    : lookup_response Forecast.t :=
  match dict_get product_id (forecast_data w) with
  | None => NotFound
  | Some forecast => Found forecast
  end.

(** [GET /historical/<product_id>]: the series and its length. *)
Definition get_historical_data (product_id : string) (w : world)
    : lookup_response (list Historical.t * nat) :=
  match historical_data w !! product_id with
  | None => NotFound
  | Some series => Found (series, length series)
  end.

(** [GET /trends]: the trends and their count. *)
Definition get_market_trends (s : store) : list Trend.t * nat :=
  (dict_values (market_trends s), length (market_trends s)).

Definition add_market_trend (data : Trend.request)
    : store -> trend_response * store :=
  try_except_store
    (let trend_id := Trend.req_trend_id data in
     date_recorded ← in_world utcnow;
     let trend :=
       Trend.mk trend_id (Trend.req_category data) (Trend.req_trend_value data)
         (default "stable"%string (Trend.req_trend_direction data))
         (default 1%Q (Trend.req_impact_factor data))
         (default ""%string (Trend.req_source data))
         date_recorded
         (default ""%string (Trend.req_valid_until data)) in
     modify_store (fun s =>
       set_market_trends (dict_set trend_id trend (market_trends s)) s);;
     mret (TrendAdded trend))
    TrendError.

(** ** Analytics *)

(** The loop of [get_most_accurate_model] that collects, per model, the
    positive accuracy scores. *)
Fixpoint group_by_model (forecasts : list Forecast.t)
    (model_accuracy : dict string (list Q)) : dict string (list Q) :=
  match forecasts with
  | [] => model_accuracy
  | forecast :: forecasts' =>
      if Py.ltb 0 (Forecast.accuracy_score forecast) then
        let model := Forecast.model_used forecast in
        group_by_model forecasts'
          (dict_set model
             (default [] (dict_get model model_accuracy)
              ++ [Forecast.accuracy_score forecast])
             model_accuracy)
      else group_by_model forecasts' model_accuracy
  end.

(** The loop that averages the scores of each model. *)
Fixpoint average_by_model (items : dict string (list Q))
    (avg_accuracy : dict string Q) : Py.result (dict string Q) :=
  match items with
  | [] => Py.Ok avg_accuracy
  | (model, scores) :: items' =>
      average ← Py.truediv (Py.sum scores) (inject_Z (Z.of_nat (length scores)));
      average_by_model items' (dict_set model average avg_accuracy)
  end.

Definition get_most_accurate_model (forecast_data : dict string Forecast.t)
    : Py.result string :=
  let model_accuracy := group_by_model (dict_values forecast_data) [] in
  match model_accuracy with
  | [] => Py.Ok "no_data"%string
  | _ =>
      avg_accuracy ← average_by_model model_accuracy [];
      match Py.max_key (fun a b => Py.ltb a.2 b.2) avg_accuracy with
      | Some best => Py.Ok best.1
      | None => Py.Raise Py.ValueError
      end
  end.

Definition count_seasonal_patterns (forecast_data : dict string Forecast.t) : nat :=
  length (List.filter (fun forecast => is_seasonal (Forecast.seasonal_factor forecast))
                      (dict_values forecast_data)).

(** The loop that fills [trend_summary]: per category, the number of
    trends and the sum of their impact factors. *)
Fixpoint summarize_trends (trends : list Trend.t)
    (trend_summary : dict string CategorySummary.t)
    : dict string CategorySummary.t :=
  match trends with
  | [] => trend_summary
  | trend :: trends' =>
      let category := Trend.category trend in
      let entry :=
        default (CategorySummary.mk 0 0) (dict_get category trend_summary) in
      summarize_trends trends'
        (dict_set category
           (CategorySummary.mk (CategorySummary.count entry + 1)
              (CategorySummary.avg_impact entry + Trend.impact_factor trend)%Q)
           trend_summary)
  end.

(** The loop that turns the sums into averages. *)
Fixpoint average_impacts (entries : dict string CategorySummary.t)
    : Py.result (dict string CategorySummary.t) :=
  match entries with
  | [] => Py.Ok []
  | (category, entry) :: entries' =>
      average ← Py.truediv (CategorySummary.avg_impact entry)
                           (inject_Z (CategorySummary.count entry));
      rest ← average_impacts entries';
      mret ((category, CategorySummary.mk (CategorySummary.count entry) average)
            :: rest)
  end.

Definition get_forecasting_analytics
    : store -> forecasting_analytics_response * store :=
  try_except_store
    (s ← get_store;
     let w := core s in
     let total_forecasts := length (forecast_data w) in
     active ←
       in_world
         (comprehension_now (fun f now => now <? Forecast.valid_until f)
            (dict_values (forecast_data w)));
     let active_forecasts := length active in
     let accuracy_scores :=
       map Forecast.accuracy_score
         (List.filter (fun f => Py.ltb 0 (Forecast.accuracy_score f))
                      (dict_values (forecast_data w))) in
     avg_accuracy ←
       lift_store
         (match accuracy_scores with
          | [] => Py.Ok 0%Q
          | _ =>
              Py.truediv (Py.sum accuracy_scores)
                         (inject_Z (Z.of_nat (length accuracy_scores)))
          end);
     trend_summary ←
       lift_store
         (average_impacts (summarize_trends (dict_values (market_trends s)) []));
     accuracy_trend ← lift_store (calculate_accuracy_trend (forecast_data w));
     model ← lift_store (get_most_accurate_model (forecast_data w));
     mret (ForecastingAnalyticsOk
             (ForecastingAnalytics.mk total_forecasts active_forecasts
                (Py.round2 avg_accuracy) (size (historical_data w))
                accuracy_trend model
                (count_seasonal_patterns (forecast_data w))
                trend_summary)))
    ForecastingAnalyticsError.

End forecast_reporting.

(* ===================================================================== *)
(** * The service as a whole                                              *)
(* ===================================================================== *)

(** The requests that can change the state, with their arguments.
    ([GET /analytics] of either blueprint reads the clock.) *)
Inductive request : Type :=
| PostRule (data : RuleData.t)
| PutRule (rule_id : string) (data : RuleUpdate.t)
| PostTrigger (product_id : string) (quantity : Q)
| PostCheckTriggers (inventory_data : gmap string Inventory.t)
| PostApprove (order_id : Z) (data : approve_request)
| PostReject (order_id : Z) (data : reject_request)
| GetReorderAnalytics (orders : list Order.t)
| PostForecast (product_id : string) (forecast_period : Z)
    (product_name : option string)
| PostHistorical (data : Historical.request)
| PostTrend (data : Trend.request)
| PostAccuracy (product_id : string) (actual_demand : Q)
| GetForecastingAnalytics.

Section service.

Variable format_num : Q -> string.
Variable format_timestamp : Py.datetime -> string.
Variable fromisoformat : string -> option Py.parsed.
Variable is_seasonal : Q -> bool.

(** The state in which a request leaves the service. *)
Definition serve (r : request) (s : store) : store :=
  match r with
  | PostRule data => (create_reorder_rule format_timestamp data s).2
  | PutRule rule_id data => (update_reorder_rule rule_id data s).2
  | PostTrigger product_id quantity =>
      (on_core (trigger_reorder product_id quantity) s).2
  | PostCheckTriggers inventory_data =>
      (on_core (check_reorder_triggers format_num inventory_data) s).2
  | PostApprove order_id data => (on_core (approve_order order_id data) s).2
  | PostReject order_id data => (on_core (reject_order order_id data) s).2
  | GetReorderAnalytics orders => (get_reorder_analytics orders s).2
  | PostForecast product_id forecast_period product_name =>
      (on_core (create_forecast fromisoformat product_id forecast_period
                  product_name) s).2
  | PostHistorical data => (on_core (add_historical_data fromisoformat data) s).2
  | PostTrend data => (add_market_trend data s).2
  | PostAccuracy product_id actual_demand =>
      (on_core (update_forecast_accuracy product_id actual_demand) s).2
  | GetForecastingAnalytics => (get_forecasting_analytics is_seasonal s).2
  end.

(** The state at start-up: every dictionary is empty. *)
Definition initial_store (clock : nat -> Py.datetime) : store :=
  mk_store (mk_world clock 0 [] ∅ [] ∅) [] [] ∅.

(** The states that the service reaches from start-up. *)
Inductive reachable : store -> Prop :=
| reachable_initial (clock : nat -> Py.datetime) : reachable (initial_store clock)
| reachable_serve (r : request) (s : store) :
    reachable s -> reachable (serve r s).

End service.

(** The requests served by the reorder blueprint. *)
Definition reorder_request (r : request) : bool :=
  match r with
  | PostRule _ | PutRule _ _ | PostTrigger _ _ | PostCheckTriggers _
  | PostApprove _ _ | PostReject _ _ | GetReorderAnalytics _ => true
  | _ => false
  end.

(* ===================================================================== *)
(** * A concrete runtime and sample data                                  *)
(* ===================================================================== *)

(** The handlers above are parametric in how numbers print and in how
    ISO strings parse.  The examples run them with the two functions
    below: integers print in decimal (other rationals as a fraction), and
    the parser accepts the calendar dates [YYYY-MM-DD]. *)
Definition show_num (q : Q) : string :=
  let r := Qred q in
  if (Zpos (Qden r) =? 1) then pretty (Qnum r)
  else pretty (Qnum r) +:+ "/" +:+ pretty (Zpos (Qden r)).

Definition digit (c : ascii) : option Z :=
  let n := nat_of_ascii c in
  if ((48 <=? n) && (n <=? 57))%nat then Some (Z.of_nat (n - 48)) else None.

Definition parse_date (s : string) : option Py.parsed :=
  match list_ascii_of_string s with
  | [y1; y2; y3; y4; "-"%char; m1; m2; "-"%char; d1; d2] =>
      a ← digit y1; b ← digit y2; c ← digit y3; d ← digit y4;
      e ← digit m1; f ← digit m2; g ← digit d1; h ← digit d2;
      let y := a * 1000 + b * 100 + c * 10 + d in
      let m := e * 10 + f in
      let dd := g * 10 + h in
      if (1 <=? y) && (1 <=? m) && (m <=? 12) && (1 <=? dd)
         && (dd <=? Py.days_in_month m
                    + (if (m =? 2) && Py.is_leap y then 1 else 0))
      then Some (Py.Naive (Py.at_midnight y m dd)) else None
  | _ => None
  end.

(** A clock that starts on Sunday 2024-12-15 at midnight and advances by
    one microsecond per reading, and the empty world on it. *)
Definition december_clock (n : nat) : Py.datetime :=
  Py.at_midnight 2024 12 15 + Z.of_nat n.

Definition empty_world : world := mk_world december_clock 0 [] ∅ [] ∅.

(** A threshold rule for product [sku-1]: reorder [qty] units at 10 per
    unit when the stock is at most 10, with the default approval
    threshold and the seasonal adjustment on. *)
Definition sample_rule (qty : Q) : Rule.t :=
  Rule.mk "rule_1" "sku-1" (Some "Widget"%string) "threshold" 10 qty
    (Some "sup-1"%string) 0 (Some 10%Q) (Some false) (Some 1000%Q) (Some 7)
    0 (Some true) "active" 0 None 0.




(** A pending order: 200 units at 10 per unit cost 2000, above the
    approval threshold of 1000. *)
Definition pending_order : Order.t :=
  new_order (sample_rule 200) 200 "manual_trigger"
    (december_clock 0) (december_clock 1) (december_clock 2).

Definition pending_world : world :=
  snd (create_reorder (sample_rule 200) 200 "manual_trigger" empty_world).

(** Historical demand for [sku-1]: day [i] of December 2024 with demand
    [9 + i]. *)
Definition two_digits (n : nat) : string :=
  if (n <? 10)%nat then "0" +:+ pretty n else pretty n.

Definition december_record (day : nat) (demand : Q) : Historical.t :=
  Historical.mk ("2024-12-" +:+ two_digits day) demand 0 0 false [] 0.

Definition sample_history (n : nat) : list Historical.t :=
  map (fun i => december_record i (inject_Z (Z.of_nat (9 + i)))) (seq 1 n).


(** The three-day forecast the engine returns from fifteen days of
    history. *)
Definition fortnight_result : ForecastResult.t :=
  Eval vm_compute in
    match fst (generate_demand_forecast parse_date "sku-1" (sample_history 15) 3
                 empty_world) with
    | Py.Ok result => result
    | Py.Raise _ => ForecastResult.mk 0 0 "" 0 [] "" 0
    end.

Definition sample_request (date : string) (demand : Q) : Historical.request :=
  Historical.mk_request "sku-1" date demand None None None None.

(** The world after one, and after two, observations posted for
    2024-12-10. *)
Definition one_day_world : world :=
  snd (add_historical_data parse_date (sample_request "2024-12-10" 5) empty_world).

Definition two_writes_world : world :=
  snd (add_historical_data parse_date (sample_request "2024-12-10" 9) one_day_world).

(** Stored forecasts. *)
Definition sample_forecast (product_id : string) (predicted accuracy : Q)
    : Forecast.t :=
  Forecast.mk product_id "" 7 predicted 74 "stable" 1 []
    "moving_average_with_trend" 0 0 accuracy None None None None.

Definition forecast_world (predicted : Q) : world :=
  set_forecast_data [("sku-1"%string, sample_forecast "sku-1" predicted 0)]
    empty_world.

(** A forecast store with one forecast per accuracy score, in order. *)
Definition reconciled_store (scores : list Q) : dict string Forecast.t :=
  imap (fun i s => ("sku-" +:+ pretty i, sample_forecast ("sku-" +:+ pretty i) 100 s))
       scores.

(** Timestamps print as the number of microseconds. *)
Definition show_timestamp (t : Py.datetime) : string := pretty t.

(** The service on the December clock: every dictionary empty. *)
Definition sample_service : store := initial_store december_clock.

(** A body for [POST /rules]: a threshold rule for [sku-1] that reorders
    200 units when the stock is at most 10, every optional field left
    out. *)
Definition sample_rule_data : RuleData.t :=
  RuleData.mk "sku-1" None "threshold" (Some 10%Q) 200 None None None None None
    None None.

(** The exact comparison [|x - 1| > 0.1], which agrees with the
    floating-point test away from the two bounds. *)
Definition exact_seasonal (x : Q) : bool := Py.ltb (1 # 10) (Qabs (x - 1)).

(** The sample runtime serving a list of requests, in order. *)
Definition sample_serve (requests : list request) (s : store) : store :=
  foldl (fun s r => serve show_num show_timestamp parse_date exact_seasonal r s)
        s requests.

(** The service after a rule was posted for [sku-1] and 200 units were
    ordered by hand. *)
Definition ordered_service : store :=
  sample_serve [PostRule sample_rule_data; PostTrigger "sku-1" 200] sample_service.

(** The service after seven days of history were posted for [sku-1], a
    three-day forecast was made and reconciled with an actual demand
    of 40. *)
Definition forecast_service : store :=
  sample_serve
    (map (fun i => PostHistorical
                     (sample_request ("2024-12-" +:+ two_digits i)
                        (inject_Z (Z.of_nat (9 + i)))))
         (seq 1 7)
     ++ [PostForecast "sku-1" 3 None; PostAccuracy "sku-1" 40])
    sample_service.

(** Thirteen days of history for [sku-1] followed by a record whose
    date is not an ISO string. *)
Definition unreadable_world : world :=
  set_historical_data
    {["sku-1"%string :=
        sample_history 13 ++ [Historical.mk "yesterday" 4 0 0 false [] 0]]}
    empty_world.

(** A time-based rule for [sku-1] that reorders every day and was last
    triggered at [last]. *)
Definition daily_rule (last : Py.datetime) : Rule.t :=
  Rule.mk "rule_2" "sku-1" None "time_based" 1 5 None 0 None None None None 0 None
    "active" 0 (Some last) 1.



(* ===================================================================== *)
(** * Vocabulary of the properties                                        *)
(* ===================================================================== *)




(** The order of the series: by the date strings. *)
Definition date_le (a b : Historical.t) : Prop :=
  String.leb (Historical.date a) (Historical.date b) = true.

(** The record's date parses to a naive datetime after the cutoff. *)
Definition in_window (fromisoformat : string -> option Py.parsed)
    (cutoff_date : Py.datetime) (record : Historical.t) : bool :=
  match fromisoformat (Historical.date record) with
  | Some (Py.Naive t) => cutoff_date <? t
  | _ => false
  end.



(** ** The specification's wording, where the code differs from it *)


(** The series invariant as the specification words it: at most one
    record per calendar day. *)
Definition spec_one_record_per_day (series : list Historical.t) : Prop :=
  NoDup (map Historical.date series).




(** ** Vocabulary of the reporting properties *)

(** The mean of a non-empty list of numbers. *)
Definition mean (l : list Q) : Q := (Py.sum l / inject_Z (Z.of_nat (length l)))%Q.

(** The stored forecasts with a positive accuracy score, in store order. *)
Definition reconciled (store : dict string Forecast.t) : list Forecast.t :=
  List.filter (fun f => Py.ltb 0 (Forecast.accuracy_score f)) (dict_values store).

(** The positive accuracy scores of the forecasts made with [model]. *)
Definition model_scores (forecasts : list Forecast.t) (model : string) : list Q :=
  map Forecast.accuracy_score
    (List.filter (fun f => Py.ltb 0 (Forecast.accuracy_score f)
                           && String.eqb (Forecast.model_used f) model)
                 forecasts).

(** What holds of the rules and orders of every reachable state. *)
Definition rule_ok (kv : string * Rule.t) : Prop :=
  Rule.rule_id kv.2 = kv.1 /\ Rule.unit_cost kv.2 = None.

Definition order_ok (order_id : Z) (order : Order.t) : Prop :=
  Order.order_id order = order_id /\ (Order.estimated_cost order == 0)%Q.

(** What holds of the forecasts of every reachable state. *)
Definition forecast_ok (kv : string * Forecast.t) : Prop :=
  Forecast.product_id kv.2 = kv.1
  /\ Forecast.model_used kv.2 = "moving_average_with_trend"%string
  /\ (0 <= Forecast.accuracy_score kv.2 <= 100)%Q
  /\ 74 <= Forecast.confidence_level kv.2 <= 95
  /\ (0 <= Forecast.predicted_demand kv.2)%Q
  /\ length (Forecast.forecast_breakdown kv.2)
     = Z.to_nat (Forecast.forecast_period_days kv.2).

(** The world with other forecasts and other series. *)
Definition with_forecasting (forecasts : dict string Forecast.t)
    (series : gmap string (list Historical.t)) (w : world) : world :=
  set_forecast_data forecasts (set_historical_data series w).

(** A computation that runs the same way, and leaves the same trace,
    whatever forecasts and series the world holds. *)
Definition ignores_forecasting {A} (m : M A) : Prop :=
  forall forecasts series w,
    m (with_forecasting forecasts series w)
    = let (r, w') := m w in (r, with_forecasting forecasts series w').


(** The triggers counted for a product: the sum of [total_triggers]
    over its rules. *)
Definition product_triggers (rules : list Rule.t) (product_id : string) : Z :=
  foldr Z.add 0
    (map Rule.total_triggers
         (List.filter (fun rule => String.eqb (Rule.product_id rule) product_id)
                      rules)).


(** ** Tactics *)

Ltac run_monad :=
  unfold mbind, mret, M_bind, M_ret, bind, ret, utcnow, modify, get_world,
    lift, raise; cbn [fst snd].

Ltac q_nonzero := unfold Qeq; simpl; lia.

(* ===================================================================== *)
(** * Properties of the primitives                                        *)
(* ===================================================================== *)

(** ** Stepping through the monad *)

Lemma bind_ok {A B} (m : M A) (k : A -> M B) (w w1 : world) (a : A) :
  m w = (Py.Ok a, w1) -> (m ≫= k) w = k a w1.
Proof. intros H. unfold mbind, M_bind, bind. now rewrite H. Qed.


Lemma bind_utcnow {B} (k : Py.datetime -> M B) (w : world) :
  (utcnow ≫= k) w = k (reading w 0) (set_ticks (S (ticks w)) w).
Proof. reflexivity. Qed.

Lemma bind_lift {A B} (r : Py.result A) (k : A -> M B) (w : world) :
  (lift r ≫= k) w
  = match r with Py.Ok a => k a w | Py.Raise e => (Py.Raise e, w) end.
Proof. unfold mbind, M_bind, bind, lift. now destruct r. Qed.

(** ** Comparisons, [max] and division *)

Lemma ltb_lt (x y : Q) : Py.ltb x y = true <-> (x < y)%Q.
Proof.
  unfold Py.ltb. rewrite negb_true_iff, <- not_true_iff_false, Qle_bool_iff.
  split; [apply Qnot_le_lt | apply Qlt_not_le].
Qed.

Lemma ltb_ge (x y : Q) : Py.ltb x y = false <-> (y <= x)%Q.
Proof. unfold Py.ltb. rewrite negb_false_iff. apply Qle_bool_iff. Qed.

Lemma max_ge_l (a b : Q) : (a <= Py.max a b)%Q.
Proof.
  unfold Py.max. destruct (Py.ltb a b) eqn:H; [|apply Qle_refl].
  apply ltb_lt in H. now apply Qlt_le_weak.
Qed.

Lemma max_ge_r (a b : Q) : (b <= Py.max a b)%Q.
Proof.
  unfold Py.max. destruct (Py.ltb a b) eqn:H; [apply Qle_refl|].
  now apply ltb_ge in H.
Qed.

Lemma max_one_nonzero (x : Q) : ~ (Py.max x 1 == 0)%Q.
Proof.
  intros Hz. pose proof (max_ge_r x 1) as H. rewrite Hz in H.
  now apply (Qlt_not_le 0 1).
Qed.

Lemma truediv_ok (a b : Q) : ~ (b == 0)%Q -> Py.truediv a b = Py.Ok (a / b)%Q.
Proof.
  intros H. unfold Py.truediv, Py.eqb.
  destruct (Qeq_bool b 0) eqn:E; [|reflexivity].
  apply Qeq_bool_iff in E. contradiction.
Qed.

(** ** [int] and [round] *)



(** [round] is within one half of its argument. *)
Lemma round_close (x : Q) :
  (inject_Z (Py.round x) - (1 # 2) <= x)%Q /\ (x <= inject_Z (Py.round x) + (1 # 2))%Q.
Proof.
  unfold Py.round.
  pose proof (Qfloor_le x) as Hlo. pose proof (Qlt_floor x) as Hhi.
  rewrite inject_Z_plus in Hhi. change (inject_Z 1) with 1%Q in Hhi.
  set (f := Qfloor x) in *.
  destruct (Py.ltb (x - inject_Z f) (1 # 2)) eqn:H1.
  { apply ltb_lt in H1. split; lra. }
  apply ltb_ge in H1.
  destruct (Py.ltb (1 # 2) (x - inject_Z f)) eqn:H2.
  { apply ltb_lt in H2. rewrite inject_Z_plus. change (inject_Z 1) with 1%Q.
    split; lra. }
  apply ltb_ge in H2.
  destruct (Z.even f); [split; lra|].
  rewrite inject_Z_plus. change (inject_Z 1) with 1%Q. split; lra.
Qed.


Lemma round_nonneg (x : Q) : (0 <= x)%Q -> 0 <= Py.round x.
Proof.
  intros H. unfold Py.round.
  assert (Hf : 0 <= Qfloor x).
  { change 0 with (Qfloor 0). now apply Qfloor_resp_le. }
  repeat case_match; lia.
Qed.




Lemma round2_nonneg (x : Q) : (0 <= x)%Q -> (0 <= Py.round2 x)%Q.
Proof.
  intros H. unfold Py.round2, Qle. simpl.
  assert (0 <= Py.round (x * 100)); [|lia].
  apply round_nonneg. apply Qmult_le_0_compat; [assumption|discriminate].
Qed.


(** ** Sums *)



(** ** Slices *)

Lemma slice_take_drop {A} (start stop : option Z) (l : list A) :
  Py.slice start stop l
  = take (from_option (Py.clamp (Z.of_nat (length l))) (length l) stop
          - from_option (Py.clamp (Z.of_nat (length l))) 0%nat start)
         (drop (from_option (Py.clamp (Z.of_nat (length l))) 0%nat start) l).
Proof. reflexivity. Qed.

Lemma clamp_neg (len i : Z) : i < 0 -> Py.clamp len i = Z.to_nat (len + i).
Proof.
  intros H. unfold Py.clamp.
  destruct (i <? 0) eqn:E; lia.
Qed.


Lemma slice_last_length {A} (l : list A) (i : Z) :
  i < 0 -> length (Py.slice (Some i) None l) = Nat.min (Z.to_nat (- i)) (length l).
Proof.
  intros Hn. rewrite slice_take_drop. cbn [from_option].
  rewrite clamp_neg by assumption. rewrite length_take, length_drop. lia.
Qed.




(** ** Dictionaries *)

Lemma dict_get_set_eq {K V} `{EqDecision K} (k : K) (v : V) (d : dict K V) :
  dict_get k (dict_set k v d) = Some v.
Proof.
  induction d as [|[k' v'] d IH]; simpl.
  - now rewrite decide_True.
  - destruct (decide (k = k')) as [->|Hne]; simpl.
    + now rewrite decide_True.
    + now rewrite decide_False.
Qed.

(** ** The order on date strings and the stable sort *)

Lemma string_compare_trans (a b c : string) :
  String.compare a b <> Gt -> String.compare b c <> Gt -> String.compare a c <> Gt.
Proof.
  revert b c. induction a as [|x a IH]; intros [|y b] [|z c]; simpl; try congruence.
  unfold Ascii.compare.
  destruct (N.compare_spec (N_of_ascii x) (N_of_ascii y)) as [Hxy|Hxy|Hxy];
    destruct (N.compare_spec (N_of_ascii y) (N_of_ascii z)) as [Hyz|Hyz|Hyz];
    try congruence; intros H1 H2.
  - rewrite Hxy, Hyz, N.compare_refl. eauto.
  - rewrite Hxy. now rewrite (proj2 (N.compare_lt_iff _ _) Hyz).
  - rewrite <- Hyz. now rewrite (proj2 (N.compare_lt_iff _ _) Hxy).
  - assert (Hxz : (N_of_ascii x < N_of_ascii z)%N) by lia.
    now rewrite (proj2 (N.compare_lt_iff _ _) Hxz).
Qed.

Lemma string_leb_trans (a b c : string) :
  String.leb a b = true -> String.leb b c = true -> String.leb a c = true.
Proof.
  unfold String.leb. intros H1 H2.
  pose proof (string_compare_trans a b c) as H.
  destruct (String.compare a b), (String.compare b c), (String.compare a c);
    try reflexivity; try discriminate; exfalso; apply H; congruence.
Qed.

Lemma date_le_total (a b : Historical.t) : date_le a b \/ date_le b a.
Proof. apply String.leb_total. Qed.

Lemma date_le_trans (a b c : Historical.t) : date_le a b -> date_le b c -> date_le a c.
Proof. apply string_leb_trans. Qed.

Lemma insert_by_date_perm (x : Historical.t) (l : list Historical.t) :
  Permutation (insert_by_date x l) (x :: l).
Proof.
  induction l as [|y l IH]; simpl; [reflexivity|].
  destruct (String.leb _ _); [reflexivity|].
  rewrite IH. apply perm_swap.
Qed.

Lemma sort_by_date_perm (l : list Historical.t) : Permutation (sort_by_date l) l.
Proof.
  induction l as [|x l IH]; simpl; [reflexivity|].
  rewrite insert_by_date_perm. now constructor.
Qed.

Lemma insert_by_date_sorted (x : Historical.t) (l : list Historical.t) :
  StronglySorted date_le l -> StronglySorted date_le (insert_by_date x l).
Proof.
  induction l as [|y l IH]; simpl; intros Hs.
  - repeat constructor.
  - apply StronglySorted_inv in Hs as [Hs Hy].
    destruct (String.leb (Historical.date x) (Historical.date y)) eqn:E.
    + constructor; [constructor; assumption|].
      constructor; [exact E|].
      eapply Forall_impl; [exact Hy|]. intros z Hz. eapply date_le_trans; eassumption.
    + constructor; [auto|].
      rewrite insert_by_date_perm. constructor; [|assumption].
      destruct (date_le_total x y) as [H|H]; [|exact H].
      unfold date_le in H. congruence.
Qed.

Lemma sort_by_date_sorted (l : list Historical.t) :
  StronglySorted date_le (sort_by_date l).
Proof.
  induction l as [|x l IH]; simpl; [constructor|].
  now apply insert_by_date_sorted.
Qed.

(** Stability: records that share a date keep their order. *)
Lemma insert_by_date_same_day (x : Historical.t) (l : list Historical.t) (d : string) :
  List.filter (fun r => String.eqb (Historical.date r) d) (insert_by_date x l)
  = List.filter (fun r => String.eqb (Historical.date r) d) (x :: l).
Proof.
  induction l as [|y l IH]; [reflexivity|].
  cbn [insert_by_date].
  destruct (String.leb (Historical.date x) (Historical.date y)) eqn:E; [reflexivity|].
  cbn [List.filter] in *. rewrite IH.
  destruct (String.eqb (Historical.date x) d) eqn:Ex;
    destruct (String.eqb (Historical.date y) d) eqn:Ey; try reflexivity.
  apply String.eqb_eq in Ex, Ey. rewrite Ex, Ey in E.
  assert (String.leb d d = true); [|congruence].
  destruct (String.leb_total d d); assumption.
Qed.

Lemma sort_by_date_stable (l : list Historical.t) (d : string) :
  List.filter (fun r => String.eqb (Historical.date r) d) (sort_by_date l)
  = List.filter (fun r => String.eqb (Historical.date r) d) l.
Proof.
  induction l as [|x l IH]; [reflexivity|].
  cbn [sort_by_date foldr]. rewrite insert_by_date_same_day.
  cbn [List.filter]. fold (sort_by_date l). now rewrite IH.
Qed.

(* ===================================================================== *)
(** * Reordering: order creation, trigger evaluation, approval            *)
(* ===================================================================== *)


(** The approval policy on the two orders of the specification's
    example: 5 units cost 50 and go straight to the supplier, 200 units
    cost 2000 and wait for approval. *)
Example approval_policy_examples :
  (Order.status <$> pending_orders
     (snd (create_reorder (sample_rule 5) 5 "manual_trigger" empty_world))
     !! december_clock 0) = Some Order.sent_to_supplier
  /\ (Order.status <$> pending_orders pending_world !! december_clock 0)
     = Some Order.pending_approval.
Proof. split; vm_compute; reflexivity. Qed.


Section trigger_evaluation.

Variable format_num : Q -> string.
Variable inventory_data : gmap string Inventory.t.










(** C4.  Approval and rejection act on an order of [pending_orders].
    Unless its status is [pending_approval], both answer "not pending
    approval" and leave the world as it was.  A pending order is approved
    by setting it [approved] (with approver, time and notes) and then
    sending it, which leaves it [sent_to_supplier] in the store; it is
    rejected by setting it [rejected] (with rejecter, time and reason),
    after which every approval of it answers "not pending approval". *)
Theorem approval_workflow (order_id : Z) (order : Order.t)
    (approval : approve_request) (rejection : reject_request) (w : world) :
  pending_orders w !! order_id = Some order ->
  (Order.status order <> Order.pending_approval ->
     approve_order order_id approval w = (NotPendingApproval, w)
     /\ reject_order order_id rejection w = (NotPendingApproval, w))
  /\ (Order.status order = Order.pending_approval ->
     (exists approved sent w',
        approved = Order.set_approval
                     (default "system"%string (req_approved_by approval))
                     (reading w 0) (default ""%string (req_notes approval))
                     (Order.set_status Order.approved order)
        /\ Order.status approved = Order.approved
        /\ sent = Order.set_sent_date (reading w 1)
                    (Order.set_status Order.sent_to_supplier approved)
        /\ Order.status sent = Order.sent_to_supplier
        /\ approve_order order_id approval w = (OrderSuccess sent, w')
        /\ pending_orders w' !! order_id = Some sent)
     /\ (exists rejected w',
           rejected = Order.set_rejection
                        (default "system"%string (req_rejected_by rejection))
                        (reading w 0) (default ""%string (req_reason rejection))
                        (Order.set_status Order.rejected order)
           /\ Order.status rejected = Order.rejected
           /\ reject_order order_id rejection w = (OrderSuccess rejected, w')
           /\ pending_orders w' !! order_id = Some rejected
           /\ forall approval',
                approve_order order_id approval' w' = (NotPendingApproval, w'))).
Proof.
  intros Hlook. split.
  - intros Hst. unfold approve_order, reject_order, try_except. run_monad.
    rewrite Hlook. rewrite bool_decide_eq_true_2 by exact Hst. done.
  - intros Hst. split.
    + unfold approve_order, try_except, send_order_to_supplier, write_order.
      run_monad. rewrite Hlook.
      rewrite bool_decide_eq_false_2 by (rewrite Hst; intros Hn; now apply Hn).
      simpl. eexists _, _, _. split; [reflexivity|]. split; [reflexivity|].
      split; [reflexivity|]. split; [reflexivity|]. split; [reflexivity|].
      simpl. apply lookup_insert_eq.
    + unfold reject_order, try_except, write_order.
      run_monad. rewrite Hlook.
      rewrite bool_decide_eq_false_2 by (rewrite Hst; intros Hn; now apply Hn).
      simpl. eexists _, _. split; [reflexivity|]. split; [reflexivity|].
      split; [reflexivity|]. split; [simpl; apply lookup_insert_eq|].
      intros approval'. unfold approve_order, try_except. run_monad. simpl.
      rewrite lookup_insert_eq. simpl. reflexivity.
Qed.

End trigger_evaluation.

(** ** The properties on the sample data *)




Lemma approval_workflow_witness :
  (exists sent w',
     approve_order (december_clock 0) (mk_approve_request None None) pending_world
     = (OrderSuccess sent, w')
     /\ Order.status sent = Order.sent_to_supplier)
  /\ (exists rejected w',
        reject_order (december_clock 0) (mk_reject_request None None) pending_world
        = (OrderSuccess rejected, w')
        /\ Order.status rejected = Order.rejected
        /\ approve_order (december_clock 0) (mk_approve_request None None) w'
           = (NotPendingApproval, w')).
Proof.
  assert (Hlook : pending_orders pending_world !! december_clock 0 = Some pending_order)
    by (vm_compute; reflexivity).
  destruct (approval_workflow (december_clock 0) pending_order
              (mk_approve_request None None) (mk_reject_request None None)
              pending_world Hlook) as [_ Hpending].
  destruct (Hpending eq_refl)
    as [(approved & sent & w1 & _ & _ & _ & Hsent & Happrove & _)
        (rejected & w2 & _ & Hrejected & Hreject & _ & Hterminal)].
  split.
  - exists sent, w1. split; assumption.
  - exists rejected, w2. repeat split; [assumption..|apply Hterminal].
Defined.

(* ===================================================================== *)
(** * Forecasting: historical series, forecast engine, accuracy           *)
(* ===================================================================== *)

Lemma series_of_insert_eq (h : gmap string (list Historical.t)) (w : world)
    (p : string) (s : list Historical.t) :
  series_of (set_historical_data (<[p := s]> h) w) p = s.
Proof. unfold series_of. cbn. now rewrite lookup_insert_eq. Qed.

Section forecasting_facts.

Variable fromisoformat : string -> option Py.parsed.

(** ** The historical series *)

Lemma comprehension_window (cutoff : Py.datetime) (l kept : list Historical.t) :
  comprehension (after_cutoff fromisoformat cutoff) l = Py.Ok kept ->
  kept = List.filter (in_window fromisoformat cutoff) l.
Proof.
  revert kept. induction l as [|x l IH]; simpl; intros kept H.
  - now injection H as <-.
  - unfold mbind, Py.result_bind in H. unfold after_cutoff at 1 in H.
    unfold in_window at 1.
    destruct (fromisoformat (Historical.date x)) as [[t|t]|]; try discriminate.
    destruct (comprehension _ l) as [rest|e]; [|discriminate].
    specialize (IH rest eq_refl). subst rest.
    simpl in H. injection H as <-. reflexivity.
Qed.

Lemma in_window_spec (cutoff : Py.datetime) (record : Historical.t) :
  in_window fromisoformat cutoff record = true
  <-> exists t, fromisoformat (Historical.date record) = Some (Py.Naive t)
                /\ cutoff < t.
Proof.
  unfold in_window. destruct (fromisoformat _) as [[t|t]|]; split.
  - intros H. exists t. split; [reflexivity|lia].
  - intros (t' & [= <-] & Hlt). lia.
  - discriminate.
  - intros (t' & [=] & _).
  - discriminate.
  - intros (t' & [=] & _).
Qed.

(** What [POST /historical] does: the record is appended first; the
    window filter and the sort follow only if every stored date
    compares with the cutoff. *)
Lemma add_historical_data_run (data : Historical.request) (w : world) :
  let product_id := Historical.req_product_id data in
  let historical_record :=
    Historical.mk (Historical.req_date data) (Historical.req_demand data)
      (default 0%Q (Historical.req_sales data))
      (default 0%Q (Historical.req_price data))
      (default false (Historical.req_promotions data))
      (default [] (Historical.req_external_factors data))
      (reading w 0) in
  let appended := series_of w product_id ++ [historical_record] in
  let cutoff_date := Py.add_days (reading w 1) (-365) in
  let after_append (series : list Historical.t) :=
    set_historical_data (<[product_id := series]> (historical_data w))
      (set_ticks (S (S (ticks w))) w) in
  add_historical_data fromisoformat data w
  = match comprehension (after_cutoff fromisoformat cutoff_date) appended with
    | Py.Ok kept =>
        (HistoricalAdded (length (sort_by_date kept)),
         after_append (sort_by_date kept))
    | Py.Raise e => (HistoricalError e, after_append appended)
    end.
Proof.
  intros product_id historical_record appended cutoff_date after_append.
  unfold add_historical_data, try_except, set_series.
  unfold mbind, mret, M_bind, M_ret, bind, ret, utcnow, modify, get_world, lift.
  fold product_id.
  subst appended. unfold series_of.
  case_bool_decide as Hnew; cbn -[comprehension sort_by_date];
    rewrite ?lookup_insert_eq; cbn -[comprehension sort_by_date];
    rewrite ?Hnew; cbn -[comprehension sort_by_date];
    (destruct (comprehension _ _); cbn -[comprehension sort_by_date];
     subst after_append; cbn -[comprehension sort_by_date];
     rewrite ?insert_insert_eq; reflexivity).
Qed.

(** C3 (amended).  After a successful append the product's series is
    sorted ascending by its date strings and holds exactly the records,
    old ones and the new one, whose date lies after the cutoff (the
    clock reading minus 365 days).  Nothing is de-duplicated: records of
    one date are all kept, in the order in which they were written.
    Other products' series are untouched. *)
Theorem add_historical_data_series (data : Historical.request) (w w' : world)
    (total_records : nat) :
  add_historical_data fromisoformat data w = (HistoricalAdded total_records, w') ->
  let product_id := Historical.req_product_id data in
  let cutoff_date := Py.add_days (reading w 1) (-365) in
  let historical_record :=
    Historical.mk (Historical.req_date data) (Historical.req_demand data)
      (default 0%Q (Historical.req_sales data))
      (default 0%Q (Historical.req_price data))
      (default false (Historical.req_promotions data))
      (default [] (Historical.req_external_factors data))
      (reading w 0) in
  let appended := series_of w product_id ++ [historical_record] in
  let series := series_of w' product_id in
  StronglySorted date_le series
  /\ Forall (fun r => exists t,
               fromisoformat (Historical.date r) = Some (Py.Naive t)
               /\ cutoff_date < t) series
  /\ Permutation series (List.filter (in_window fromisoformat cutoff_date) appended)
  /\ (forall day,
        List.filter (fun r => String.eqb (Historical.date r) day) series
        = List.filter (fun r => String.eqb (Historical.date r) day)
            (List.filter (in_window fromisoformat cutoff_date) appended))
  /\ total_records = length series
  /\ (forall other, other <> product_id -> series_of w' other = series_of w other).
Proof.
  intros Hrun product_id cutoff_date historical_record appended series.
  rewrite add_historical_data_run in Hrun. cbv zeta in Hrun.
  fold product_id historical_record appended cutoff_date in Hrun.
  destruct (comprehension (after_cutoff fromisoformat cutoff_date) appended)
    as [kept|e] eqn:Hc; [|discriminate].
  apply comprehension_window in Hc.
  injection Hrun as Hn Hw. subst w' total_records.
  subst series. rewrite series_of_insert_eq. rewrite <- Hc.
  split; [apply sort_by_date_sorted|].
  split.
  { rewrite sort_by_date_perm, Hc. apply Forall_forall.
    intros r Hr. apply list_elem_of_In, filter_In in Hr as [_ Hr].
    now apply in_window_spec in Hr. }
  split; [apply sort_by_date_perm|].
  split; [intros day; apply sort_by_date_stable|].
  split; [reflexivity|].
  intros other Hne. unfold series_of. cbn.
  now rewrite lookup_insert_ne by congruence.
Qed.

(** ** The forecast engine *)

(** The daily loop never raises; it appends one entry per offset. *)
Lemma daily_loop_run (base trend sf : Q) (current_day : Z) (days : list Z) :
  forall (acc : list Daily.t) (w : world),
    exists entries,
      daily_loop base trend sf current_day days acc w
      = (Py.Ok (acc ++ entries), set_ticks (length days + ticks w) w)
      /\ map Daily.predicted_demand entries
         = map (fun day => Py.round2 (daily_demand base trend sf current_day day)) days.
Proof.
  induction days as [|day days IH]; intros acc w.
  - exists []. cbn [daily_loop length map Nat.add]. rewrite app_nil_r.
    split; [|reflexivity]. destruct w; reflexivity.
  - cbn [daily_loop]. rewrite bind_utcnow.
    edestruct IH as (entries & Hrun & Hvals). rewrite Hrun. clear Hrun.
    eexists (_ :: entries). split.
    + rewrite <- app_assoc. cbn [app length].
      f_equal. unfold set_ticks. cbn [ticks clock reorder_rules
        pending_orders forecast_data historical_data].
      replace (length days + S (ticks w))%nat
        with (S (length days + ticks w)) by lia.
      reflexivity.
    + cbn [map Daily.predicted_demand]. now rewrite Hvals.
Qed.



(** The engine in one equation per outcome. *)
Lemma generate_demand_forecast_run (product_id : string)
    (historical : list Historical.t) (forecast_period : Z) (w : world) :
  let demands := map Historical.demand (Py.slice (Some (-30)) None historical) in
  let current_day := Py.weekday (reading w 0) in
  ((length historical < 7)%nat ->
     generate_demand_forecast fromisoformat product_id historical forecast_period w
     = (Py.Raise Py.ValueError, w))
  /\ ((7 <= length historical)%nat ->
      match seasonal_factor_of fromisoformat historical demands current_day with
      | Py.Raise e =>
          generate_demand_forecast fromisoformat product_id historical forecast_period w
          = (Py.Raise e, set_ticks (S (ticks w)) w)
      | Py.Ok seasonal_factor =>
          exists daily_forecast,
            generate_demand_forecast fromisoformat product_id historical
              forecast_period w
            = (Py.Ok (ForecastResult.mk
                        (Py.round2 (Py.sum (map Daily.predicted_demand daily_forecast)))
                        (Z.min 95 (60 + Z.of_nat (length demands) * 2))
                        (trend_direction_of (daily_trend demands))
                        (Py.round2 seasonal_factor) daily_forecast
                        "moving_average_with_trend" 0%Q),
               set_ticks (S (Z.to_nat forecast_period) + ticks w) w)
            /\ map Daily.predicted_demand daily_forecast
               = map (fun day =>
                        Py.round2 (daily_demand (moving_average demands)
                                     (daily_trend demands) seasonal_factor
                                     current_day day))
                     (Py.range forecast_period)
      end).
Proof.
  intros demands current_day.
  assert (Hlen : length demands = Nat.min 30 (length historical)).
  { subst demands. rewrite length_map, slice_last_length by lia. reflexivity. }
  unfold generate_demand_forecast. fold demands. split; intros Hh.
  - destruct (length demands <? 7)%nat eqn:E; [reflexivity|].
    apply Nat.ltb_ge in E. lia.
  - destruct (length demands <? 7)%nat eqn:E; [apply Nat.ltb_lt in E; lia|].
    rewrite bind_utcnow. fold current_day. rewrite bind_lift.
    destruct (seasonal_factor_of fromisoformat historical demands current_day)
      as [sf|e]; [|reflexivity].
    destruct (daily_loop_run (moving_average demands) (daily_trend demands) sf
                current_day (Py.range forecast_period) [] (set_ticks (S (ticks w)) w))
      as (daily & Hrun & Hvals).
    exists daily. split; [|exact Hvals].
    rewrite (bind_ok _ _ _ _ _ Hrun). unfold mret, M_ret, ret. f_equal.
    unfold Py.range. rewrite length_map, length_seq.
    unfold set_ticks. cbn [ticks clock reorder_rules pending_orders forecast_data
                           historical_data].
    replace (Z.to_nat forecast_period + S (ticks w))%nat
      with (S (Z.to_nat forecast_period) + ticks w)%nat by lia.
    reflexivity.
Qed.



(** ** Accuracy tracking *)


End forecasting_facts.



(** ** The properties on the sample data *)

(** C3, counterexample.  Two observations posted for 2024-12-10, with
    demands 5 and 9, are both accepted and both stay in the series, the
    older one first: the day has two records and the first write was not
    replaced. *)
Lemma duplicate_day_counterexample :
  fst (add_historical_data parse_date (sample_request "2024-12-10" 5) empty_world)
  = HistoricalAdded 1
  /\ fst (add_historical_data parse_date (sample_request "2024-12-10" 9) one_day_world)
     = HistoricalAdded 2
  /\ map (fun r => (Historical.date r, Historical.demand r))
         (series_of two_writes_world "sku-1")
     = [("2024-12-10"%string, 5%Q); ("2024-12-10"%string, 9%Q)]
  /\ ~ spec_one_record_per_day (series_of two_writes_world "sku-1").
Proof.
  split; [vm_compute; reflexivity|]. split; [vm_compute; reflexivity|].
  split; [vm_compute; reflexivity|].
  unfold spec_one_record_per_day.
  assert (Hdates : map Historical.date (series_of two_writes_world "sku-1")
                   = ["2024-12-10"; "2024-12-10"]%string) by (vm_compute; reflexivity).
  rewrite Hdates. intros Hnodup. apply NoDup_cons in Hnodup as [Hnotin _].
  apply Hnotin. left.
Qed.

Lemma add_historical_data_series_witness :
  StronglySorted date_le (series_of two_writes_world "sku-1")
  /\ length (series_of two_writes_world "sku-1") = 2%nat.
Proof.
  assert (Hrun : add_historical_data parse_date (sample_request "2024-12-10" 9)
                   one_day_world
                 = (HistoricalAdded 2, two_writes_world)).
  { apply injective_projections; [vm_compute; reflexivity|reflexivity]. }
  destruct (add_historical_data_series parse_date _ _ _ _ Hrun)
    as (Hsorted & _ & _ & _ & Hlength & _).
  split; [exact Hsorted|]. symmetry. exact Hlength.
Defined.





(** The three classes on stores of twelve and of seven reconciled
    forecasts. *)
Example accuracy_trend_examples :
  calculate_accuracy_trend
    (reconciled_store [50; 60; 70; 60; 60; 60; 60; 70; 70; 70; 70; 70]%Q)
  = Py.Ok "improving"%string
  /\ calculate_accuracy_trend
       (reconciled_store [50; 60; 90; 90; 90; 90; 90; 70; 70; 70; 70; 70]%Q)
     = Py.Ok "declining"%string
  /\ calculate_accuracy_trend (reconciled_store [72; 74; 70; 70; 72; 75; 75]%Q)
     = Py.Ok "stable"%string.
Proof. repeat split; vm_compute; reflexivity. Qed.


(* ===================================================================== *)
(** * Further properties of the forecasting code                          *)
(* ===================================================================== *)

(** X1.  When [POST /historical] fails, it fails on a date that does not
    compare with the cutoff (a [ValueError] from the parser, or a
    [TypeError] for a date with a UTC offset), and the record just
    posted stays appended to the series, which is neither filtered nor
    sorted. *)
Theorem add_historical_data_failure_keeps_record
    (fromisoformat : string -> option Py.parsed)
    (data : Historical.request) (w w' : world) (e : Py.exn) :
  add_historical_data fromisoformat data w = (HistoricalError e, w') ->
  let product_id := Historical.req_product_id data in
  let historical_record :=
    Historical.mk (Historical.req_date data) (Historical.req_demand data)
      (default 0%Q (Historical.req_sales data))
      (default 0%Q (Historical.req_price data))
      (default false (Historical.req_promotions data))
      (default [] (Historical.req_external_factors data))
      (reading w 0) in
  series_of w' product_id = series_of w product_id ++ [historical_record]
  /\ (e = Py.ValueError \/ e = Py.TypeError).
Proof.
  intros Hrun product_id historical_record.
  rewrite add_historical_data_run in Hrun. cbv zeta in Hrun.
  fold product_id historical_record in Hrun.
  destruct (comprehension _ _) as [kept|e'] eqn:Hc; [discriminate|].
  injection Hrun as -> <-. split; [apply series_of_insert_eq|].
  clear -Hc. revert Hc. generalize (series_of w product_id ++ [historical_record]).
  intros l. induction l as [|x l IH]; cbn [comprehension]; [discriminate|].
  unfold mbind, Py.result_bind, after_cutoff at 1.
  destruct (fromisoformat (Historical.date x)) as [[t|t]|].
  - destruct (comprehension _ l) as [rest|e']; [discriminate|].
    intros [= <-]. now apply IH.
  - intros [= <-]. now right.
  - intros [= <-]. now left.
Qed.

Lemma add_historical_data_failure_witness :
  map Historical.date
      (series_of (snd (add_historical_data parse_date (sample_request "yesterday" 4)
                         one_day_world)) "sku-1")
  = ["2024-12-10"; "yesterday"]%string.
Proof.
  assert (Hrun : add_historical_data parse_date (sample_request "yesterday" 4)
                   one_day_world
                 = (HistoricalError Py.ValueError,
                    snd (add_historical_data parse_date (sample_request "yesterday" 4)
                           one_day_world))).
  { apply injective_projections; [vm_compute; reflexivity|reflexivity]. }
  destruct (add_historical_data_failure_keeps_record parse_date _ _ _ _ Hrun)
    as [Hseries _].
  cbv zeta in Hseries. cbn [Historical.req_product_id sample_request] in Hseries.
  rewrite Hseries. vm_compute. reflexivity.
Defined.

(** X2.  With exactly five stored forecasts of positive accuracy, the
    accuracy-trend query divides by [min(5, 5 - 5) = 0] and raises. *)
Theorem accuracy_trend_five_raises (store : dict string Forecast.t) :
  length (List.filter (fun f => Py.ltb 0 (Forecast.accuracy_score f))
            (dict_values store)) = 5%nat ->
  calculate_accuracy_trend store = Py.Raise Py.ZeroDivisionError.
Proof.
  intros Hlen. unfold calculate_accuracy_trend. rewrite Hlen.
  change (Z.of_nat 5 <? 2) with false. cbv iota.
  change (Z.min 5 (Z.of_nat 5)) with 5.
  change (Z.min 5 (Z.of_nat 5 - 5)) with 0.
  rewrite (truediv_ok _ (inject_Z 5)) by q_nonzero. reflexivity.
Qed.

Lemma accuracy_trend_five_raises_witness :
  calculate_accuracy_trend (reconciled_store [80; 85; 90; 95; 70]%Q)
  = Py.Raise Py.ZeroDivisionError.
Proof.
  apply accuracy_trend_five_raises. vm_compute. reflexivity.
Defined.

(** X3.  The confidence of a returned forecast is [min(95, 60 + 2 * n)]
    for the [n <= 30] records used: at least 74, at most 95, and equal
    to 95 from 18 records on. *)
Theorem forecast_confidence (fromisoformat : string -> option Py.parsed)
    (product_id : string) (historical : list Historical.t) (forecast_period : Z)
    (w w' : world) (result : ForecastResult.t) :
  generate_demand_forecast fromisoformat product_id historical forecast_period w
  = (Py.Ok result, w') ->
  let used := Z.of_nat (Nat.min 30 (length historical)) in
  ForecastResult.confidence_level result = Z.min 95 (60 + used * 2)
  /\ 7 <= used
  /\ 74 <= ForecastResult.confidence_level result <= 95
  /\ ((18 <= length historical)%nat -> ForecastResult.confidence_level result = 95).
Proof.
  intros Hrun used.
  destruct (generate_demand_forecast_run fromisoformat product_id historical
              forecast_period w) as [Hshort Hlong].
  destruct (le_lt_dec 7 (length historical)) as [Hlen|Hlen];
    [|rewrite (Hshort Hlen) in Hrun; discriminate].
  specialize (Hlong Hlen). cbv zeta in Hlong.
  destruct (seasonal_factor_of _ _ _ _) as [sf|e];
    [|rewrite Hlong in Hrun; discriminate].
  destruct Hlong as (daily & Hrun' & _). rewrite Hrun' in Hrun.
  injection Hrun as <- _. cbn [ForecastResult.confidence_level].
  rewrite length_map, slice_last_length by lia.
  change (Z.to_nat (- -30)) with 30%nat. fold used.
  subst used. lia.
Qed.

Lemma forecast_confidence_witness :
  ForecastResult.confidence_level fortnight_result = 90.
Proof.
  assert (Hrun : generate_demand_forecast parse_date "sku-1" (sample_history 15) 3
                   empty_world
                 = (Py.Ok fortnight_result,
                    snd (generate_demand_forecast parse_date "sku-1"
                           (sample_history 15) 3 empty_world))).
  { apply injective_projections; [vm_compute; reflexivity|reflexivity]. }
  destruct (forecast_confidence parse_date _ _ _ _ _ _ Hrun) as [Hc _].
  rewrite Hc. vm_compute. reflexivity.
Defined.

(* ===================================================================== *)
(** * Rule management, lookups and reporting                              *)
(* ===================================================================== *)

(** ** Dictionaries, sums and slices *)

Lemma dict_get_set_ne {K V} `{EqDecision K} (k k' : K) (v : V) (d : dict K V) :
  k' <> k -> dict_get k' (dict_set k v d) = dict_get k' d.
Proof.
  intros Hne. induction d as [|[k0 v0] d IH]; simpl.
  - now rewrite decide_False.
  - destruct (decide (k = k0)) as [->|Hk]; simpl.
    + now rewrite !decide_False.
    + destruct (decide (k' = k0)); [reflexivity|exact IH].
Qed.

Lemma dict_set_keys_present {K V} `{EqDecision K} (k : K) (v : V) (d : dict K V) :
  is_Some (dict_get k d) -> map fst (dict_set k v d) = map fst d.
Proof.
  induction d as [|[k0 v0] d IH]; simpl; intros Hk.
  - now destruct Hk.
  - destruct (decide (k = k0)) as [->|Hne]; simpl; [reflexivity|].
    f_equal. now apply IH.
Qed.

Lemma dict_set_keys_absent {K V} `{EqDecision K} (k : K) (v : V) (d : dict K V) :
  dict_get k d = None -> dict_set k v d = d ++ [(k, v)].
Proof.
  induction d as [|[k0 v0] d IH]; simpl; intros Hk; [reflexivity|].
  destruct (decide (k = k0)) as [->|Hne]; [discriminate|].
  f_equal. now apply IH.
Qed.

Lemma dict_set_Forall {K V} `{EqDecision K} (P : K * V -> Prop) (k : K) (v : V)
    (d : dict K V) :
  P (k, v) -> Forall P d -> Forall P (dict_set k v d).
Proof.
  intros Hv. induction 1 as [|[k0 v0] d Hx Hd IH]; simpl.
  - now constructor.
  - destruct (decide (k = k0)); constructor; assumption.
Qed.

Lemma dict_get_elem {K V} `{EqDecision K} (k : K) (v : V) (d : dict K V) :
  dict_get k d = Some v -> (k, v) ∈ d.
Proof.
  induction d as [|[k0 v0] d IH]; simpl; [discriminate|].
  destruct (decide (k = k0)) as [->|Hne].
  - intros [= ->]. left.
  - intros H. right. now apply IH.
Qed.

Lemma dict_get_None_keys {K V} `{EqDecision K} (k : K) (d : dict K V) :
  dict_get k d = None <-> k ∉ map fst d.
Proof.
  induction d as [|[k0 v0] d IH]; simpl.
  - split; [intros _; apply not_elem_of_nil|reflexivity].
  - rewrite not_elem_of_cons. destruct (decide (k = k0)) as [->|Hne].
    + split; [discriminate|tauto].
    + rewrite IH. tauto.
Qed.

Lemma dict_values_length {K V} (d : dict K V) : length (dict_values d) = length d.
Proof. apply length_map. Qed.

Lemma sum_from (l : list Q) (acc : Q) : (fold_left Qplus l acc == acc + Py.sum l)%Q.
Proof.
  unfold Py.sum. revert acc. induction l as [|x l IH]; intros acc; simpl.
  - lra.
  - rewrite (IH (acc + x)%Q), (IH (0 + x)%Q). lra.
Qed.

Lemma sum_cons (x : Q) (l : list Q) : (Py.sum (x :: l) == x + Py.sum l)%Q.
Proof. unfold Py.sum at 1. simpl. rewrite sum_from. lra. Qed.

Lemma sum_nonneg (l : list Q) : Forall (fun x => 0 <= x)%Q l -> (0 <= Py.sum l)%Q.
Proof.
  induction 1 as [|x l Hx Hl IH]; [discriminate|]. rewrite sum_cons. lra.
Qed.


Lemma sum_le_bound (l : list Q) (b : Q) :
  Forall (fun x => x <= b)%Q l ->
  (Py.sum l <= inject_Z (Z.of_nat (length l)) * b)%Q.
Proof.
  induction 1 as [|x l Hx Hl IH].
  - change (0 <= 0 * b)%Q. lra.
  - rewrite sum_cons. cbn [length]. rewrite Nat2Z.inj_succ.
    unfold Z.succ. rewrite inject_Z_plus. change (inject_Z 1) with 1%Q.
    rewrite Qmult_plus_distr_l, Qmult_1_l. lra.
Qed.



Lemma ltb_morph (a b c d : Q) : (a == c)%Q -> (b == d)%Q -> Py.ltb a b = Py.ltb c d.
Proof.
  intros Hac Hbd. destruct (Py.ltb c d) eqn:E.
  - apply ltb_lt in E. apply ltb_lt. lra.
  - apply ltb_ge in E. apply ltb_ge. lra.
Qed.

Lemma truediv_inject_Z (a : Q) (n : Z) :
  n <> 0 -> Py.truediv a (inject_Z n) = Py.Ok (a / inject_Z n)%Q.
Proof.
  intros Hn. apply truediv_ok. change 0%Q with (inject_Z 0).
  now rewrite inject_Z_injective.
Qed.

(* ===================================================================== *)
(** * Forecasting: further properties                                     *)
(* ===================================================================== *)

(** Whether a record's date compares with a cutoff does not depend on
    the cutoff: a comprehension that raised keeps raising, with the same
    exception, on every list that extends the one it raised on. *)
Lemma comprehension_raises_again (fromisoformat : string -> option Py.parsed)
    (cutoff : Py.datetime) (l : list Historical.t) (e : Py.exn) :
  comprehension (after_cutoff fromisoformat cutoff) l = Py.Raise e ->
  forall cutoff' l',
    comprehension (after_cutoff fromisoformat cutoff') (l ++ l') = Py.Raise e.
Proof.
  intros Hraise cutoff' l'. induction l as [|x l IH]; [discriminate|].
  cbn [comprehension app] in *.
  unfold mbind, Py.result_bind in *. unfold after_cutoff at 1 in Hraise.
  unfold after_cutoff at 1.
  destruct (fromisoformat (Historical.date x)) as [[t|t]|]; [|exact Hraise..].
  destruct (comprehension _ l) as [rest|e0]; [discriminate|].
  injection Hraise as ->. now rewrite (IH eq_refl).
Qed.

(** X4.  A product whose [POST /historical] failed stays broken: the
    rejected record is in its series, so every later post for the
    product fails with the same exception, whatever it carries, and
    appends one more record to the series. *)
Theorem add_historical_data_stays_broken
    (fromisoformat : string -> option Py.parsed)
    (data data' : Historical.request) (w w' : world) (e : Py.exn) :
  add_historical_data fromisoformat data w = (HistoricalError e, w') ->
  Historical.req_product_id data' = Historical.req_product_id data ->
  let product_id := Historical.req_product_id data in
  exists w'',
    add_historical_data fromisoformat data' w' = (HistoricalError e, w'')
    /\ length (series_of w'' product_id) = S (length (series_of w' product_id)).
Proof.
  intros Hrun Hsame product_id.
  rewrite add_historical_data_run in Hrun. cbv zeta in Hrun.
  destruct (comprehension _ _) as [kept|e0] eqn:Hc; [discriminate|].
  injection Hrun as -> <-.
  rewrite add_historical_data_run. cbv zeta. rewrite Hsame.
  rewrite series_of_insert_eq.
  rewrite (comprehension_raises_again _ _ _ _ Hc).
  eexists. split; [reflexivity|].
  fold product_id. rewrite !series_of_insert_eq, !length_app. simpl. lia.
Qed.

Lemma add_historical_data_stays_broken_witness :
  exists w'',
    add_historical_data parse_date (sample_request "2024-12-11" 7)
      (snd (add_historical_data parse_date (sample_request "yesterday" 4) one_day_world))
    = (HistoricalError Py.ValueError, w'')
    /\ length (series_of w'' "sku-1") = 3%nat.
Proof.
  assert (Hrun : add_historical_data parse_date (sample_request "yesterday" 4)
                   one_day_world
                 = (HistoricalError Py.ValueError,
                    snd (add_historical_data parse_date (sample_request "yesterday" 4)
                           one_day_world))).
  { apply injective_projections; [vm_compute; reflexivity|reflexivity]. }
  destruct (add_historical_data_stays_broken parse_date _
              (sample_request "2024-12-11" 7) _ _ _ Hrun eq_refl)
    as (w'' & Hagain & Hlen).
  exists w''. split; [exact Hagain|].
  cbn [sample_request Historical.req_product_id] in Hlen. rewrite Hlen.
  vm_compute. reflexivity.
Defined.



(** ** Reporting *)

Ltac run_store :=
  unfold mbind, mret, SM_bind, SM_ret, get_store, modify_store, lift_store,
    in_world; cbn [fst snd].

(** A comprehension over the clock never raises: it reads the clock once
    per element and keeps some of the elements. *)
Lemma comprehension_now_run {A} (keep : A -> Py.datetime -> bool) (l : list A) :
  forall w : world,
    exists kept,
      comprehension_now keep l w = (Py.Ok kept, set_ticks (length l + ticks w) w)
      /\ (length kept <= length l)%nat.
Proof.
  induction l as [|x l IH]; intros w.
  - exists []. split; [|reflexivity]. cbn. destruct w; reflexivity.
  - cbn [comprehension_now]. rewrite bind_utcnow.
    destruct (IH (set_ticks (S (ticks w)) w)) as (rest & Hrun & Hlen).
    rewrite (bind_ok _ _ _ _ _ Hrun).
    exists (if keep x (reading w 0) then x :: rest else rest). split.
    + unfold mret, M_ret, ret. f_equal. unfold set_ticks.
      cbn [ticks clock reorder_rules pending_orders forecast_data historical_data length].
      replace (length l + S (ticks w))%nat with (S (length l + ticks w)) by lia.
      reflexivity.
    + destruct (keep x (reading w 0)); cbn [length]; lia.
Qed.



(** ** [max] with a key *)

(** The scan of [max]: the result is the first element that no later
    element exceeds and that exceeds every earlier one. *)
Lemma max_key_scan {A} (less : A -> A -> bool) :
  (forall a b c, less a b = true -> less b c = true -> less a c = true) ->
  (forall a b c, less a b = false -> less a c = true -> less b c = true) ->
  forall (l before after : list A) (maxval : A),
    Forall (fun y => less y maxval = true) before ->
    Forall (fun y => less maxval y = false) after ->
    exists before' after',
      before ++ maxval :: after ++ l
      = before'
        ++ fold_left (fun maxval item => if less maxval item then item else maxval)
                     l maxval
        :: after'
      /\ Forall (fun y => less y (fold_left (fun maxval item =>
                                   if less maxval item then item else maxval)
                                 l maxval) = true) before'
      /\ Forall (fun y => less (fold_left (fun maxval item =>
                                  if less maxval item then item else maxval)
                                l maxval) y = false) after'.
Proof.
  intros Htrans Hcross. induction l as [|item l IH]; intros before after maxval Hb Ha.
  - exists before, after. cbn [fold_left]. rewrite app_nil_r. auto.
  - cbn [fold_left]. destruct (less maxval item) eqn:Hlt.
    + destruct (IH (before ++ maxval :: after) [] item) as (b' & a' & Heq & Hb' & Ha').
      * rewrite Forall_app, Forall_cons. split; [|split; [assumption|]].
        -- eapply Forall_impl; [exact Hb|]. intros y Hy. exact (Htrans _ _ _ Hy Hlt).
        -- eapply Forall_impl; [exact Ha|]. intros y Hy. exact (Hcross _ _ _ Hy Hlt).
      * constructor.
      * exists b', a'. split; [|auto]. rewrite <- Heq.
        rewrite <- !app_assoc. reflexivity.
    + destruct (IH before (after ++ [item]) maxval) as (b' & a' & Heq & Hb' & Ha').
      * assumption.
      * rewrite Forall_app, Forall_singleton. auto.
      * exists b', a'. split; [|auto]. rewrite <- Heq.
        rewrite <- !app_assoc. reflexivity.
Qed.

Lemma max_key_first {A} (less : A -> A -> bool) (l : list A) :
  (forall a b c, less a b = true -> less b c = true -> less a c = true) ->
  (forall a b c, less a b = false -> less a c = true -> less b c = true) ->
  l <> [] ->
  exists before best after,
    Py.max_key less l = Some best
    /\ l = before ++ best :: after
    /\ Forall (fun y => less y best = true) before
    /\ Forall (fun y => less best y = false) after.
Proof.
  intros Htrans Hcross Hne. destruct l as [|x l]; [congruence|].
  destruct (max_key_scan less Htrans Hcross l [] [] x) as (b & a & Heq & Hb & Ha);
    [constructor..|].
  eexists b, _, a. split; [reflexivity|]. split; [exact Heq|]. auto.
Qed.

(** ** The most accurate model *)

Lemma dict_set_NoDup {K V} `{EqDecision K} (k : K) (v : V) (d : dict K V) :
  NoDup (map fst d) -> NoDup (map fst (dict_set k v d)).
Proof.
  intros Hd. destruct (dict_get k d) as [v0|] eqn:Hk.
  - now rewrite dict_set_keys_present by eauto.
  - rewrite dict_set_keys_absent by assumption.
    rewrite map_app. cbn [map fst]. apply NoDup_app. split; [assumption|].
    split; [|apply NoDup_singleton].
    intros k' Hk' Heq. apply list_elem_of_singleton in Heq as ->.
    now apply dict_get_None_keys in Hk.
Qed.

Lemma dict_elem_get {K V} `{EqDecision K} (k : K) (v : V) (d : dict K V) :
  NoDup (map fst d) -> (k, v) ∈ d -> dict_get k d = Some v.
Proof.
  induction d as [|[k0 v0] d IH]; cbn [map fst dict_get]; intros Hd Hin.
  - now apply elem_of_nil in Hin.
  - apply NoDup_cons in Hd as [Hk0 Hd].
    apply elem_of_cons in Hin as [[= -> ->]|Hin].
    + now rewrite decide_True.
    + destruct (decide (k = k0)) as [->|Hne]; [|now apply IH].
      exfalso. apply Hk0. apply list_elem_of_fmap. now exists (k0, v).
Qed.

Lemma group_by_model_get (forecasts : list Forecast.t) (model : string) :
  forall model_accuracy : dict string (list Q),
    dict_get model (group_by_model forecasts model_accuracy)
    = match dict_get model model_accuracy with
      | Some old => Some (old ++ model_scores forecasts model)
      | None =>
          match model_scores forecasts model with
          | [] => None
          | new => Some new
          end
      end.
Proof.
  induction forecasts as [|f forecasts IH]; intros acc.
  - cbn. destruct (dict_get model acc); [|reflexivity]. now rewrite app_nil_r.
  - cbn [group_by_model].
    assert (Hs : model_scores (f :: forecasts) model
                 = if Py.ltb 0 (Forecast.accuracy_score f)
                      && String.eqb (Forecast.model_used f) model
                   then Forecast.accuracy_score f :: model_scores forecasts model
                   else model_scores forecasts model).
    { unfold model_scores. cbn [List.filter]. now destruct (_ && _). }
    rewrite Hs. clear Hs.
    destruct (Py.ltb 0 (Forecast.accuracy_score f)) eqn:Hpos; cbn [andb]; [|apply IH].
    rewrite IH. destruct (String.eqb_spec (Forecast.model_used f) model) as [->|Hne].
    + rewrite dict_get_set_eq.
      destruct (dict_get model acc); cbn [default app]; [|reflexivity].
      now rewrite <- app_assoc.
    + now rewrite dict_get_set_ne by congruence.
Qed.

Lemma group_by_model_NoDup (forecasts : list Forecast.t) :
  forall model_accuracy : dict string (list Q),
    NoDup (map fst model_accuracy) ->
    NoDup (map fst (group_by_model forecasts model_accuracy)).
Proof.
  induction forecasts as [|f forecasts IH]; intros acc Hacc; cbn [group_by_model];
    [assumption|].
  destruct (Py.ltb 0 (Forecast.accuracy_score f)); [|now apply IH].
  apply IH. now apply dict_set_NoDup.
Qed.

Lemma group_by_model_nonempty (forecasts : list Forecast.t) :
  forall model_accuracy : dict string (list Q),
    Forall (fun kv => kv.2 <> []) model_accuracy ->
    Forall (fun kv => kv.2 <> []) (group_by_model forecasts model_accuracy).
Proof.
  induction forecasts as [|f forecasts IH]; intros acc Hacc; cbn [group_by_model];
    [assumption|].
  destruct (Py.ltb 0 (Forecast.accuracy_score f)); [|now apply IH].
  apply IH. apply dict_set_Forall; [|assumption].
  cbn. now destruct (default [] _).
Qed.

Lemma average_by_model_run (items : dict string (list Q)) :
  forall avg_accuracy : dict string Q,
    Forall (fun kv => kv.2 <> []) items ->
    NoDup (map fst items) ->
    (forall k, k ∈ map fst items -> k ∉ map fst avg_accuracy) ->
    average_by_model items avg_accuracy
    = Py.Ok (avg_accuracy ++ map (fun kv => (kv.1, mean kv.2)) items).
Proof.
  induction items as [|[model scores] items IH]; intros acc Hne Hnd Hfresh;
    cbn [average_by_model map].
  - now rewrite app_nil_r.
  - apply Forall_cons in Hne as [Hscores Hne]. cbn [snd] in Hscores.
    cbn [map fst] in Hnd, Hfresh.
    apply NoDup_cons in Hnd as [Hmodel Hnd].
    rewrite truediv_inject_Z by (destruct scores; [congruence|cbn; lia]).
    cbn [mbind Py.result_bind].
    rewrite dict_set_keys_absent
      by (apply dict_get_None_keys, Hfresh; left).
    rewrite IH; [|assumption..|].
    + rewrite <- app_assoc. reflexivity.
    + intros k Hk. rewrite map_app, not_elem_of_app. split.
      * apply Hfresh. now right.
      * cbn. rewrite list_elem_of_singleton. intros ->. contradiction.
Qed.

Lemma model_scores_reconciled (forecasts : list Forecast.t) (model : string) :
  List.filter (fun f => Py.ltb 0 (Forecast.accuracy_score f)) forecasts = [] ->
  model_scores forecasts model = [].
Proof.
  unfold model_scores. induction forecasts as [|f forecasts IH]; [reflexivity|].
  cbn [List.filter]. destruct (Py.ltb 0 (Forecast.accuracy_score f)); [discriminate|].
  exact IH.
Qed.

Lemma model_scores_own (forecasts : list Forecast.t) (f : Forecast.t) :
  f ∈ List.filter (fun f => Py.ltb 0 (Forecast.accuracy_score f)) forecasts ->
  model_scores forecasts (Forecast.model_used f) <> [].
Proof.
  intros Hf. apply list_elem_of_In, filter_In in Hf as [Hin Hpos].
  assert (Forecast.accuracy_score f
          ∈ model_scores forecasts (Forecast.model_used f)) as Hscore.
  { unfold model_scores. apply list_elem_of_fmap. exists f. split; [reflexivity|].
    apply list_elem_of_In, filter_In. split; [assumption|].
    now rewrite Hpos, String.eqb_refl. }
  intros Hnil. rewrite Hnil in Hscore. now apply elem_of_nil in Hscore.
Qed.

Lemma ltb_trans (a b c : Q) : Py.ltb a b = true -> Py.ltb b c = true -> Py.ltb a c = true.
Proof. rewrite !ltb_lt. lra. Qed.

Lemma ltb_cross (a b c : Q) : Py.ltb a b = false -> Py.ltb a c = true -> Py.ltb b c = true.
Proof. rewrite ltb_ge, !ltb_lt. lra. Qed.

(** The second half of [get_most_accurate_model], on the scores grouped
    by model. *)
Lemma best_of_groups (groups : dict string (list Q)) :
  groups <> [] ->
  NoDup (map fst groups) ->
  Forall (fun kv => kv.2 <> []) groups ->
  exists before best after,
    match groups with
    | [] => Py.Ok "no_data"%string
    | _ =>
        avg_accuracy ← average_by_model groups [];
        match Py.max_key (fun a b => Py.ltb a.2 b.2) avg_accuracy with
        | Some best => Py.Ok best.1
        | None => Py.Raise Py.ValueError
        end
    end = Py.Ok best.1
    /\ map (fun kv => (kv.1, mean kv.2)) groups = before ++ best :: after
    /\ Forall (fun y => (y.2 < best.2)%Q) before
    /\ Forall (fun y => (y.2 <= best.2)%Q) after.
Proof.
  intros Hne Hnd Hall.
  destruct (max_key_first (fun a b : string * Q => Py.ltb a.2 b.2)
              (map (fun kv : string * list Q => (kv.1, mean kv.2)) groups))
    as (before & best & after & Hmax & Heq & Hb & Ha).
  - intros a b c. apply ltb_trans.
  - intros a b c. apply ltb_cross.
  - destruct groups; [congruence|discriminate].
  - exists before, best, after.
    split; [|split; [exact Heq|split]].
    + destruct groups as [|kv groups']; [congruence|].
      rewrite average_by_model_run; [|assumption..|intros k _; apply not_elem_of_nil].
      cbn [mbind Py.result_bind app]. now rewrite Hmax.
    + eapply Forall_impl; [exact Hb|]. intros y Hy. now apply ltb_lt in Hy.
    + eapply Forall_impl; [exact Ha|]. intros y Hy. now apply ltb_ge in Hy.
Qed.


(** X6.  [get_most_accurate_model] never raises.  It answers [no_data]
    when no stored forecast has a positive accuracy score; otherwise it
    answers a model that has such forecasts and whose mean accuracy over
    them is the highest among the models that have some. *)
Theorem most_accurate_model_is_best (store : dict string Forecast.t) :
  let forecasts := dict_values store in
  exists model,
    get_most_accurate_model store = Py.Ok model
    /\ (reconciled store = [] -> model = "no_data"%string)
    /\ (reconciled store <> [] ->
        model_scores forecasts model <> []
        /\ forall other,
             model_scores forecasts other <> [] ->
             (mean (model_scores forecasts other)
              <= mean (model_scores forecasts model))%Q).
Proof.
  intros forecasts. unfold get_most_accurate_model, reconciled. fold forecasts.
  set (groups := group_by_model forecasts []).
  assert (Hget : forall m,
            dict_get m groups
            = match model_scores forecasts m with [] => None | new => Some new end).
  { intros m. subst groups. now rewrite group_by_model_get. }
  assert (Hnd : NoDup (map fst groups))
    by (apply group_by_model_NoDup; constructor).
  assert (Hne : Forall (fun kv => kv.2 <> []) groups)
    by (apply group_by_model_nonempty; constructor).
  assert (Hin : forall k g, (k, g) ∈ groups -> model_scores forecasts k = g /\ g <> []).
  { intros k g Hkg. pose proof (dict_elem_get _ _ _ Hnd Hkg) as Hk.
    rewrite Hget in Hk. destruct (model_scores forecasts k); [discriminate|].
    injection Hk as <-. split; [reflexivity|discriminate]. }
  assert (Hout : forall m, model_scores forecasts m <> [] ->
                   (m, model_scores forecasts m) ∈ groups).
  { intros m Hm. apply dict_get_elem. rewrite Hget.
    now destruct (model_scores forecasts m). }
  clearbody groups.
  destruct (decide (groups = [])) as [->|Hgroups].
  - exists "no_data"%string. split; [reflexivity|]. split; [reflexivity|].
    intros Hrec. exfalso.
    destruct (List.filter _ forecasts) as [|f rest] eqn:Hf; [congruence|].
    assert (Hown : f ∈ List.filter (fun f => Py.ltb 0 (Forecast.accuracy_score f))
                         forecasts) by (rewrite Hf; left).
    apply model_scores_own, Hout in Hown. now apply elem_of_nil in Hown.
  - destruct (best_of_groups groups Hgroups Hnd Hne)
      as (before & [model average] & after & Hrun & Heq & Hb & Ha).
    exists model. split; [exact Hrun|].
    assert (Hbest : (model, average) ∈ map (fun kv : string * list Q =>
                                              (kv.1, mean kv.2)) groups).
    { rewrite Heq. apply elem_of_app. right. left. }
    apply list_elem_of_fmap in Hbest as ([k g] & [= -> ->] & Hkg).
    destruct (Hin _ _ Hkg) as [Hscores Hg]. cbn [fst snd] in *.
    split.
    { intros Hrec. exfalso. rewrite (model_scores_reconciled _ k Hrec) in Hscores.
      congruence. }
    intros _. rewrite Hscores. split; [exact Hg|].
    intros other Hother.
    assert (Hmem : (other, mean (model_scores forecasts other))
                   ∈ map (fun kv : string * list Q => (kv.1, mean kv.2)) groups).
    { apply list_elem_of_fmap. exists (other, model_scores forecasts other).
      split; [reflexivity|]. now apply Hout. }
    rewrite Heq in Hmem. apply elem_of_app in Hmem as [Hmem|Hmem].
    + rewrite Forall_forall in Hb. specialize (Hb _ Hmem). cbn in Hb. lra.
    + apply elem_of_cons in Hmem as [Hmem|Hmem].
      * apply (f_equal snd) in Hmem. cbn [snd] in Hmem. rewrite Hmem.
        apply Qle_refl.
      * rewrite Forall_forall in Ha. specialize (Ha _ Hmem). exact Ha.
Qed.

(** ** The forecasting analytics *)




(* ===================================================================== *)
(** * Reordering: rule management and manual triggers                     *)
(* ===================================================================== *)

(** Order creation in one equation: the order is stored under the first
    clock reading; an order that needs no approval is stored as sent. *)
Lemma create_reorder_run (rule : Rule.t) (quantity : Q) (trigger_reason : string)
    (w : world) :
  let initial :=
    new_order rule quantity trigger_reason (reading w 0) (reading w 1) (reading w 2) in
  let sent :=
    Order.set_sent_date (reading w 3)
      (Order.set_status Order.sent_to_supplier initial) in
  create_reorder rule quantity trigger_reason w
  = if requires_approval rule quantity
    then (Py.Ok initial,
          set_pending_orders (<[reading w 0 := initial]> (pending_orders w))
            (set_ticks (3 + ticks w) w))
    else (Py.Ok sent,
          set_pending_orders (<[reading w 0 := sent]> (pending_orders w))
            (set_ticks (4 + ticks w) w)).
Proof.
  intros initial sent.
  unfold create_reorder, send_order_to_supplier, write_order. run_monad.
  fold initial. destruct (requires_approval rule quantity); cbn.
  - reflexivity.
  - unfold set_pending_orders, set_ticks. cbn. rewrite insert_insert_eq. reflexivity.
Qed.



(** X9.  [PUT /rules/<rule_id>] answers "not found" for an unknown id
    and changes nothing.  For a stored rule it overwrites the updatable
    fields that the body carries and stamps the rule: the identity of
    the rule, its product, its creation date and its trigger history
    cannot be changed, a unit cost cannot be given, the rule keeps its
    place among the rules, and the other rules, their stamps and the
    orders are untouched.  A body without updatable fields changes the
    stamp only. *)
Theorem update_reorder_rule_frame (rule_id : string) (data : RuleUpdate.t)
    (s : store) :
  match dict_get rule_id (reorder_rules (core s)) with
  | None => update_reorder_rule rule_id data s = (RuleNotFound, s)
  | Some rule =>
      let updated := RuleUpdate.assign data rule in
      let now := reading (core s) 0 in
      exists s',
        update_reorder_rule rule_id data s = (RuleUpdated updated now, s')
        /\ get_rule rule_id s' = Found (updated, Some now)
        /\ (forall other, other <> rule_id -> get_rule other s' = get_rule other s)
        /\ map fst (reorder_rules (core s')) = map fst (reorder_rules (core s))
        /\ pending_orders (core s') = pending_orders (core s)
        /\ Rule.rule_id updated = Rule.rule_id rule
        /\ Rule.product_id updated = Rule.product_id rule
        /\ Rule.product_name updated = Rule.product_name rule
        /\ Rule.unit_cost updated = Rule.unit_cost rule
        /\ Rule.created_date updated = Rule.created_date rule
        /\ Rule.last_triggered updated = Rule.last_triggered rule
        /\ Rule.total_triggers updated = Rule.total_triggers rule
        /\ (data = RuleUpdate.mk None None None None None None None None None None None
            -> updated = rule)
  end.
Proof.
  unfold update_reorder_rule, try_except_store. run_store.
  destruct (dict_get rule_id (reorder_rules (core s))) as [rule|] eqn:Hget;
    [|reflexivity].
  cbn. eexists. split; [reflexivity|].
  unfold get_rule. cbn.
  split; [now rewrite dict_get_set_eq, lookup_insert_eq|].
  split.
  { intros other Hne. rewrite dict_get_set_ne by assumption.
    now rewrite lookup_insert_ne by congruence. }
  split; [apply dict_set_keys_present; eauto|].
  do 8 (split; [reflexivity|]).
  intros ->. now destruct rule.
Qed.

(** X10.  [POST /rules] always stores a rule and answers with it.  The
    rule is active, was never triggered, has no unit cost, and carries
    the body's fields with the defaults of the code (approval threshold
    1000, lead time 7 days, no approval, no seasonal adjustment).  Its id
    is printed from the clock reading: a rule already stored under that
    id is replaced in place, stamp included; otherwise the rule goes to
    the end of the rules.  The other rules are untouched. *)
Theorem create_reorder_rule_stored (format_timestamp : Py.datetime -> string)
    (data : RuleData.t) (s : store) :
  let rule_id := ("rule_" +:+ format_timestamp (reading (core s) 0))%string in
  exists rule s',
    create_reorder_rule format_timestamp data s = (RuleCreated rule, s')
    /\ Rule.rule_id rule = rule_id
    /\ Rule.product_id rule = RuleData.product_id data
    /\ Rule.trigger_type rule = RuleData.trigger_type data
    /\ Rule.reorder_quantity rule = RuleData.reorder_quantity data
    /\ Rule.status rule = "active"%string
    /\ Rule.total_triggers rule = 0
    /\ Rule.last_triggered rule = None
    /\ Rule.unit_cost rule = None
    /\ Rule.approval_required rule
       = Some (default false (RuleData.approval_required data))
    /\ Rule.approval_threshold rule
       = Some (default 1000%Q (RuleData.approval_threshold data))
    /\ Rule.lead_time_days rule = Some (default 7 (RuleData.lead_time_days data))
    /\ Rule.seasonal_adjustment rule
       = Some (default false (RuleData.seasonal_adjustment data))
    /\ Rule.created_date rule = reading (core s) 1
    /\ get_rule rule_id s' = Found (rule, None)
    /\ (forall other, other <> rule_id -> get_rule other s' = get_rule other s)
    /\ (dict_get rule_id (reorder_rules (core s)) = None ->
        reorder_rules (core s') = reorder_rules (core s) ++ [(rule_id, rule)])
    /\ (is_Some (dict_get rule_id (reorder_rules (core s))) ->
        map fst (reorder_rules (core s')) = map fst (reorder_rules (core s)))
    /\ pending_orders (core s') = pending_orders (core s).
Proof.
  intros rule_id.
  unfold create_reorder_rule, try_except_store. run_store. cbn. fold rule_id.
  eexists _, _. split; [reflexivity|].
  do 13 (split; [reflexivity|]).
  unfold get_rule. cbn.
  split; [now rewrite dict_get_set_eq, lookup_delete_eq|].
  split.
  { intros other Hne. rewrite dict_get_set_ne by assumption.
    now rewrite lookup_delete_ne by congruence. }
  split; [apply dict_set_keys_absent|].
  split; [apply dict_set_keys_present|reflexivity].
Qed.

(* ===================================================================== *)
(** * The reachable states                                                *)
(* ===================================================================== *)

(** ** Rules and orders *)

Lemma order_ok_new (rule : Rule.t) (quantity : Q) (reason : string)
    (t0 t1 t2 : Py.datetime) :
  Rule.unit_cost rule = None ->
  order_ok t0 (new_order rule quantity reason t0 t1 t2).
Proof.
  intros Hcost. split; [reflexivity|].
  cbn. unfold estimated_cost. rewrite Hcost. cbn [default]. ring.
Qed.

(** What one loop iteration of the trigger evaluation does to the
    world. *)
Lemma check_rule_effect (format_num : Q -> string)
    (inventory_data : gmap string Inventory.t) (i : nat) (rule : Rule.t)
    (w : world) :
  exists fired w',
    check_rule format_num inventory_data i rule w = (Py.Ok fired, w')
    /\ forecast_data w' = forecast_data w
    /\ historical_data w' = historical_data w
    /\ match fired with
       | None =>
           reorder_rules w' = reorder_rules w
           /\ pending_orders w' = pending_orders w
       | Some order =>
           (exists now,
              reorder_rules w'
              = alter (fun kv => (kv.1, Rule.stamp now kv.2)) i (reorder_rules w))
           /\ pending_orders w' = <[Order.order_id order := order]> (pending_orders w)
           /\ Order.estimated_cost order = estimated_cost rule (Order.quantity order)
       end.
Proof.
  unfold check_rule, trigger_condition, seasonal_quantity, stamp_rule.
  run_monad.
  repeat case_match; run_monad; simplify_eq; cbn;
    try (eexists None, _; split; [reflexivity|]; cbn; done).
  all: match goal with
       | H : create_reorder _ _ _ _ = _ |- _ =>
           rewrite create_reorder_run in H; cbv zeta in H;
           destruct (requires_approval _ _); simplify_eq
       end.
  all: eexists (Some _), _; (split; [reflexivity|]); cbn;
    (split; [reflexivity|]); (split; [reflexivity|]);
    (split; [eexists; reflexivity|]); split; reflexivity.
Qed.

Lemma stamp_rule_ok (now : Py.datetime) (kv : string * Rule.t) :
  rule_ok kv -> rule_ok (kv.1, Rule.stamp now kv.2).
Proof. intros [Hid Hcost]. split; assumption. Qed.

(** The loop of the trigger evaluation keeps the rules and the orders
    well-formed and does not touch the forecasting state. *)
Lemma check_rules_ok (format_num : Q -> string)
    (inventory_data : gmap string Inventory.t) (rules : list Rule.t) :
  forall (i : nat) (acc : list Order.t) (w : world),
    Forall (fun rule => Rule.unit_cost rule = None) rules ->
    Forall rule_ok (reorder_rules w) ->
    map_Forall order_ok (pending_orders w) ->
    exists orders w',
      check_rules format_num inventory_data i rules acc w = (Py.Ok orders, w')
      /\ Forall rule_ok (reorder_rules w')
      /\ map_Forall order_ok (pending_orders w')
      /\ forecast_data w' = forecast_data w
      /\ historical_data w' = historical_data w.
Proof.
  induction rules as [|rule rules IH]; intros i acc w Hcost Hrules Horders.
  - exists acc, w. done.
  - apply Forall_cons in Hcost as [Hrule Hcost]. cbn [check_rules].
    destruct (check_rule_effect format_num inventory_data i rule w)
      as (fired & w1 & Hrun & Hf & Hh & Heffect).
    rewrite (bind_ok _ _ _ _ _ Hrun).
    destruct (IH (S i) (acc ++ option_list fired) w1 Hcost)
      as (orders & w' & Hloop & Hrules' & Horders' & Hf' & Hh').
    + destruct fired as [order|].
      * destruct Heffect as ((now & ->) & _). apply Forall_alter; [assumption|].
        intros kv _. apply stamp_rule_ok.
      * destruct Heffect as [-> _]. assumption.
    + destruct fired as [order|].
      * destruct Heffect as (_ & -> & Hc). apply map_Forall_insert_2; [|assumption].
        split; [reflexivity|]. rewrite Hc. unfold estimated_cost.
        rewrite Hrule. cbn [default]. ring.
      * destruct Heffect as [_ ->]. assumption.
    + exists orders, w'. rewrite Hloop. split; [reflexivity|].
      split; [assumption|]. split; [assumption|]. split; congruence.
Qed.

Lemma check_reorder_triggers_ok (format_num : Q -> string)
    (inventory_data : gmap string Inventory.t) (w : world) :
  Forall rule_ok (reorder_rules w) ->
  map_Forall order_ok (pending_orders w) ->
  let w' := (check_reorder_triggers format_num inventory_data w).2 in
  Forall rule_ok (reorder_rules w')
  /\ map_Forall order_ok (pending_orders w')
  /\ forecast_data w' = forecast_data w
  /\ historical_data w' = historical_data w.
Proof.
  intros Hrules Horders.
  destruct (check_rules_ok format_num inventory_data (dict_values (reorder_rules w))
              0 [] w) as (orders & w' & Hrun & Hinv); [|assumption..|].
  { apply Forall_map. eapply Forall_impl; [exact Hrules|]. now intros kv [_ Hc]. }
  unfold check_reorder_triggers, try_except. run_monad. rewrite Hrun. exact Hinv.
Qed.

Lemma trigger_reorder_ok (product_id : string) (quantity : Q) (w : world) :
  Forall rule_ok (reorder_rules w) ->
  map_Forall order_ok (pending_orders w) ->
  let w' := (trigger_reorder product_id quantity w).2 in
  reorder_rules w' = reorder_rules w
  /\ map_Forall order_ok (pending_orders w')
  /\ forecast_data w' = forecast_data w
  /\ historical_data w' = historical_data w.
Proof.
  intros Hrules Horders.
  unfold trigger_reorder, try_except, applicable_rule. run_monad.
  destruct (find _ _) as [rule|] eqn:Hfind; [|done].
  apply find_some in Hfind as [Hin _].
  assert (Hcost : Rule.unit_cost rule = None).
  { apply in_map_iff in Hin as (kv & <- & Hkv).
    rewrite Forall_forall in Hrules. apply list_elem_of_In in Hkv.
    now destruct (Hrules _ Hkv). }
  rewrite create_reorder_run. cbv zeta.
  destruct (requires_approval rule quantity); cbn;
    (split; [reflexivity|]); (split; [|split; reflexivity]);
    (apply map_Forall_insert_2; [|assumption]);
    (split; [reflexivity|]); cbn; unfold estimated_cost; rewrite Hcost;
    cbn [default]; ring.
Qed.

Lemma approve_order_ok (order_id : Z) (data : approve_request) (w : world) :
  map_Forall order_ok (pending_orders w) ->
  let w' := (approve_order order_id data w).2 in
  reorder_rules w' = reorder_rules w
  /\ map_Forall order_ok (pending_orders w')
  /\ forecast_data w' = forecast_data w
  /\ historical_data w' = historical_data w.
Proof.
  intros Horders.
  unfold approve_order, try_except, send_order_to_supplier, write_order. run_monad.
  destruct (pending_orders w !! order_id) as [order|] eqn:Hget; [|done].
  destruct (Horders _ _ Hget) as [Hid Hcost].
  case_bool_decide; [done|]. cbn.
  split; [reflexivity|]. split; [|split; reflexivity].
  repeat apply map_Forall_insert_2; try assumption; split; assumption.
Qed.

Lemma reject_order_ok (order_id : Z) (data : reject_request) (w : world) :
  map_Forall order_ok (pending_orders w) ->
  let w' := (reject_order order_id data w).2 in
  reorder_rules w' = reorder_rules w
  /\ map_Forall order_ok (pending_orders w')
  /\ forecast_data w' = forecast_data w
  /\ historical_data w' = historical_data w.
Proof.
  intros Horders.
  unfold reject_order, try_except, write_order. run_monad.
  destruct (pending_orders w !! order_id) as [order|] eqn:Hget; [|done].
  destruct (Horders _ _ Hget) as [Hid Hcost].
  case_bool_decide; [done|]. cbn.
  split; [reflexivity|]. split; [|split; reflexivity].
  repeat apply map_Forall_insert_2; try assumption; split; assumption.
Qed.

(** ** Forecasts *)

Lemma round_le_integer (y : Q) (n : Z) : (y <= inject_Z n)%Q -> Py.round y <= n.
Proof.
  intros Hy. destruct (round_close y) as [Hlo _].
  destruct (Z_le_gt_dec (Py.round y) n) as [Hle|Hgt]; [exact Hle|exfalso].
  assert (H : (inject_Z (n + 1) <= inject_Z (Py.round y))%Q)
    by (rewrite <- Zle_Qle; lia).
  rewrite inject_Z_plus in H. change (inject_Z 1) with 1%Q in H. lra.
Qed.

Lemma round2_le (x : Q) (n : Z) : (x <= inject_Z n)%Q -> (Py.round2 x <= inject_Z n)%Q.
Proof.
  intros Hx. unfold Py.round2.
  assert (H : Py.round (x * 100) <= n * 100).
  { apply round_le_integer. rewrite inject_Z_mult.
    change (inject_Z 100) with 100%Q. lra. }
  unfold Qle. cbn. lia.
Qed.

Lemma percentage_error_nonneg (predicted actual : Q) :
  (0 <= Qabs (predicted - actual) / Py.max actual 1 * 100)%Q.
Proof.
  pose proof (Qabs_nonneg (predicted - actual)) as Herr.
  pose proof (max_ge_r actual 1) as Hmax.
  assert (0 <= Qabs (predicted - actual) / Py.max actual 1)%Q; [|lra].
  apply Qle_shift_div_l; lra.
Qed.

(** The accuracy that reconciliation stores is a percentage. *)
Lemma stored_accuracy_range (predicted actual : Q) :
  let percentage_error := (Qabs (predicted - actual) / Py.max actual 1 * 100)%Q in
  (0 <= Py.round2 (Py.max 0 (100 - percentage_error)) <= 100)%Q.
Proof.
  intros pe. pose proof (percentage_error_nonneg predicted actual) as Hpe.
  fold pe in Hpe. split.
  - apply round2_nonneg, max_ge_l.
  - apply (round2_le _ 100). unfold Py.max.
    destruct (Py.ltb 0 (100 - pe)); [|discriminate].
    change (inject_Z 100) with 100%Q. lra.
Qed.

(** [POST /forecasts] once the series is long enough: the engine runs,
    and its result, if any, is stored. *)
Lemma create_forecast_step (fromisoformat : string -> option Py.parsed)
    (product_id : string) (forecast_period : Z) (product_name : option string)
    (w : world) :
  let historical := default [] (historical_data w !! product_id) in
  create_forecast fromisoformat product_id forecast_period product_name w
  = if (length historical <? 7)%nat then (InsufficientData, w)
    else
      match generate_demand_forecast fromisoformat product_id historical
              forecast_period w with
      | (Py.Ok result, w1) =>
          let forecast :=
            Forecast.mk product_id (default ""%string product_name)
              forecast_period
              (ForecastResult.predicted_demand result)
              (ForecastResult.confidence_level result)
              (ForecastResult.trend_direction result)
              (ForecastResult.seasonal_factor result)
              (ForecastResult.daily_forecast result)
              (ForecastResult.model_used result)
              (reading w1 0) (Py.add_days (reading w1 1) forecast_period)
              (ForecastResult.accuracy_score result)
              None None None None in
          (ForecastCreated forecast,
           set_forecast_data (dict_set product_id forecast (forecast_data w1))
             (set_ticks (S (S (ticks w1))) w1))
      | (Py.Raise e, w1) => (ForecastError e, w1)
      end.
Proof.
  intros historical. unfold create_forecast, try_except.
  unfold mbind at 1. unfold M_bind, bind, get_world. fold historical.
  destruct (length historical <? 7)%nat; [reflexivity|].
  unfold mbind at 1. unfold M_bind, bind.
  destruct (generate_demand_forecast _ _ _ _ w) as [[result|e] w1]; reflexivity.
Qed.

(** What the engine returns, and the clock readings it takes. *)
Lemma generate_demand_forecast_result (fromisoformat : string -> option Py.parsed)
    (product_id : string) (historical : list Historical.t) (forecast_period : Z)
    (w w1 : world) (result : ForecastResult.t) :
  generate_demand_forecast fromisoformat product_id historical forecast_period w
  = (Py.Ok result, w1) ->
  (7 <= length historical)%nat
  /\ w1 = set_ticks (S (Z.to_nat forecast_period) + ticks w) w
  /\ ForecastResult.model_used result = "moving_average_with_trend"%string
  /\ ForecastResult.accuracy_score result = 0%Q
  /\ 74 <= ForecastResult.confidence_level result <= 95
  /\ (0 <= ForecastResult.predicted_demand result)%Q
  /\ length (ForecastResult.daily_forecast result) = Z.to_nat forecast_period.
Proof.
  intros Hrun.
  destruct (generate_demand_forecast_run fromisoformat product_id historical
              forecast_period w) as [Hshort Hlong].
  destruct (le_lt_dec 7 (length historical)) as [Hlen|Hlen];
    [|rewrite (Hshort Hlen) in Hrun; discriminate].
  specialize (Hlong Hlen). cbv zeta in Hlong.
  destruct (seasonal_factor_of _ _ _ _) as [sf|e];
    [|rewrite Hlong in Hrun; discriminate].
  destruct Hlong as (daily & Hrun' & Hvals). rewrite Hrun' in Hrun.
  injection Hrun as <- <-.
  cbn [ForecastResult.model_used ForecastResult.accuracy_score
       ForecastResult.confidence_level ForecastResult.predicted_demand
       ForecastResult.daily_forecast].
  split; [assumption|]. split; [reflexivity|]. split; [reflexivity|].
  split; [reflexivity|]. split.
  { rewrite length_map, slice_last_length by lia. lia. }
  split.
  - apply round2_nonneg, sum_nonneg. rewrite Hvals.
    apply Forall_map, Forall_forall. intros day _.
    apply round2_nonneg. unfold daily_demand. apply max_ge_l.
  - rewrite <- (length_map Daily.predicted_demand), Hvals, length_map.
    unfold Py.range. now rewrite length_map, length_seq.
Qed.

Lemma generate_demand_forecast_ticks (fromisoformat : string -> option Py.parsed)
    (product_id : string) (historical : list Historical.t) (forecast_period : Z)
    (w : world) :
  exists n,
    (generate_demand_forecast fromisoformat product_id historical forecast_period w).2
    = set_ticks n w.
Proof.
  destruct (generate_demand_forecast_run fromisoformat product_id historical
              forecast_period w) as [Hshort Hlong].
  destruct (le_lt_dec 7 (length historical)) as [Hlen|Hlen].
  - specialize (Hlong Hlen). cbv zeta in Hlong.
    destruct (seasonal_factor_of _ _ _ _) as [sf|e].
    + destruct Hlong as (daily & -> & _). eauto.
    + rewrite Hlong. eauto.
  - rewrite (Hshort Hlen). exists (ticks w). now destruct w.
Qed.

Lemma create_forecast_ok (fromisoformat : string -> option Py.parsed)
    (product_id : string) (forecast_period : Z) (product_name : option string)
    (w : world) :
  Forall forecast_ok (forecast_data w) ->
  let w' := (create_forecast fromisoformat product_id forecast_period
               product_name w).2 in
  Forall forecast_ok (forecast_data w')
  /\ historical_data w' = historical_data w
  /\ reorder_rules w' = reorder_rules w
  /\ pending_orders w' = pending_orders w.
Proof.
  intros Hok. rewrite create_forecast_step. cbv zeta.
  destruct (_ <? 7)%nat; [done|].
  destruct (generate_demand_forecast _ _ _ _ w) as [[result|e] w1] eqn:Hrun.
  - apply generate_demand_forecast_result in Hrun
      as (_ & -> & Hmodel & Hacc & Hconf & Hpred & Hlen).
    cbn. split; [|done].
    apply dict_set_Forall; [|assumption].
    unfold forecast_ok.
    cbn [fst snd Forecast.product_id Forecast.model_used Forecast.accuracy_score
         Forecast.confidence_level Forecast.predicted_demand
         Forecast.forecast_breakdown Forecast.forecast_period_days].
    rewrite Hacc. repeat split; try assumption; try lia; discriminate.
  - destruct (generate_demand_forecast_ticks fromisoformat product_id
                (default [] (historical_data w !! product_id)) forecast_period w)
      as (n & Hn).
    rewrite Hrun in Hn. cbn [snd] in Hn. subst w1. done.
Qed.

Lemma update_forecast_accuracy_ok (product_id : string) (actual_demand : Q)
    (w : world) :
  Forall forecast_ok (forecast_data w) ->
  let w' := (update_forecast_accuracy product_id actual_demand w).2 in
  Forall forecast_ok (forecast_data w')
  /\ historical_data w' = historical_data w
  /\ reorder_rules w' = reorder_rules w
  /\ pending_orders w' = pending_orders w.
Proof.
  intros Hok. unfold update_forecast_accuracy, try_except. run_monad.
  destruct (dict_get product_id (forecast_data w)) as [forecast|] eqn:Hget; [|done].
  rewrite truediv_ok by apply max_one_nonzero. cbn.
  split; [|done]. apply dict_set_Forall; [|assumption].
  apply dict_get_elem in Hget. rewrite Forall_forall in Hok.
  destruct (Hok _ Hget) as (Hid & Hmodel & _ & Hconf & Hpred & Hlen).
  cbn [fst snd] in *. unfold forecast_ok.
  cbn [fst snd Forecast.set_accuracy Forecast.product_id Forecast.model_used
       Forecast.accuracy_score Forecast.confidence_level Forecast.predicted_demand
       Forecast.forecast_breakdown Forecast.forecast_period_days].
  split; [assumption|]. split; [assumption|].
  split; [apply stored_accuracy_range|]. done.
Qed.

Lemma add_historical_data_frame (fromisoformat : string -> option Py.parsed)
    (data : Historical.request) (w : world) :
  let w' := (add_historical_data fromisoformat data w).2 in
  forecast_data w' = forecast_data w
  /\ reorder_rules w' = reorder_rules w
  /\ pending_orders w' = pending_orders w.
Proof.
  rewrite add_historical_data_run. cbv zeta.
  now destruct (comprehension _ _).
Qed.

(** ** The routes on the store *)

Lemma create_reorder_rule_ok (format_timestamp : Py.datetime -> string)
    (data : RuleData.t) (s : store) :
  Forall rule_ok (reorder_rules (core s)) ->
  let s' := (create_reorder_rule format_timestamp data s).2 in
  Forall rule_ok (reorder_rules (core s'))
  /\ pending_orders (core s') = pending_orders (core s)
  /\ forecast_data (core s') = forecast_data (core s)
  /\ historical_data (core s') = historical_data (core s)
  /\ reorder_history s' = reorder_history s
  /\ market_trends s' = market_trends s.
Proof.
  intros Hok. unfold create_reorder_rule, try_except_store. run_store. cbn.
  split; [|done]. apply dict_set_Forall; [|assumption]. now split.
Qed.

Lemma update_reorder_rule_ok (rule_id : string) (data : RuleUpdate.t) (s : store) :
  Forall rule_ok (reorder_rules (core s)) ->
  let s' := (update_reorder_rule rule_id data s).2 in
  Forall rule_ok (reorder_rules (core s'))
  /\ pending_orders (core s') = pending_orders (core s)
  /\ forecast_data (core s') = forecast_data (core s)
  /\ historical_data (core s') = historical_data (core s)
  /\ reorder_history s' = reorder_history s
  /\ market_trends s' = market_trends s.
Proof.
  intros Hok. unfold update_reorder_rule, try_except_store. run_store.
  destruct (dict_get rule_id (reorder_rules (core s))) as [rule|] eqn:Hget; [|done].
  cbn. split; [|done]. apply dict_set_Forall; [|assumption].
  apply dict_get_elem in Hget. rewrite Forall_forall in Hok.
  destruct (Hok _ Hget) as [Hid Hcost]. split; assumption.
Qed.

Lemma add_market_trend_frame (data : Trend.request) (s : store) :
  let s' := (add_market_trend data s).2 in
  reorder_rules (core s') = reorder_rules (core s)
  /\ pending_orders (core s') = pending_orders (core s)
  /\ forecast_data (core s') = forecast_data (core s)
  /\ historical_data (core s') = historical_data (core s)
  /\ reorder_history s' = reorder_history s
  /\ last_updated s' = last_updated s.
Proof. unfold add_market_trend, try_except_store. run_store. done. Qed.

Lemma get_forecasting_analytics_state (is_seasonal : Q -> bool) (s : store) :
  (get_forecasting_analytics is_seasonal s).2
  = set_core (set_ticks (length (forecast_data (core s)) + ticks (core s)) (core s)) s.
Proof.
  unfold get_forecasting_analytics, try_except_store. run_store.
  destruct (comprehension_now_run
              (fun (f : Forecast.t) now => now <? Forecast.valid_until f)
              (dict_values (forecast_data (core s))) (core s)) as (active & -> & _).
  rewrite dict_values_length. repeat case_match; simplify_eq; reflexivity.
Qed.

(** [GET /analytics] of the reorder blueprint never raises: the lead
    time is averaged over a non-empty history only, and the number of
    orders is divided by at least 1. *)
Lemma get_reorder_analytics_run (orders : list Order.t) (s : store) :
  let w := core s in
  let history := dict_values (reorder_history s) in
  let total_orders := (size (pending_orders w) + length (reorder_history s))%nat in
  exists this_month : list Order.t,
    (length this_month <= length orders)%nat
    /\ get_reorder_analytics orders s
       = (ReorderAnalyticsOk
            (ReorderAnalytics.mk
               (length (reorder_rules w))
               (length (List.filter (fun r => String.eqb (Rule.status r) "active")
                                    (dict_values (reorder_rules w))))
               total_orders
               (length (List.filter
                          (fun o => bool_decide (Order.status o = Order.pending_approval))
                          orders))
               (match history with
                | [] => 0%Q
                | _ => Py.sum (map (fun h => default 0%Q (History.cost_saved h)) history)
                end)
               (Py.round1
                  (match history with
                   | [] => 0%Q
                   | _ =>
                       (Py.sum (map (fun h => default 0%Q (History.actual_lead_time h))
                                    history)
                        / inject_Z (Z.of_nat (length history)))%Q
                   end))
               (Py.round1
                  (inject_Z (Z.of_nat total_orders)
                   / inject_Z (Z.max (Z.of_nat (length (reorder_rules w))) 1) * 100)%Q)
               (length this_month)
               (get_most_triggered_product w)),
          set_core (set_ticks (length orders + ticks w) w) s).
Proof.
  intros w history total_orders.
  destruct (comprehension_now_run
              (fun (o : Order.t) now => Py.month (Order.created_date o) =? Py.month now)
              orders w) as (this_month & Hrun & Hlen).
  exists this_month. split; [exact Hlen|].
  unfold get_reorder_analytics, try_except_store. run_store.
  fold w history total_orders.
  assert (Hlead : match history with
                  | [] => Py.Ok 0%Q
                  | _ :: _ =>
                      Py.truediv
                        (Py.sum (map (fun h => default 0%Q (History.actual_lead_time h))
                                     history))
                        (inject_Z (Z.of_nat (length history)))
                  end
                  = Py.Ok (match history with
                           | [] => 0%Q
                           | _ =>
                               (Py.sum (map (fun h => default 0%Q
                                                        (History.actual_lead_time h))
                                            history)
                                / inject_Z (Z.of_nat (length history)))%Q
                           end)).
  { destruct history as [|h rest] eqn:E; [reflexivity|].
    rewrite <- E. apply truediv_inject_Z. rewrite E. cbn. lia. }
  rewrite Hlead. rewrite truediv_inject_Z by lia. rewrite Hrun. reflexivity.
Qed.

Lemma get_reorder_analytics_state (orders : list Order.t) (s : store) :
  (get_reorder_analytics orders s).2
  = set_core (set_ticks (length orders + ticks (core s)) (core s)) s.
Proof.
  destruct (get_reorder_analytics_run orders s) as (this_month & _ & ->).
  reflexivity.
Qed.

(** ** The two blueprints side by side *)

Lemma check_rules_forecasting_frame (format_num : Q -> string)
    (inventory_data : gmap string Inventory.t) (rules : list Rule.t) :
  forall (i : nat) (acc : list Order.t) (w : world),
    exists orders w',
      check_rules format_num inventory_data i rules acc w = (Py.Ok orders, w')
      /\ forecast_data w' = forecast_data w
      /\ historical_data w' = historical_data w.
Proof.
  induction rules as [|rule rules IH]; intros i acc w.
  - exists acc, w. done.
  - cbn [check_rules].
    destruct (check_rule_effect format_num inventory_data i rule w)
      as (fired & w1 & Hrun & Hf & Hh & _).
    rewrite (bind_ok _ _ _ _ _ Hrun).
    destruct (IH (S i) (acc ++ option_list fired) w1)
      as (orders & w' & Hloop & Hf' & Hh').
    exists orders, w'. rewrite Hloop. split; [reflexivity|]. split; congruence.
Qed.

Lemma reorder_routes_frame (format_num : Q -> string) (w : world) :
  (forall inventory_data,
     let w' := (check_reorder_triggers format_num inventory_data w).2 in
     forecast_data w' = forecast_data w /\ historical_data w' = historical_data w)
  /\ (forall product_id quantity,
        let w' := (trigger_reorder product_id quantity w).2 in
        forecast_data w' = forecast_data w /\ historical_data w' = historical_data w)
  /\ (forall order_id data,
        let w' := (approve_order order_id data w).2 in
        forecast_data w' = forecast_data w /\ historical_data w' = historical_data w)
  /\ (forall order_id data,
        let w' := (reject_order order_id data w).2 in
        forecast_data w' = forecast_data w /\ historical_data w' = historical_data w).
Proof.
  split; [|split; [|split]].
  - intros inventory_data.
    destruct (check_rules_forecasting_frame format_num inventory_data
                (dict_values (reorder_rules w)) 0 [] w) as (orders & w' & Hrun & Hf).
    unfold check_reorder_triggers, try_except. run_monad. rewrite Hrun. exact Hf.
  - intros product_id quantity.
    unfold trigger_reorder, try_except. run_monad.
    destruct (applicable_rule _ _) as [rule|]; [|done].
    rewrite create_reorder_run. cbv zeta.
    now destruct (requires_approval rule quantity).
  - intros order_id data.
    unfold approve_order, try_except, send_order_to_supplier, write_order. run_monad.
    destruct (pending_orders w !! order_id) as [order|]; [|done].
    now case_bool_decide.
  - intros order_id data.
    unfold reject_order, try_except, write_order. run_monad.
    destruct (pending_orders w !! order_id) as [order|]; [|done].
    now case_bool_decide.
Qed.

Lemma on_core_state {R} (handler : world -> R * world) (s : store) :
  (on_core handler s).2 = set_core (handler (core s)).2 s.
Proof. unfold on_core. now destruct (handler (core s)). Qed.

Lemma model_scores_elem (forecasts : list Forecast.t) (model : string) :
  model_scores forecasts model <> [] ->
  exists f, f ∈ forecasts /\ Forecast.model_used f = model.
Proof.
  unfold model_scores. intros Hne.
  destruct (List.filter _ forecasts) as [|f rest] eqn:Hf; [now cbn in Hne|].
  assert (Hin : In f (List.filter
                        (fun f => Py.ltb 0 (Forecast.accuracy_score f)
                                  && String.eqb (Forecast.model_used f) model)
                        forecasts)) by (rewrite Hf; now left).
  apply filter_In in Hin as [Hin Hp]. apply andb_true_iff in Hp as [_ Hp].
  exists f. split; [now apply list_elem_of_In|now apply String.eqb_eq].
Qed.

(** The most accurate model is the model of a stored forecast. *)
Lemma get_most_accurate_model_among (store : dict string Forecast.t) :
  get_most_accurate_model store = Py.Ok "no_data"%string
  \/ exists f, f ∈ dict_values store
               /\ get_most_accurate_model store = Py.Ok (Forecast.model_used f).
Proof.
  unfold get_most_accurate_model.
  set (groups := group_by_model (dict_values store) []).
  assert (Hget : forall m,
            dict_get m groups
            = match model_scores (dict_values store) m with
              | [] => None
              | new => Some new
              end).
  { intros m. subst groups. now rewrite group_by_model_get. }
  assert (Hnd : NoDup (map fst groups))
    by (apply group_by_model_NoDup; constructor).
  assert (Hne : Forall (fun kv => kv.2 <> []) groups)
    by (apply group_by_model_nonempty; constructor).
  clearbody groups.
  destruct (decide (groups = [])) as [->|Hgroups]; [now left|right].
  destruct (best_of_groups groups Hgroups Hnd Hne)
    as (before & [model average] & after & Hrun & Heq & _).
  assert (Hbest : (model, average) ∈ map (fun kv : string * list Q =>
                                            (kv.1, mean kv.2)) groups).
  { rewrite Heq. apply elem_of_app. right. left. }
  apply list_elem_of_fmap in Hbest as ([k g] & [= -> ->] & Hkg).
  apply (dict_elem_get _ _ _ Hnd) in Hkg. rewrite Hget in Hkg.
  destruct (model_scores_elem (dict_values store) k) as (f & Hf & Hmodel).
  { intros Hnil. now rewrite Hnil in Hkg. }
  exists f. split; [assumption|]. rewrite Hmodel. exact Hrun.
Qed.

Section service_facts.

Variable format_num : Q -> string.
Variable format_timestamp : Py.datetime -> string.
Variable fromisoformat : string -> option Py.parsed.
Variable is_seasonal : Q -> bool.

Local Abbreviation served r s :=
  (serve format_num format_timestamp fromisoformat is_seasonal r s).
Local Abbreviation reached s :=
  (reachable format_num format_timestamp fromisoformat is_seasonal s).

(** What a request leaves alone, whatever the state. *)
Lemma serve_frame (r : request) (s : store) :
  (if reorder_request r
   then forecast_data (core (served r s)) = forecast_data (core s)
        /\ historical_data (core (served r s)) = historical_data (core s)
        /\ market_trends (served r s) = market_trends s
   else reorder_rules (core (served r s)) = reorder_rules (core s)
        /\ pending_orders (core (served r s)) = pending_orders (core s)
        /\ last_updated (served r s) = last_updated s)
  /\ reorder_history (served r s) = reorder_history s.
Proof.
  destruct (reorder_routes_frame format_num (core s)) as (Hcheck & Htrigger & Happrove & Hreject).
  destruct r; cbn [reorder_request serve].
  - unfold create_reorder_rule, try_except_store. run_store. done.
  - unfold update_reorder_rule, try_except_store. run_store.
    now destruct (dict_get _ _).
  - specialize (Htrigger product_id quantity). cbv zeta in Htrigger.
    unfold on_core. destruct (trigger_reorder _ _ _). cbn in *. tauto.
  - specialize (Hcheck inventory_data). cbv zeta in Hcheck.
    unfold on_core. destruct (check_reorder_triggers _ _ _). cbn in *. tauto.
  - specialize (Happrove order_id data). cbv zeta in Happrove.
    unfold on_core. destruct (approve_order _ _ _). cbn in *. tauto.
  - specialize (Hreject order_id data). cbv zeta in Hreject.
    unfold on_core. destruct (reject_order _ _ _). cbn in *. tauto.
  - now rewrite get_reorder_analytics_state.
  - unfold on_core. rewrite create_forecast_step. cbv zeta.
    destruct (_ <? 7)%nat; [done|].
    destruct (generate_demand_forecast_ticks fromisoformat product_id
                (default [] (historical_data (core s) !! product_id))
                forecast_period (core s)) as (n & Hn).
    destruct (generate_demand_forecast _ _ _ _ _) as [[result|e] w1];
      cbn [snd] in Hn; subst w1; done.
  - pose proof (add_historical_data_frame fromisoformat data (core s)) as Hframe.
    cbv zeta in Hframe. unfold on_core. destruct (add_historical_data _ _ _).
    cbn in *. tauto.
  - pose proof (add_market_trend_frame data s) as Hframe. cbv zeta in Hframe. tauto.
  - unfold on_core, update_forecast_accuracy, try_except. run_monad.
    destruct (dict_get _ _); [|done].
    rewrite truediv_ok by apply max_one_nonzero. done.
  - now rewrite get_forecasting_analytics_state.
Qed.

(** X11.  In every state that the service reaches from start-up, rules
    are stored under their id and carry no unit cost (no route can set
    one), so that every stored order has an estimated cost of zero and
    is stored under its id; the reorder history stays empty.  Hence the
    cost never exceeds a non-negative approval threshold: a stored rule
    leads to a pending order exactly when it requires approval or its
    threshold is negative, whatever the quantity. *)
Theorem reachable_orders_cost_nothing (s : store) :
  reached s ->
  Forall rule_ok (reorder_rules (core s))
  /\ map_Forall order_ok (pending_orders (core s))
  /\ reorder_history s = []
  /\ (forall key rule quantity,
        (key, rule) ∈ reorder_rules (core s) ->
        (requires_approval rule quantity = true
         <-> Rule.approval_required rule = Some true
             \/ (default 1000%Q (Rule.approval_threshold rule) < 0)%Q)).
Proof.
  intros Hreach.
  assert (Hinv : Forall rule_ok (reorder_rules (core s))
                 /\ map_Forall order_ok (pending_orders (core s))
                 /\ reorder_history s = []).
  { induction Hreach as [clock|r s Hreach (Hrules & Horders & Hhistory)].
    - split; [constructor|]. split; [apply map_Forall_empty|reflexivity].
    - destruct (serve_frame r s) as [Hframe Hhist].
      split; [|split; [|congruence]].
      + destruct r; cbn [reorder_request] in Hframe;
          try (destruct Hframe as (-> & _ & _); assumption);
          cbn [serve]; rewrite ?on_core_state; cbn [core set_core].
        * now apply create_reorder_rule_ok.
        * now apply update_reorder_rule_ok.
        * destruct (trigger_reorder_ok product_id quantity (core s) Hrules Horders)
            as (-> & _). assumption.
        * now apply check_reorder_triggers_ok.
        * destruct (approve_order_ok order_id data (core s) Horders) as (-> & _).
          assumption.
        * destruct (reject_order_ok order_id data (core s) Horders) as (-> & _).
          assumption.
        * now rewrite get_reorder_analytics_state.
      + destruct r; cbn [reorder_request] in Hframe;
          try (destruct Hframe as (_ & -> & _); assumption);
          cbn [serve]; rewrite ?on_core_state; cbn [core set_core].
        * now destruct (create_reorder_rule_ok format_timestamp data s Hrules)
            as (_ & -> & _).
        * now destruct (update_reorder_rule_ok rule_id data s Hrules) as (_ & -> & _).
        * now apply trigger_reorder_ok.
        * now apply check_reorder_triggers_ok.
        * now apply approve_order_ok.
        * now apply reject_order_ok.
        * now rewrite get_reorder_analytics_state. }
  destruct Hinv as (Hrules & Horders & Hhistory).
  split; [assumption|]. split; [assumption|]. split; [assumption|].
  intros key rule quantity Hin. rewrite Forall_forall in Hrules.
  destruct (Hrules _ Hin) as [_ Hcost]. cbn [snd] in Hcost.
  unfold requires_approval, estimated_cost. rewrite Hcost. cbn [default].
  rewrite orb_true_iff, ltb_lt.
  assert (quantity * 0 == 0)%Q as -> by ring.
  destruct (Rule.approval_required rule) as [[]|]; cbn [default].
  - split; intros _; now left.
  - split; (intros [H|H]; [discriminate|now right]).
  - split; (intros [H|H]; [discriminate|now right]).
Qed.

(** X12.  In every state that the service reaches from start-up, each
    stored forecast is stored under its product id, was made with the
    model [moving_average_with_trend], has an accuracy score between 0
    and 100, a confidence level between 74 and 95, a non-negative
    predicted demand and one breakdown entry per day of its horizon.
    Hence the most accurate model is that model, or [no_data]. *)
Theorem reachable_forecasts_well_formed (s : store) :
  reached s ->
  Forall forecast_ok (forecast_data (core s))
  /\ (get_most_accurate_model (forecast_data (core s)) = Py.Ok "no_data"%string
      \/ get_most_accurate_model (forecast_data (core s))
         = Py.Ok "moving_average_with_trend"%string).
Proof.
  intros Hreach.
  assert (Hinv : Forall forecast_ok (forecast_data (core s))).
  { induction Hreach as [clock|r s Hreach Hforecasts]; [constructor|].
    destruct (serve_frame r s) as [Hframe _].
    destruct r; cbn [reorder_request] in Hframe;
      try (destruct Hframe as (-> & _ & _); assumption);
      cbn [serve]; rewrite ?on_core_state; cbn [core set_core].
    - now apply create_forecast_ok.
    - now destruct (add_historical_data_frame fromisoformat data (core s)) as (-> & _).
    - now destruct (add_market_trend_frame data s) as (_ & _ & -> & _).
    - now apply update_forecast_accuracy_ok.
    - now rewrite get_forecasting_analytics_state. }
  split; [assumption|].
  destruct (get_most_accurate_model_among (forecast_data (core s)))
    as [Hnone|(f & Hf & Hmodel)]; [now left|right].
  rewrite Hmodel. do 2 f_equal.
  apply list_elem_of_fmap in Hf as (kv & -> & Hkv).
  rewrite Forall_forall in Hinv. now destruct (Hinv _ Hkv) as (_ & -> & _).
Qed.

End service_facts.

Lemma reachable_sample_serve (requests : list request) (s : store) :
  reachable show_num show_timestamp parse_date exact_seasonal s ->
  reachable show_num show_timestamp parse_date exact_seasonal
    (sample_serve requests s).
Proof.
  revert s. induction requests as [|r requests IH]; intros s Hs; [exact Hs|].
  cbn [sample_serve foldl]. apply IH. now constructor.
Qed.

Lemma reachable_orders_cost_nothing_witness :
  exists order,
    pending_orders (core ordered_service) !! december_clock 2 = Some order
    /\ Order.quantity order = 200%Q
    /\ (Order.estimated_cost order == 0)%Q
    /\ Order.status order = Order.sent_to_supplier.
Proof.
  destruct (reachable_orders_cost_nothing show_num show_timestamp parse_date
              exact_seasonal ordered_service) as (_ & Horders & _).
  { apply reachable_sample_serve. constructor. }
  destruct (pending_orders (core ordered_service) !! december_clock 2)
    as [order|] eqn:Hlook; [|vm_compute in Hlook; discriminate].
  exists order. split; [reflexivity|].
  destruct (Horders _ _ Hlook) as [_ Hcost].
  vm_compute in Hlook. injection Hlook as <-.
  split; [reflexivity|]. split; [exact Hcost|reflexivity].
Defined.

Lemma reachable_forecasts_well_formed_witness :
  get_most_accurate_model (forecast_data (core forecast_service))
  = Py.Ok "moving_average_with_trend"%string.
Proof.
  destruct (reachable_forecasts_well_formed show_num show_timestamp parse_date
              exact_seasonal forecast_service) as (_ & [Hnone|Hmodel]).
  - apply reachable_sample_serve. constructor.
  - vm_compute in Hnone. discriminate.
  - exact Hmodel.
Defined.

(* ===================================================================== *)
(** * Reordering: further properties of the trigger evaluation            *)
(* ===================================================================== *)

Lemma bind_get_world {B} (k : world -> M B) (w : world) :
  (get_world ≫= k) w = k w w.
Proof. reflexivity. Qed.

Lemma ignores_ret {A} (a : A) : ignores_forecasting (mret a).
Proof. intros f h w. reflexivity. Qed.

Lemma ignores_bind {A B} (m : M A) (k : A -> M B) :
  ignores_forecasting m -> (forall a, ignores_forecasting (k a)) ->
  ignores_forecasting (m ≫= k).
Proof.
  intros Hm Hk f h w. unfold mbind, M_bind, bind. rewrite Hm.
  destruct (m w) as [[a|e] w']; [apply Hk|reflexivity].
Qed.

Lemma ignores_utcnow : ignores_forecasting utcnow.
Proof. intros f h w. reflexivity. Qed.

Lemma ignores_write_order (key : Z) (order : Order.t) :
  ignores_forecasting (write_order key order).
Proof. intros f h w. reflexivity. Qed.

Lemma ignores_stamp_rule (i : nat) (now : Py.datetime) :
  ignores_forecasting (stamp_rule i now).
Proof. intros f h w. reflexivity. Qed.

Ltac ignores :=
  repeat first
    [ apply ignores_ret
    | apply ignores_utcnow
    | apply ignores_write_order
    | apply ignores_stamp_rule
    | apply ignores_bind; [|intros ?]
    | case_match ].

Lemma ignores_create_reorder (rule : Rule.t) (quantity : Q) (reason : string) :
  ignores_forecasting (create_reorder rule quantity reason).
Proof. unfold create_reorder, send_order_to_supplier. ignores. Qed.

Lemma check_rule_ignores_forecasting (format_num : Q -> string)
    (inventory_data : gmap string Inventory.t) (i : nat) (rule : Rule.t) :
  ignores_forecasting (check_rule format_num inventory_data i rule).
Proof.
  unfold check_rule, trigger_condition, seasonal_quantity.
  ignores; apply ignores_create_reorder.
Qed.

Lemma check_rules_ignore_forecasting (format_num : Q -> string)
    (inventory_data : gmap string Inventory.t) (rules : list Rule.t) :
  forall (i : nat) (acc : list Order.t),
    ignores_forecasting (check_rules format_num inventory_data i rules acc).
Proof.
  induction rules as [|rule rules IH]; intros i acc; cbn [check_rules].
  - apply ignores_ret.
  - apply ignores_bind; [apply check_rule_ignores_forecasting|].
    intros fired. apply IH.
Qed.

(** X13.  The trigger evaluation and the manual trigger neither read
    nor write the state of the forecasting blueprint: with other stored
    forecasts and series they give the same answer and do the same to
    the rules and the orders.  In particular a [demand_forecast] rule
    compares the stock with the predicted demand of the inventory
    snapshot in the request; stored forecasts play no part. *)
Theorem trigger_evaluation_ignores_forecasts (format_num : Q -> string)
    (forecasts : dict string Forecast.t) (series : gmap string (list Historical.t))
    (w : world) :
  (forall inventory_data,
     check_reorder_triggers format_num inventory_data
       (with_forecasting forecasts series w)
     = let (response, w') := check_reorder_triggers format_num inventory_data w in
       (response, with_forecasting forecasts series w'))
  /\ (forall product_id quantity,
        trigger_reorder product_id quantity (with_forecasting forecasts series w)
        = let (response, w') := trigger_reorder product_id quantity w in
          (response, with_forecasting forecasts series w'))
  /\ (forall inventory_data,
        let w' := (check_reorder_triggers format_num inventory_data w).2 in
        forecast_data w' = forecast_data w /\ historical_data w' = historical_data w)
  /\ (forall product_id quantity,
        let w' := (trigger_reorder product_id quantity w).2 in
        forecast_data w' = forecast_data w /\ historical_data w' = historical_data w).
Proof.
  split; [|split; [|split]].
  - intros inventory_data. unfold check_reorder_triggers, try_except.
    rewrite !bind_get_world.
    change (reorder_rules (with_forecasting forecasts series w))
      with (reorder_rules w).
    pose proof (ignores_bind
                  (check_rules format_num inventory_data 0
                     (dict_values (reorder_rules w)) [])
                  (fun triggered_orders => mret (TriggersChecked triggered_orders))
                  (check_rules_ignore_forecasting _ _ _ _ _)
                  (fun orders => ignores_ret _)) as Hloop.
    rewrite Hloop.
    now destruct ((check_rules _ _ _ _ _ ≫= _) w) as [[response|e] w'].
  - intros product_id quantity. unfold trigger_reorder, try_except.
    rewrite !bind_get_world.
    change (reorder_rules (with_forecasting forecasts series w))
      with (reorder_rules w).
    destruct (applicable_rule _ _) as [rule|]; [|reflexivity].
    pose proof (ignores_bind
                  (create_reorder rule quantity "manual_trigger")
                  (fun order_result => mret (Triggered order_result))
                  (ignores_create_reorder _ _ _)
                  (fun order => ignores_ret _)) as Hrun.
    rewrite Hrun.
    now destruct ((create_reorder _ _ _ ≫= _) w) as [[response|e] w'].
  - exact (proj1 (reorder_routes_frame format_num w)).
  - exact (proj1 (proj2 (reorder_routes_frame format_num w))).
Qed.

(* ===================================================================== *)
(** * Forecasting: further properties of the engine and of reconciliation *)
(* ===================================================================== *)

Lemma round_morph (x y : Q) : (x == y)%Q -> Py.round x = Py.round y.
Proof.
  intros Hxy. unfold Py.round.
  assert (Hf : Qfloor x = Qfloor y) by now apply Qfloor_comp.
  rewrite Hf.
  rewrite (ltb_morph (x - inject_Z (Qfloor y)) (1 # 2) (y - inject_Z (Qfloor y)) (1 # 2))
    by lra.
  rewrite (ltb_morph (1 # 2) (x - inject_Z (Qfloor y)) (1 # 2) (y - inject_Z (Qfloor y)))
    by lra.
  reflexivity.
Qed.

Lemma round2_morph (x y : Q) : (x == y)%Q -> Py.round2 x = Py.round2 y.
Proof.
  intros Hxy. unfold Py.round2. f_equal. apply round_morph. lra.
Qed.


(** A stored forecast comes from a run of the engine. *)
Lemma create_forecast_inv (fromisoformat : string -> option Py.parsed)
    (product_id : string) (forecast_period : Z) (product_name : option string)
    (w w' : world) (forecast : Forecast.t) :
  create_forecast fromisoformat product_id forecast_period product_name w
  = (ForecastCreated forecast, w') ->
  let historical := default [] (historical_data w !! product_id) in
  let w1 := set_ticks (S (Z.to_nat forecast_period) + ticks w) w in
  exists result,
    generate_demand_forecast fromisoformat product_id historical forecast_period w
    = (Py.Ok result, w1)
    /\ forecast
       = Forecast.mk product_id (default ""%string product_name) forecast_period
           (ForecastResult.predicted_demand result)
           (ForecastResult.confidence_level result)
           (ForecastResult.trend_direction result)
           (ForecastResult.seasonal_factor result)
           (ForecastResult.daily_forecast result)
           (ForecastResult.model_used result)
           (reading w1 0) (Py.add_days (reading w1 1) forecast_period)
           (ForecastResult.accuracy_score result) None None None None
    /\ w' = set_forecast_data (dict_set product_id forecast (forecast_data w))
              (set_ticks (S (S (ticks w1))) w1).
Proof.
  intros Hrun historical w1. rewrite create_forecast_step in Hrun. cbv zeta in Hrun.
  fold historical in Hrun.
  destruct (_ <? 7)%nat; [discriminate|].
  destruct (generate_demand_forecast _ _ _ _ w) as [[result|e] w2] eqn:Hgen;
    [|discriminate].
  pose proof (generate_demand_forecast_result _ _ _ _ _ _ _ Hgen) as (_ & Hw2 & _).
  fold w1 in Hw2. subst w2. injection Hrun as <- <-.
  exists result. split; [reflexivity|]. split; reflexivity.
Qed.





(** X16.  A new forecast replaces the product's previous one, whatever
    was known about its accuracy: the stored forecast has the accuracy
    score 0 and none of the reconciliation fields, so that it no longer
    counts among the forecasts of positive accuracy.  It takes the place
    of the previous forecast; the forecasts of other products are
    untouched. *)
Theorem reforecast_resets_accuracy (fromisoformat : string -> option Py.parsed)
    (product_id : string) (forecast_period : Z) (product_name : option string)
    (w w' : world) (forecast : Forecast.t) :
  create_forecast fromisoformat product_id forecast_period product_name w
  = (ForecastCreated forecast, w') ->
  Forecast.accuracy_score forecast = 0%Q
  /\ Forecast.actual_demand forecast = None
  /\ Forecast.forecast_error forecast = None
  /\ Forecast.percentage_error forecast = None
  /\ Forecast.accuracy_updated forecast = None
  /\ Py.ltb 0 (Forecast.accuracy_score forecast) = false
  /\ get_product_forecast product_id w' = Found forecast
  /\ (forall other, other <> product_id ->
        get_product_forecast other w' = get_product_forecast other w)
  /\ (is_Some (dict_get product_id (forecast_data w)) ->
      map fst (forecast_data w') = map fst (forecast_data w))
  /\ (dict_get product_id (forecast_data w) = None ->
      forecast_data w' = forecast_data w ++ [(product_id, forecast)]).
Proof.
  intros Hrun.
  destruct (create_forecast_inv _ _ _ _ _ _ _ Hrun) as (result & Hgen & -> & ->).
  apply generate_demand_forecast_result in Hgen as (_ & _ & _ & Hacc & _).
  cbn [Forecast.accuracy_score Forecast.actual_demand Forecast.forecast_error
       Forecast.percentage_error Forecast.accuracy_updated].
  rewrite Hacc. do 6 (split; [reflexivity|]).
  unfold get_product_forecast. cbn [forecast_data set_forecast_data].
  split; [now rewrite dict_get_set_eq|].
  split; [intros other Hne; now rewrite dict_get_set_ne|].
  split; [apply dict_set_keys_present|apply dict_set_keys_absent].
Qed.

Lemma reforecast_resets_accuracy_witness :
  (Forecast.accuracy_score
     <$> dict_get "sku-1"%string (forecast_data (core forecast_service)))
  = Some (9100 # 100)%Q
  /\ exists forecast w',
       create_forecast parse_date "sku-1" 3 None (core forecast_service)
       = (ForecastCreated forecast, w')
       /\ Forecast.accuracy_score forecast = 0%Q
       /\ get_product_forecast "sku-1" w' = Found forecast.
Proof.
  split; [vm_compute; reflexivity|].
  destruct (create_forecast parse_date "sku-1" 3 None (core forecast_service))
    as [response w'] eqn:Hrun.
  assert (Hresponse : exists forecast, response = ForecastCreated forecast).
  { apply (f_equal fst) in Hrun. cbn [fst] in Hrun. rewrite <- Hrun.
    vm_compute. eexists. reflexivity. }
  destruct Hresponse as (forecast & ->).
  destruct (reforecast_resets_accuracy _ _ _ _ _ _ _ Hrun)
    as (Hacc & _ & _ & _ & _ & _ & Hget & _).
  exists forecast, w'. split; [reflexivity|]. split; assumption.
Defined.

(** X17.  Reconciliation never fails on a stored forecast, and the
    accuracy it stores and returns is a percentage: between 0 and 100,
    and 100 when the prediction was exact.  When the error is at least
    [max(actual, 1)], that is 100 per cent or more, the accuracy is 0,
    and the forecast is then skipped wherever reconciled forecasts are
    selected by a positive accuracy score. *)
Theorem reconciled_accuracy_is_a_percentage (product_id : string)
    (actual_demand : Q) (forecast : Forecast.t) (w : world) :
  dict_get product_id (forecast_data w) = Some forecast ->
  let error := Qabs (Forecast.predicted_demand forecast - actual_demand) in
  exists metrics stored w',
    update_forecast_accuracy product_id actual_demand w = (AccuracyUpdated metrics, w')
    /\ dict_get product_id (forecast_data w') = Some stored
    /\ Forecast.accuracy_score stored = Metrics.accuracy_score metrics
    /\ (0 <= Metrics.accuracy_score metrics <= 100)%Q
    /\ (0 <= Metrics.percentage_error metrics)%Q
    /\ ((Py.max actual_demand 1 <= error)%Q ->
        (Metrics.accuracy_score metrics == 0)%Q
        /\ Py.ltb 0 (Forecast.accuracy_score stored) = false)
    /\ ((error == 0)%Q -> (Metrics.accuracy_score metrics == 100)%Q).
Proof.
  intros Hget error.
  unfold update_forecast_accuracy, try_except. run_monad. rewrite Hget.
  rewrite truediv_ok by apply max_one_nonzero.
  cbn [fst snd]. fold error.
  set (pe := (error / Py.max actual_demand 1 * 100)%Q).
  pose proof (percentage_error_nonneg (Forecast.predicted_demand forecast)
                actual_demand) as Hpe. fold error pe in Hpe.
  pose proof (max_ge_r actual_demand 1) as Hmax.
  eexists _, _, _. split; [reflexivity|].
  cbn [forecast_data set_forecast_data Forecast.accuracy_score Forecast.set_accuracy
       Metrics.accuracy_score Metrics.percentage_error].
  split; [apply dict_get_set_eq|]. split; [reflexivity|].
  split; [apply stored_accuracy_range|].
  split; [now apply round2_nonneg|].
  split.
  - intros Hbad.
    assert (Hfull : (100 <= pe)%Q).
    { subst pe. assert (1 <= error / Py.max actual_demand 1)%Q; [|lra].
      apply Qle_shift_div_l; lra. }
    assert (Hzero : Py.max 0 (100 - pe) = 0%Q).
    { unfold Py.max. assert (Py.ltb 0 (100 - pe) = false) as ->; [|reflexivity].
      apply ltb_ge. lra. }
    rewrite Hzero. split; [reflexivity|]. now apply ltb_ge.
  - intros Hexact.
    assert (Hnone : (pe == 0)%Q).
    { subst pe. rewrite Hexact. unfold Qdiv. ring. }
    rewrite (round2_morph _ 100); [reflexivity|].
    unfold Py.max. destruct (Py.ltb 0 (100 - pe)) eqn:E; [lra|].
    apply ltb_ge in E. lra.
Qed.

Lemma reconciled_accuracy_is_a_percentage_witness :
  exists metrics w',
    update_forecast_accuracy "sku-1" 40 (forecast_world 100)
    = (AccuracyUpdated metrics, w')
    /\ (Metrics.accuracy_score metrics == 0)%Q.
Proof.
  destruct (reconciled_accuracy_is_a_percentage "sku-1" 40
              (sample_forecast "sku-1" 100 0) (forecast_world 100) eq_refl)
    as (metrics & stored & w' & Hrun & _ & _ & _ & _ & Hbad & _).
  exists metrics, w'. split; [exact Hrun|].
  apply Hbad. vm_compute. discriminate.
Defined.

Lemma group_by_weekday_raises (fromisoformat : string -> option Py.parsed)
    (records : list Historical.t) :
  Exists (fun r => fromisoformat (Historical.date r) = None) records ->
  forall weekly_pattern,
    group_by_weekday fromisoformat records weekly_pattern = Py.Raise Py.ValueError.
Proof.
  induction 1 as [record records Hbad|record records _ IH]; intros wp;
    cbn [group_by_weekday].
  - now rewrite Hbad.
  - destruct (fromisoformat (Historical.date record)); [apply IH|reflexivity].
Qed.

(** X18.  With 14 records or more the engine reads the dates of the
    last 14.  If one of them is not an ISO string, [POST /forecasts]
    answers 500 with a [ValueError] and stores nothing; it has read the
    clock once. *)
Theorem forecast_fails_on_unreadable_date
    (fromisoformat : string -> option Py.parsed) (product_id : string)
    (forecast_period : Z) (product_name : option string) (w : world) :
  let historical := default [] (historical_data w !! product_id) in
  (14 <= length historical)%nat ->
  Exists (fun r => fromisoformat (Historical.date r) = None)
         (Py.slice (Some (-14)) None historical) ->
  create_forecast fromisoformat product_id forecast_period product_name w
  = (ForecastError Py.ValueError, set_ticks (S (ticks w)) w).
Proof.
  intros historical Hlen Hbad.
  rewrite create_forecast_step. cbv zeta. fold historical.
  assert (Hlen' : (length historical <? 7)%nat = false) by (apply Nat.ltb_ge; lia).
  rewrite Hlen'.
  destruct (generate_demand_forecast_run fromisoformat product_id historical
              forecast_period w) as [_ Hlong].
  specialize (Hlong ltac:(lia)). cbv zeta in Hlong.
  unfold seasonal_factor_of in Hlong.
  assert (H14 : (14 <=? length (map Historical.demand
                                    (Py.slice (Some (-30)%Z) None historical)))%nat
                = true).
  { apply Nat.leb_le. rewrite length_map, slice_last_length by lia. lia. }
  rewrite H14, (group_by_weekday_raises _ _ Hbad) in Hlong.
  cbn [mbind Py.result_bind] in Hlong. now rewrite Hlong.
Qed.

Lemma forecast_fails_on_unreadable_date_witness :
  create_forecast parse_date "sku-1" 3 None unreadable_world
  = (ForecastError Py.ValueError, set_ticks 1%nat unreadable_world).
Proof.
  apply (forecast_fails_on_unreadable_date parse_date "sku-1" 3 None
           unreadable_world).
  - vm_compute. lia.
  - apply Exists_exists. exists (Historical.mk "yesterday" 4 0 0 false [] 0).
    split; [|reflexivity]. vm_compute. repeat constructor.
Defined.

(* ===================================================================== *)
(** * Reordering: when rules fire, and what approval leaves possible      *)
(* ===================================================================== *)

Section firing.

Variable format_num : Q -> string.
Variable inventory_data : gmap string Inventory.t.





(** X20.  A time-based rule that was never triggered fires at once,
    whatever its trigger value.  One that was triggered at [last] and
    has a whole number [days] as trigger value fires exactly when the
    clock reads [last] plus [days] days or later: elapsed time counts in
    whole days, so that 23 hours 59 minutes are 0 days. *)
Theorem time_based_rule_waits_whole_days (rule : Rule.t) (w : world) :
  Rule.trigger_type rule = "time_based"%string ->
  (Rule.last_triggered rule = None ->
   trigger_condition format_num inventory_data rule w
   = (Py.Ok (Some "First time trigger"%string), w))
  /\ (forall last days,
        Rule.last_triggered rule = Some last ->
        (Rule.trigger_value rule == inject_Z days)%Q ->
        ((exists reason w',
            trigger_condition format_num inventory_data rule w
            = (Py.Ok (Some reason), w'))
         <-> last + days * Py.us_per_day <= reading w 0)).
Proof.
  intros Htype. unfold trigger_condition. rewrite Htype.
  change (String.eqb "time_based" "threshold") with false.
  change (String.eqb "time_based" "time_based") with true. cbv iota.
  split; [now intros ->|].
  intros last days -> Hvalue. rewrite bind_utcnow.
  assert (Hle : Qle_bool (Rule.trigger_value rule)
                  (inject_Z (Py.days_between (reading w 0) last)) = true
                <-> last + days * Py.us_per_day <= reading w 0).
  { rewrite Qle_bool_iff, Hvalue, <- Zle_Qle.
    unfold Py.days_between, Py.us_per_day. split; intros H.
    - pose proof (Z.mul_div_le (reading w 0 - last) 86400000000 ltac:(lia)). nia.
    - apply Z.div_le_lower_bound; lia. }
  destruct (Qle_bool _ _) eqn:E.
  - split; [intros _; now apply Hle|eauto].
  - split; [intros (reason & w' & [=])|].
    intros H. apply Hle in H. discriminate.
Qed.

End firing.

Lemma time_based_rule_waits_whole_days_witness :
  trigger_condition show_num ∅ (daily_rule (Py.at_midnight 2024 12 14 + 1)) empty_world
  = (Py.Ok None, set_ticks 1%nat empty_world)
  /\ exists reason w',
       trigger_condition show_num ∅ (daily_rule (Py.at_midnight 2024 12 14))
         empty_world
       = (Py.Ok (Some reason), w').
Proof.
  split; [reflexivity|].
  destruct (time_based_rule_waits_whole_days show_num ∅
              (daily_rule (Py.at_midnight 2024 12 14)) empty_world eq_refl)
    as [_ Hlater].
  apply (Hlater (Py.at_midnight 2024 12 14) 1); [reflexivity|reflexivity|].
  vm_compute. discriminate.
Defined.


(* ===================================================================== *)
(** * Reordering: analytics                                               *)
(* ===================================================================== *)

Lemma count_triggers_get (rules : list Rule.t) (product_id : string) :
  forall product_counts : dict string ProductCount.t,
    dict_get product_id (count_triggers rules product_counts)
    = match dict_get product_id product_counts with
      | Some entry =>
          Some (ProductCount.add_triggers (product_triggers rules product_id) entry)
      | None =>
          match List.filter (fun rule => String.eqb (Rule.product_id rule) product_id)
                            rules with
          | [] => None
          | rule :: _ =>
              Some (ProductCount.mk product_id
                      (default ""%string (Rule.product_name rule))
                      (product_triggers rules product_id))
          end
      end.
Proof.
  unfold product_triggers.
  induction rules as [|rule rules IH]; intros acc.
  - cbn. destruct (dict_get product_id acc) as [[p n t]|]; [|reflexivity].
    unfold ProductCount.add_triggers. cbn. do 2 f_equal. lia.
  - cbn [count_triggers List.filter].
    destruct (String.eqb_spec (Rule.product_id rule) product_id) as [->|Hne].
    + destruct (dict_get product_id acc) as [[p n t]|] eqn:Hget; rewrite IH.
      * rewrite dict_get_set_eq. unfold ProductCount.add_triggers. cbn.
        do 2 f_equal. lia.
      * rewrite dict_get_set_eq. reflexivity.
    + destruct (dict_get (Rule.product_id rule) acc) as [entry|]; rewrite IH;
        now rewrite dict_get_set_ne by congruence.
Qed.

Lemma count_triggers_NoDup (rules : list Rule.t) :
  forall product_counts : dict string ProductCount.t,
    NoDup (map fst product_counts) ->
    NoDup (map fst (count_triggers rules product_counts)).
Proof.
  induction rules as [|rule rules IH]; intros acc Hacc; cbn [count_triggers];
    [assumption|].
  apply IH. destruct (dict_get _ acc); now apply dict_set_NoDup.
Qed.

(** X22.  [get_most_triggered_product] answers nothing exactly when
    there is no rule.  Otherwise it answers a product that has a rule,
    with the sum of [total_triggers] over the rules of that product, and
    no product has a greater sum. *)
Theorem most_triggered_product_is_maximal (w : world) :
  let rules := dict_values (reorder_rules w) in
  match get_most_triggered_product w with
  | None => rules = []
  | Some best =>
      (exists rule,
          rule ∈ rules /\ Rule.product_id rule = ProductCount.product_id best)
      /\ ProductCount.total_triggers best
         = product_triggers rules (ProductCount.product_id best)
      /\ (forall rule,
            rule ∈ rules ->
            product_triggers rules (Rule.product_id rule)
            <= ProductCount.total_triggers best)
  end.
Proof.
  intros rules. unfold get_most_triggered_product. fold rules.
  set (counts := count_triggers rules []).
  assert (Hget : forall p,
            dict_get p counts
            = match List.filter (fun rule => String.eqb (Rule.product_id rule) p)
                                rules with
              | [] => None
              | rule :: _ =>
                  Some (ProductCount.mk p (default ""%string (Rule.product_name rule))
                          (product_triggers rules p))
              end).
  { intros p. subst counts. now rewrite count_triggers_get. }
  assert (Hnd : NoDup (map fst counts)) by (apply count_triggers_NoDup; constructor).
  assert (Hown : forall rule, rule ∈ rules ->
            exists name,
              dict_get (Rule.product_id rule) counts
              = Some (ProductCount.mk (Rule.product_id rule) name
                        (product_triggers rules (Rule.product_id rule)))).
  { intros rule Hin. rewrite Hget.
    destruct (List.filter _ rules) as [|first rest] eqn:Hf; [|eauto].
    exfalso. assert (Hmem : In rule (List.filter
                              (fun r => String.eqb (Rule.product_id r)
                                          (Rule.product_id rule)) rules)).
    { apply filter_In. split; [now apply list_elem_of_In|apply String.eqb_refl]. }
    now rewrite Hf in Hmem. }
  clearbody counts.
  destruct counts as [|[k0 c0] counts'] eqn:Hcounts.
  - destruct rules as [|rule rules']; [reflexivity|].
    destruct (Hown rule) as (name & Hrule); [left|]. discriminate.
  - rewrite <- Hcounts in *.
    destruct (max_key_first
                (fun a b => ProductCount.total_triggers a
                            <? ProductCount.total_triggers b)
                (dict_values counts))
      as (before & best & after & -> & Heq & Hb & Ha).
    + intros a b c. rewrite !Z.ltb_lt. lia.
    + intros a b c. rewrite Z.ltb_ge, !Z.ltb_lt. lia.
    + rewrite Hcounts. discriminate.
    + assert (Hbest : best ∈ dict_values counts).
      { rewrite Heq. apply elem_of_app. right. left. }
      apply list_elem_of_fmap in Hbest as ([k c] & -> & Hkc). cbn [snd] in *.
      apply (dict_elem_get _ _ _ Hnd) in Hkc. rewrite Hget in Hkc.
      destruct (List.filter _ rules) as [|first rest] eqn:Hf; [discriminate|].
      injection Hkc as <-. cbn [ProductCount.product_id ProductCount.total_triggers].
      split; [|split; [reflexivity|]].
      * exists first.
        assert (Hin : In first (List.filter
                                  (fun r => String.eqb (Rule.product_id r) k) rules))
          by (rewrite Hf; now left).
        apply filter_In in Hin as [Hin Hk]. apply String.eqb_eq in Hk.
        split; [now apply list_elem_of_In|assumption].
      * intros rule Hin. destruct (Hown rule Hin) as (name & Hrule).
        apply dict_get_elem in Hrule.
        assert (Hmem : ProductCount.mk (Rule.product_id rule) name
                         (product_triggers rules (Rule.product_id rule))
                       ∈ dict_values counts).
        { apply list_elem_of_fmap. eexists (_, _). split; [|exact Hrule]. reflexivity. }
        rewrite Heq in Hmem. apply elem_of_app in Hmem as [Hmem|Hmem].
        -- rewrite Forall_forall in Hb. specialize (Hb _ Hmem).
           cbn in Hb. apply Z.ltb_lt in Hb. cbn in Hb. lia.
        -- apply elem_of_cons in Hmem as [Hmem|Hmem].
           ++ apply (f_equal ProductCount.total_triggers) in Hmem. cbn in Hmem. lia.
           ++ rewrite Forall_forall in Ha. specialize (Ha _ Hmem).
              cbn in Ha. apply Z.ltb_ge in Ha. cbn in Ha. lia.
Qed.



(* ===================================================================== *)
(** * Forecasting: lookups and market trends                              *)
(* ===================================================================== *)

(** X24.  [GET /historical/<product_id>] answers "not found" exactly
    for a product without an entry in [historical_data].  Every
    [POST /historical] for a product, also one that fails or whose record
    falls outside the window, leaves the product with an entry, so that
    the lookup then answers with the series, which may be empty.  The
    count [historical_records] of [GET /status] is the number of
    products with an entry, not the number of records: a post for a
    product that has an entry leaves it unchanged. *)
Theorem historical_lookup_after_post (fromisoformat : string -> option Py.parsed)
    (data : Historical.request) (w : world) :
  let product_id := Historical.req_product_id data in
  let w' := (add_historical_data fromisoformat data w).2 in
  (get_historical_data product_id w = NotFound
   <-> historical_data w !! product_id = None)
  /\ get_historical_data product_id w'
     = Found (series_of w' product_id, length (series_of w' product_id))
  /\ (forall other, other <> product_id ->
        get_historical_data other w' = get_historical_data other w)
  /\ (forecasting_status w').2
     = (if historical_data w !! product_id is Some _
        then (forecasting_status w).2 else S (forecasting_status w).2)
  /\ (forecasting_status w').1 = (forecasting_status w).1.
Proof.
  intros product_id w'. subst w'.
  rewrite add_historical_data_run. cbv zeta. fold product_id.
  unfold get_historical_data, forecasting_status, series_of.
  split.
  { destruct (historical_data w !! product_id); split; congruence. }
  destruct (comprehension _ _) as [kept|e];
    cbn [fst snd historical_data set_historical_data forecast_data set_ticks];
    rewrite lookup_insert_eq; cbn [default];
    (split; [reflexivity|]);
    (split; [intros other Hne; now rewrite lookup_insert_ne by congruence|]);
    (split; [|reflexivity]);
    rewrite map_size_insert; now destruct (historical_data w !! product_id).
Qed.





(** X26.  [POST /trends] always stores the trend and answers with it,
    with the direction [stable] and the impact factor 1 when the body
    gives none.  A trend stored under the same id is replaced in place,
    so that the number of trends is unchanged; otherwise the trend goes
    to the end.  The other trends, and the rest of the state apart from
    the clock reading, are untouched. *)
Theorem add_market_trend_stored (data : Trend.request) (s : store) :
  let trend_id := Trend.req_trend_id data in
  exists trend s',
    add_market_trend data s = (TrendAdded trend, s')
    /\ Trend.trend_id trend = trend_id
    /\ Trend.trend_direction trend
       = default "stable"%string (Trend.req_trend_direction data)
    /\ Trend.impact_factor trend = default 1%Q (Trend.req_impact_factor data)
    /\ Trend.date_recorded trend = reading (core s) 0
    /\ dict_get trend_id (market_trends s') = Some trend
    /\ (forall other, other <> trend_id ->
          dict_get other (market_trends s') = dict_get other (market_trends s))
    /\ (dict_get trend_id (market_trends s) = None ->
        market_trends s' = market_trends s ++ [(trend_id, trend)])
    /\ (is_Some (dict_get trend_id (market_trends s)) ->
        map fst (market_trends s') = map fst (market_trends s)
        /\ (get_market_trends s').2 = (get_market_trends s).2)
    /\ core s' = set_ticks (S (ticks (core s))) (core s).
Proof.
  intros trend_id. unfold add_market_trend, try_except_store. run_store.
  cbn. fold trend_id. eexists _, _. split; [reflexivity|]. cbn.
  do 4 (split; [reflexivity|]).
  split; [apply dict_get_set_eq|].
  split; [intros other Hne; now apply dict_get_set_ne|].
  split; [apply dict_set_keys_absent|]. split; [|reflexivity].
  intros Hsome. pose proof (dict_set_keys_present trend_id
    (Trend.mk trend_id (Trend.req_category data) (Trend.req_trend_value data)
       (default "stable"%string (Trend.req_trend_direction data))
       (default 1%Q (Trend.req_impact_factor data))
       (default ""%string (Trend.req_source data)) (reading (core s) 0)
       (default ""%string (Trend.req_valid_until data)))
    (market_trends s) Hsome) as Hkeys.
  split; [exact Hkeys|].
  unfold get_market_trends. cbn [snd set_market_trends market_trends].
  rewrite <- (length_map fst), Hkeys. apply length_map.
Qed.
